(** * Auditly: the SEO analysis engine ([auditly/seo_analyzer.py])

    A shallow embedding of the analysis engine of Auditly: the extractors
    that turn a parsed page and its HTTP response into lists of findings,
    the scorer ([calculate_scores]), the suggestion generator
    ([generate_improvements]) and the analysis that chains them ([analyze]);
    with them the helpers of [utils.py] and the tests by which the
    dashboard ([main.py]) files and colours the findings; followed by the
    properties established about them.

    Conventions of the embedding
    - a Python [str] is a [string] whose characters are code points of the
      Latin-1 range (0..255); [len] is [String.length];
    - a Python [int] is a [Z]; a Python [float] is an IEEE 754 binary64 value,
      a [spec_float] operated on with the Standard Library's reference
      implementation at precision 53 and exponent bound 1024;
    - a call that may raise returns a [result]; [try: ... except: ...] is
      [try_except];
    - the outside world (the registry lookup, the mobile probe, the clock) is
      an explicit argument of the function that consults it. *)

From Stdlib Require Import ZArith List String Ascii Bool Lia Arith.
From Stdlib Require Import QArith SpecFloat DecimalString FMapPositive.
From Stdlib Require Import Sorting.Permutation Sorting.Sorted.
Import ListNotations.

Local Open Scope list_scope.
Local Open Scope string_scope.
Local Open Scope Z_scope.

(* ================================================================= *)
(** ** Python strings *)

Module PyStr.

(** [str.lower] on one code point of the Latin-1 range: the ASCII capitals
    and the capitals 192..222 (except the multiplication sign 215) move
    up by 32. *)
Definition lower_char (c : ascii) : ascii :=
  let n := nat_of_ascii c in
  if (((65 <=? n) && (n <=? 90)) ||
      ((192 <=? n) && (n <=? 222) && negb (n =? 215)))%nat
  then ascii_of_nat (n + 32) else c.

Fixpoint lower (s : string) : string :=
  match s with
  | EmptyString => EmptyString
  | String c r => String (lower_char c) (lower r)
  end.

(** [s.startswith(p)] *)
Fixpoint startswith (s p : string) {struct p} : bool :=
  match p, s with
  | EmptyString, _ => true
  | String _ _, EmptyString => false
  | String a p', String b s' => Ascii.eqb a b && startswith s' p'
  end.

(** [k in x] for two strings *)
Fixpoint contains (x k : string) : bool :=
  startswith x k ||
  match x with
  | EmptyString => false
  | String _ x' => contains x' k
  end.

(** [s.endswith(p)] *)
Fixpoint endswith (s p : string) : bool :=
  String.eqb s p ||
  match s with
  | EmptyString => false
  | String _ s' => endswith s' p
  end.

(** [s.replace(old, new)]: the occurrences of [old] are found from left to
    right and do not overlap.  [skip] counts the characters of a matched
    occurrence still to be dropped. *)
Fixpoint replace_from (old new : string) (skip : nat) (s : string) : string :=
  match s with
  | EmptyString => EmptyString
  | String c r =>
      match skip with
      | S k => replace_from old new k r
      | O =>
          if startswith s old
          then new ++ replace_from old new (String.length old - 1) r
          else String c (replace_from old new O r)
      end
  end.

Fixpoint intersperse (new s : string) : string :=
  match s with
  | EmptyString => new
  | String c r => new ++ String c (intersperse new r)
  end.

Definition replace (s old new : string) : string :=
  match old with
  | EmptyString => intersperse new s
  | _ => replace_from old new O s
  end.

(** [str.isspace] on one code point of the Latin-1 range *)
Definition is_space (c : ascii) : bool :=
  let n := nat_of_ascii c in
  (((9 <=? n) && (n <=? 13)) || ((28 <=? n) && (n <=? 32)) ||
   (n =? 133) || (n =? 160))%nat.

(** [s.split()]: the maximal runs of non-blank characters, in order.
    [cur] is the run being read, reversed. *)
Definition flush (cur : list ascii) : list string :=
  match cur with
  | [] => []
  | _ => [string_of_list_ascii (rev cur)]
  end.

Fixpoint split_from (cur : list ascii) (s : string) : list string :=
  match s with
  | EmptyString => flush cur
  | String c r =>
      if is_space c then flush cur ++ split_from [] r
      else split_from (c :: cur) r
  end.

Definition split (s : string) : list string := split_from [] s.

(** [', '.join(l)] and the like *)
Fixpoint join (sep : string) (l : list string) : string :=
  match l with
  | [] => ""
  | [x] => x
  | x :: r => x ++ sep ++ join sep r
  end.

(** [str(n)] for an [int] *)
Definition of_Z (n : Z) : string := NilZero.string_of_int (Z.to_int n).

(** Truth value of a string: [if s:] *)
Definition truthy (s : string) : bool := negb (String.eqb s "").

End PyStr.

(* ================================================================= *)
(** ** Python numbers *)

Module PyNum.

Definition prec : Z := 53.
Definition emax : Z := 1024.

Definition float := spec_float.

(** [float(n)] for an [int], correctly rounded *)
Definition of_int (n : Z) : float := binary_normalize prec emax n 0 false.

Definition fadd : float -> float -> float := SFadd prec emax.
Definition fmul : float -> float -> float := SFmul prec emax.
Definition fdiv : float -> float -> float := SFdiv prec emax.

(** The float denoted by the decimal literal [num/den] when both are
    small integers: the double nearest to the quotient. *)
Definition literal (num den : Z) : float := fdiv (of_int num) (of_int den).

(** A value that is an [int] or a [float] *)
Inductive num :=
| PInt (n : Z)
| PFloat (x : float).

Definition to_float (a : num) : float :=
  match a with
  | PInt n => of_int n
  | PFloat x => x
  end.

(** [a < b]; an [int] taking part in a mixed comparison is below 2^53 in
    absolute value everywhere in this program, where its conversion is
    exact. *)
Definition lt (a b : num) : bool :=
  match a, b with
  | PInt m, PInt n => m <? n
  | _, _ => SFltb (to_float a) (to_float b)
  end.

(** [a == b] *)
Definition eq (a b : num) : bool :=
  match a, b with
  | PInt m, PInt n => m =? n
  | _, _ => SFeqb (to_float a) (to_float b)
  end.

(** [min(a, b)] and [max(a, b)]: the first argument is kept unless the
    second is strictly smaller (larger). *)
Definition min (a b : num) : num := if lt b a then b else a.
Definition max (a b : num) : num := if lt a b then b else a.

(** The exact rational value of a finite float *)
Definition to_Q (x : float) : Q :=
  match x with
  | S754_finite s m e =>
      let v := (if s then Zneg m else Zpos m) in
      match e with
      | Zneg p => v # (2 ^ p)
      | _ => inject_Z (v * 2 ^ e)
      end
  | _ => 0%Q
  end.

Definition is_finite (x : float) : bool :=
  match x with
  | S754_finite _ _ _ | S754_zero _ => true
  | _ => false
  end.

Definition value (a : num) : Q :=
  match a with
  | PInt n => inject_Z n
  | PFloat x => to_Q x
  end.

End PyNum.

(* ================================================================= *)
(** ** The scorer: [calculate_scores] *)

(** A finding is a line of text. *)
Abbreviation Finding := string (only parsing).

Definition count_issues (analysis : list Finding) (keywords : list string) : Z :=
  Z.of_nat (List.length (filter
    (fun x => existsb (fun k => PyStr.contains (PyStr.lower x) k) keywords)
    analysis)).

(** [max(0, min(100, s))] on [int]s, through Python's [min] and [max] *)
Definition clamp (s : PyNum.num) : PyNum.num :=
  PyNum.max (PyNum.PInt 0) (PyNum.min (PyNum.PInt 100) s).

Definition clamp_int (s : Z) : Z :=
  match clamp (PyNum.PInt s) with
  | PyNum.PInt n => n
  | PyNum.PFloat _ => s
  end.

Inductive category := Meta | Content | Technical | Speed | Security | Links.

Definition categories : list category :=
  [Meta; Content; Technical; Speed; Security; Links].

Definition issue_keywords (c : category) : list string :=
  match c with
  | Meta => ["missing"; "too"; "no"]
  | Content => ["missing"; "too short"; "multiple"]
  | Technical => ["not"; "slow"; "needs"]
  | Speed => ["slow"; "large"]
  | Security => ["not"; "risk"; "could not"]
  | Links => ["broken"; "invalid"]
  end.

Definition deduction (c : category) : Z :=
  match c with
  | Meta => 15
  | Content => 10
  | Technical => 20
  | Speed => 25
  | Security => 30
  | Links => 15
  end.

(** The six finding lists handed to the scorer and to the suggestion
    generator, one per category. *)
Record Analyses := {
  meta_analysis : list Finding;
  content_analysis : list Finding;
  technical_analysis : list Finding;
  speed_analysis : list Finding;
  security_analysis : list Finding;
  link_analysis : list Finding
}.

Definition analysis_of (a : Analyses) (c : category) : list Finding :=
  match c with
  | Meta => meta_analysis a
  | Content => content_analysis a
  | Technical => technical_analysis a
  | Speed => speed_analysis a
  | Security => security_analysis a
  | Links => link_analysis a
  end.

(** The raw score of a category, before normalisation *)
Definition raw_score (a : Analyses) (c : category) : Z :=
  100 - count_issues (analysis_of a c) (issue_keywords c) * deduction c.

(** The dictionary [scores] before the key ['overall'] is added *)
Definition sub_score (a : Analyses) (c : category) : Z :=
  clamp_int (raw_score a c).

Definition weight (c : category) : PyNum.float :=
  match c with
  | Meta => PyNum.literal 2 10
  | Content => PyNum.literal 25 100
  | Technical => PyNum.literal 15 100
  | Speed => PyNum.literal 15 100
  | Security => PyNum.literal 15 100
  | Links => PyNum.literal 1 10
  end.

(** [sum(scores[k] * weights[k] for k in scores)]: the accumulator starts
    at the [int] 0 and the products are added from left to right in the
    order of the keys of [scores]. *)
Definition weighted_sum (score : category -> Z) : PyNum.float :=
  fold_left
    (fun acc k => PyNum.fadd acc (PyNum.fmul (PyNum.of_int (score k)) (weight k)))
    categories (PyNum.of_int 0).

Record Scores := {
  score_of : category -> Z;
  overall : PyNum.num
}.

Definition calculate_scores (a : Analyses) : Scores :=
  let scores := sub_score a in
  let overall_score := weighted_sum scores in
  {| score_of := scores;
     overall := clamp (PyNum.PFloat overall_score) |}.

(* ================================================================= *)
(** ** The suggestion generator: [generate_improvements] *)

(** The keys of [all_analyses] *)
Definition display_name (c : category) : string :=
  match c with
  | Meta => "Meta Tags"
  | Content => "Content"
  | Technical => "Technical"
  | Speed => "Speed"
  | Security => "Security"
  | Links => "Links"
  end.

Definition trigger_keywords : list string :=
  ["missing"; "too"; "no"; "not"; "slow"; "large"; "multiple"; "broken"].

Definition is_issue (issue : Finding) : bool :=
  existsb (fun keyword => PyStr.contains (PyStr.lower issue) keyword)
          trigger_keywords.

(** The five calls of [str.replace], each on the result of the previous *)
Definition substitutions : list (string * string) :=
  [("Missing", "Add");
   ("Too short", "Increase length of");
   ("Too long", "Reduce length of");
   ("No ", "Add ");
   ("Not ", "Enable ")].

Definition rewrite_issue (issue : Finding) : string :=
  fold_left (fun suggestion r => PyStr.replace suggestion (fst r) (snd r))
            substitutions issue.

Definition suggestion_for (c : category) (issue : Finding) : string :=
  "[" ++ display_name c ++ "] " ++ rewrite_issue issue.

Definition improvements_of (c : category) (analysis : list Finding)
  : list string :=
  flat_map (fun issue =>
              if is_issue issue then [suggestion_for c issue] else [])
           analysis.

Definition generate_improvements (a : Analyses) : list string :=
  flat_map (fun c => improvements_of c (analysis_of a c)) categories.

(* ================================================================= *)
(** ** Exceptions and the list of findings under construction *)

Inductive exn :=
| ValueError
| TypeError
| ZeroDivisionError
| OverflowError
| OtherError (what : string).

Inductive result (A : Type) :=
| Ok (a : A)
| Raise (e : exn).

Arguments Ok {A} a.
Arguments Raise {A} e.

(** An extractor starts with [analysis = []], appends to it and returns it.
    [Exec A] is a computation that reads and extends [analysis] and ends
    with a value or an exception; what was appended before an exception
    stays appended. *)
Definition Exec (A : Type) : Type := list Finding -> list Finding * result A.

Definition ret {A} (a : A) : Exec A := fun st => (st, Ok a).

Definition raise {A} (e : exn) : Exec A := fun st => (st, Raise e).

Definition lift {A} (r : result A) : Exec A := fun st => (st, r).

Definition bind {A B} (m : Exec A) (k : A -> Exec B) : Exec B :=
  fun st =>
    match m st with
    | (st', Ok a) => k a st'
    | (st', Raise e) => (st', Raise e)
    end.

Declare Scope exec_scope.
Delimit Scope exec_scope with exec.
Notation "x <- m ;; k" := (bind m (fun x => k))
  (at level 61, m at next level, right associativity) : exec_scope.
Notation "m ;; k" := (bind m (fun _ => k))
  (at level 61, right associativity) : exec_scope.

(** [analysis.append(f)] *)
Definition append (f : Finding) : Exec unit := fun st => ((st ++ [f])%list, Ok tt).

Definition skip : Exec unit := ret tt.

(** [try: body  except: handler] with a bare [except], which catches every
    exception *)
Definition try_except {A} (body handler : Exec A) : Exec A :=
  fun st =>
    match body st with
    | (st', Raise _) => handler st'
    | done => done
    end.

(** [analysis = []; ...; return analysis] *)
Definition returning_analysis (m : Exec unit) : result (list Finding) :=
  match m [] with
  | (analysis, Ok _) => Ok analysis
  | (_, Raise e) => Raise e
  end.

(** [a / b] on two [int]s: division by zero raises, and so does a quotient
    that rounds beyond the largest float, [(2^54 - 1) * 2^970] in absolute
    value.  The operands are converted exactly (they are far below 2^53
    here, or [b] is a power of two) and the quotient is rounded once. *)
Definition overflow_bound : Z := (2 ^ 54 - 1) * 2 ^ 970.

Definition true_div (a b : Z) : result PyNum.float :=
  if b =? 0 then Raise ZeroDivisionError
  else if overflow_bound * Z.abs b <=? Z.abs a then Raise OverflowError
  else Ok (PyNum.fdiv (PyNum.of_int a) (PyNum.of_int b)).

(* ================================================================= *)
(** ** Formatting a float with a fixed number of decimals *)

Module Fmt.

(** The integer nearest to [p/q] (for [q > 0] and [p >= 0]), ties to even *)
Definition round_half_even (p q : Z) : Z :=
  let f := p / q in
  let r := p mod q in
  match 2 * r ?= q with
  | Lt => f
  | Gt => f + 1
  | Eq => if Z.even f then f else f + 1
  end.

(** [|x| * 10^digits] rounded to an integer, from the exact binary value *)
Definition scaled (digits : nat) (x : PyNum.float) : Z :=
  match x with
  | S754_finite _ m e =>
      let t := 10 ^ Z.of_nat digits in
      match e with
      | Zneg p => round_half_even (Zpos m * t) (2 ^ Zpos p)
      | _ => Zpos m * 2 ^ e * t
      end
  | _ => 0
  end.

Definition is_negative (x : PyNum.float) : bool :=
  match x with
  | S754_finite s _ _ | S754_zero s | S754_infinity s => s
  | S754_nan => false
  end.

Fixpoint zeros (n : nat) : string :=
  match n with
  | O => ""
  | S k => "0" ++ zeros k
  end.

(** The fraction digits of [r], padded on the left to [digits] places *)
Definition fraction (digits : nat) (r : Z) : string :=
  let s := PyStr.of_Z r in
  zeros (digits - String.length s) ++ s.

(** [f"{x:.<digits>f}"] for [digits >= 1] *)
Definition fixed (digits : nat) (x : PyNum.float) : string :=
  match x with
  | S754_nan => "nan"
  | S754_infinity s => if s then "-inf" else "inf"
  | _ =>
      let t := 10 ^ Z.of_nat digits in
      let r := scaled digits x in
      (if is_negative x then "-" else "") ++
      PyStr.of_Z (r / t) ++ "." ++ fraction digits (r mod t)
  end.

End Fmt.

(* ================================================================= *)
(** ** The parsed page and the HTTP response *)

(** A tag of the parsed document: its name, its attributes (names and raw
    values, in order) and its [.string], the single text child when there
    is exactly one. *)
Record Tag := {
  tag_name : string;
  tag_attrs : list (string * string);
  tag_string : option string
}.

(** The parsed document: its tags in document order *)
Definition Soup := list Tag.

(** [tag.get(key)] *)
Fixpoint lookup (key : string) (attrs : list (string * string))
  : option string :=
  match attrs with
  | [] => None
  | (k, v) :: r => if String.eqb k key then Some v else lookup key r
  end.

Definition get (t : Tag) (key : string) : option string :=
  lookup key (tag_attrs t).

(** [tag.get(key, default)] *)
Definition get_default (t : Tag) (key default : string) : string :=
  match get t key with
  | Some v => v
  | None => default
  end.

Definition named (name : string) (t : Tag) : bool :=
  String.eqb (tag_name t) name.

(** An attribute filter with a string: the attribute is present and equal
    to it.  The multi-valued attribute [rel] is a list of tokens and matches
    when one of its tokens does. *)
Definition attr_is (key value : string) (t : Tag) : bool :=
  match get t key with
  | None => false
  | Some v =>
      if String.eqb key "rel"
      then existsb (String.eqb value) (PyStr.split v)
      else String.eqb v value
  end.

(** [soup.find_all(name)] and [soup.find_all(name, <attribute filter>)] *)
Definition find_all (name : string) (soup : Soup) : list Tag :=
  filter (named name) soup.

Definition find_all_where (name : string) (p : Tag -> bool) (soup : Soup)
  : list Tag :=
  filter (fun t => named name t && p t) soup.

(** [soup.find(name, {key: value})] *)
Definition find (name key value : string) (soup : Soup) : option Tag :=
  hd_error (find_all_where name (attr_is key value) soup).

(** [soup.title] *)
Definition title_tag (soup : Soup) : option Tag :=
  hd_error (find_all "title" soup).

(** [len(l)] *)
Definition len {A} (l : list A) : Z := Z.of_nat (List.length l).
Definition strlen (s : string) : Z := Z.of_nat (String.length s).

(** The response of the page fetch: [response.elapsed.total_seconds()],
    [response.headers], whose names compare without case, and the body. *)
Record Response := {
  total_seconds : PyNum.float;
  headers : list (string * string);
  body : string                       (* [response.text] *)
}.

Fixpoint header (name : string) (hs : list (string * string))
  : option string :=
  match hs with
  | [] => None
  | (k, v) :: r =>
      if String.eqb (PyStr.lower k) (PyStr.lower name) then Some v
      else header name r
  end.

(* ================================================================= *)
(** ** The Meta extractor: [analyze_meta_tags] *)

Local Open Scope exec_scope.

(** The three-way classification shared by the title and the description *)
Definition length_finding (what : string) (lo hi : Z) (range : string)
  (n : Z) : Finding :=
  if n <? lo then
    what ++ " is too short (" ++ PyStr.of_Z n ++ " chars, recommended: "
         ++ range ++ ")"
  else if hi <? n then
    what ++ " is too long (" ++ PyStr.of_Z n ++ " chars, recommended: "
         ++ range ++ ")"
  else
    what ++ " length is optimal (" ++ PyStr.of_Z n ++ " chars)".

(** [soup.title.string if soup.title else None] *)
Definition title_of (soup : Soup) : option string :=
  match title_tag soup with
  | Some t => tag_string t
  | None => None
  end.

(** Truth value of [x] for [x] a string or [None] *)
Definition truthy_opt (x : option string) : bool :=
  match x with
  | Some s => PyStr.truthy s
  | None => false
  end.

Definition check_title (soup : Soup) : Exec unit :=
  match title_of soup with
  | Some title =>
      if PyStr.truthy title
      then append (length_finding "Title tag" 30 60 "50-60" (strlen title))
      else append "Missing title tag"
  | None => append "Missing title tag"
  end.

Definition check_description (soup : Soup) : Exec unit :=
  match find "meta" "name" "description" soup with
  | Some meta_desc =>
      match get meta_desc "content" with
      | Some content =>
          if PyStr.truthy content
          then append (length_finding "Meta description" 120 155 "120-155"
                                      (strlen content))
          else append "Missing meta description"
      | None => append "Missing meta description"
      end
  | None => append "Missing meta description"
  end.

Definition check_robots (soup : Soup) : Exec unit :=
  match find "meta" "name" "robots" soup with
  | Some robots =>
      append ("Robots meta tag found: " ++ get_default robots "content" "")
  | None => append "No robots meta tag found"
  end.

Definition check_canonical (soup : Soup) : Exec unit :=
  match find "link" "rel" "canonical" soup with
  | Some canonical =>
      append ("Canonical URL is set to: " ++ get_default canonical "href" "")
  | None => append "No canonical URL specified"
  end.

Definition check_viewport (soup : Soup) : Exec unit :=
  match find "meta" "name" "viewport" soup with
  | Some _ => append "Viewport meta tag is properly set for mobile devices"
  | None => append "Missing viewport meta tag for mobile responsiveness"
  end.

(** [soup.find_all('meta', property=re.compile('^og:'))] *)
Definition og_tags (soup : Soup) : list Tag :=
  find_all_where "meta"
    (fun t => match get t "property" with
              | Some v => PyStr.startswith v "og:"
              | None => false
              end) soup.

Definition check_open_graph (soup : Soup) : Exec unit :=
  match og_tags soup with
  | [] => append "No Open Graph tags found for social media optimization"
  | tags =>
      append ("Found " ++ PyStr.of_Z (len tags)
              ++ " Open Graph tags for social media sharing")
  end.

Definition analyze_meta_tags (soup : Soup) : result (list Finding) :=
  returning_analysis (
    check_title soup ;;
    check_description soup ;;
    check_robots soup ;;
    check_canonical soup ;;
    check_viewport soup ;;
    check_open_graph soup).

(* ================================================================= *)
(** ** The Content extractor: [analyze_content] *)

(** [for x in l: body(x)] *)
Fixpoint for_each {A} (l : list A) (body : A -> Exec unit) : Exec unit :=
  match l with
  | [] => skip
  | x :: r => body x ;; for_each r body
  end.

Definition heading_levels : list string :=
  ["h1"; "h2"; "h3"; "h4"; "h5"; "h6"].

(** The dictionary [headings], in the order of its keys *)
Definition headings (soup : Soup) : list (string * Z) :=
  map (fun k => (k, len (find_all k soup))) heading_levels.

Definition h1_count (soup : Soup) : Z := len (find_all "h1" soup).

Definition heading_summary (soup : Soup) : Finding :=
  "Heading structure: " ++
  PyStr.join ", "
    (map (fun kv => fst kv ++ ": " ++ PyStr.of_Z (snd kv))
         (filter (fun kv => 0 <? snd kv) (headings soup))).

Definition check_headings (soup : Soup) : Exec unit :=
  (if h1_count soup =? 0 then
     append "Missing H1 heading (main title)"
   else if 1 <? h1_count soup then
     append ("Multiple H1 headings detected (" ++ PyStr.of_Z (h1_count soup)
             ++ " found, recommended: 1)")
   else skip) ;;
  append (heading_summary soup).

Definition without_alt (img : Tag) : bool := negb (truthy_opt (get img "alt")).

Definition raster (img : Tag) : bool :=
  let src := get_default img "src" "" in
  PyStr.endswith src ".png" || PyStr.endswith src ".jpg"
  || PyStr.endswith src ".jpeg".

Definition check_images (soup : Soup) : Exec unit :=
  let images := find_all "img" soup in
  let total_images := len images in
  let images_without_alt := len (filter without_alt images) in
  let large_images := len (filter raster images) in
  append ("Total images: " ++ PyStr.of_Z total_images) ;;
  (if 0 <? images_without_alt then
     append ("Images without alt text: " ++ PyStr.of_Z images_without_alt)
   else skip) ;;
  (if 0 <? large_images then
     append ("Consider optimizing " ++ PyStr.of_Z large_images
             ++ " large image(s)")
   else skip).

(** [word_freq[word] = word_freq.get(word, 0) + 1] on a dictionary kept as
    the list of its items in insertion order *)
Fixpoint bump (word : string) (d : list (string * Z)) : list (string * Z) :=
  match d with
  | [] => [(word, 1)]
  | (k, v) :: r =>
      if String.eqb k word then (k, v + 1) :: r else (k, v) :: bump word r
  end.

Definition is_long (word : string) : bool := 3 <? strlen word.

Definition word_freq (words : list string) : list (string * Z) :=
  fold_left (fun d word => if is_long word then bump (PyStr.lower word) d
                           else d)
            words [].

(** [sorted(items, key=lambda x: x[1], reverse=True)]: a stable sort by
    decreasing count; an item goes before the first item whose count is not
    larger than its own. *)
Fixpoint insert_desc (x : string * Z) (l : list (string * Z))
  : list (string * Z) :=
  match l with
  | [] => [x]
  | y :: r => if snd x <? snd y then y :: insert_desc x r else x :: y :: r
  end.

Fixpoint sorted_desc (l : list (string * Z)) : list (string * Z) :=
  match l with
  | [] => []
  | x :: r => insert_desc x (sorted_desc r)
  end.

Definition top_keywords (words : list string) : list (string * Z) :=
  firstn 5 (sorted_desc (word_freq words)).

(** [density = (count / word_count) * 100] *)
Definition density (count word_count : Z) : result PyNum.float :=
  match true_div count word_count with
  | Ok q => Ok (PyNum.fmul q (PyNum.of_int 100))
  | Raise e => Raise e
  end.

Definition keyword_line (word : string) (d : PyNum.float) (count : Z)
  : Finding :=
  "- '" ++ word ++ "': " ++ Fmt.fixed 1 d ++ "% (" ++ PyStr.of_Z count
  ++ " occurrences)".

Definition word_count_finding (word_count : Z) : Finding :=
  if word_count <? 300 then
    "Content is too short (" ++ PyStr.of_Z word_count
    ++ " words, recommended: minimum 300)"
  else "Good content length: " ++ PyStr.of_Z word_count ++ " words".

Definition check_text (text_content : option string) : Exec unit :=
  match text_content with
  | Some text =>
      if PyStr.truthy text then
        let words := PyStr.split text in
        let word_count := len words in
        append (word_count_finding word_count) ;;
        append "Top 5 keywords and their density:" ;;
        for_each (top_keywords words) (fun item =>
          d <- lift (density (snd item) word_count) ;;
          append (keyword_line (fst item) d (snd item)))
      else skip
  | None => skip
  end.

Definition analyze_content (soup : Soup) (text_content : option string)
  : result (list Finding) :=
  returning_analysis (
    check_headings soup ;;
    check_images soup ;;
    check_text text_content).

(* ================================================================= *)
(** ** The Speed extractor: [analyze_speed] *)

(** [int(s)] for a string: blanks around an optional sign and decimal
    digits, where single underscores may separate digits.  (The limit that
    recent interpreters put on the number of digits is left out.) *)
Module PyInt.

Definition digit (c : ascii) : option Z :=
  let n := nat_of_ascii c in
  if ((48 <=? n) && (n <=? 57))%nat then Some (Z.of_nat (n - 48)) else None.

Fixpoint digits (acc : Z) (after_digit : bool) (s : string) : option Z :=
  match s with
  | EmptyString => if after_digit then Some acc else None
  | String c r =>
      match digit c with
      | Some d => digits (10 * acc + d) true r
      | None =>
          if Ascii.eqb c "_" && after_digit then digits acc false r
          else None
      end
  end.

Fixpoint lstrip (s : string) : string :=
  match s with
  | String c r => if PyStr.is_space c then lstrip r else s
  | EmptyString => s
  end.

Definition reverse (s : string) : string :=
  string_of_list_ascii (rev (list_ascii_of_string s)).

Definition strip (s : string) : string :=
  reverse (lstrip (reverse (lstrip s))).

Definition parse (s : string) : result Z :=
  let signed :=
    match strip s with
    | String "-" r => option_map Z.opp (digits 0 false r)
    | String "+" r => digits 0 false r
    | t => digits 0 false t
    end in
  match signed with
  | Some n => Ok n
  | None => Raise ValueError
  end.

End PyInt.

(** [int(response.headers.get('content-length', 0))] *)
Definition content_length (r : Response) : result Z :=
  match header "content-length" (headers r) with
  | Some v => PyInt.parse v
  | None => Ok 0
  end.

Definition gt (x : PyNum.float) (n : Z) : bool :=
  PyNum.lt (PyNum.PInt n) (PyNum.PFloat x).

Definition check_response_time (r : Response) : Exec unit :=
  let response_time := total_seconds r in
  if gt response_time 2 then
    append ("Slow server response time: " ++ Fmt.fixed 2 response_time
            ++ "s (recommended: < 2s)")
  else
    append ("Good server response time: " ++ Fmt.fixed 2 response_time ++ "s").

Definition check_page_size (r : Response) : Exec unit :=
  content_length <- lift (content_length r) ;;
  if 0 <? content_length then
    size_mb <- lift (true_div content_length (1024 * 1024)) ;;
    if gt size_mb 3 then
      append ("Large page size: " ++ Fmt.fixed 2 size_mb
              ++ "MB (recommended: < 3MB)")
    else
      append ("Good page size: " ++ Fmt.fixed 2 size_mb ++ "MB")
  else skip.

Definition analyze_speed (r : Response) : result (list Finding) :=
  returning_analysis (check_response_time r ;; check_page_size r).

(* ================================================================= *)
(** ** [urllib.parse]: [urlparse] and [urljoin]

    The library functions the analyzer calls, after CPython 3.11.  A URL
    whose network location holds a bracketed host is checked by the
    library's address parser, which is left to [bracketed_ok]. *)

Module Urllib.

Definition mem (x : string) (l : list string) : bool :=
  existsb (String.eqb x) l.

Definition uses_relative : list string :=
  [""; "ftp"; "http"; "gopher"; "nntp"; "imap"; "wais"; "file"; "https";
   "shttp"; "mms"; "prospero"; "rtsp"; "rtspu"; "sftp"; "svn"; "svn+ssh";
   "ws"; "wss"].

Definition uses_netloc : list string :=
  [""; "ftp"; "http"; "gopher"; "nntp"; "telnet"; "imap"; "wais"; "file";
   "mms"; "https"; "shttp"; "snews"; "prospero"; "rtsp"; "rtspu"; "rsync";
   "svn"; "svn+ssh"; "sftp"; "nfs"; "git"; "git+ssh"; "ws"; "wss"].

Definition uses_params : list string :=
  [""; "ftp"; "hdl"; "prospero"; "http"; "imap"; "https"; "shttp"; "rtsp";
   "rtspu"; "sip"; "sips"; "mms"; "sftp"; "tel"].

Definition between (lo hi : nat) (c : ascii) : bool :=
  let n := nat_of_ascii c in ((lo <=? n) && (n <=? hi))%nat.

Definition is_letter (c : ascii) : bool := between 65 90 c || between 97 122 c.

Definition is_scheme_char (c : ascii) : bool :=
  is_letter c || between 48 57 c
  || Ascii.eqb c "+" || Ascii.eqb c "-" || Ascii.eqb c ".".

Fixpoint all_chars (p : ascii -> bool) (s : string) : bool :=
  match s with
  | EmptyString => true
  | String c r => p c && all_chars p r
  end.

Fixpoint has (c : ascii) (s : string) : bool :=
  match s with
  | EmptyString => false
  | String d r => Ascii.eqb c d || has c r
  end.

(** [s.partition(c)]: the text before the first [c], and the text after
    it when there is one *)
Fixpoint partition (c : ascii) (s : string) : string * option string :=
  match s with
  | EmptyString => (EmptyString, None)
  | String d r =>
      if Ascii.eqb c d then (EmptyString, Some r)
      else let (before, after) := partition c r in (String d before, after)
  end.

(** [s.split(c)] *)
Fixpoint split_on (c : ascii) (s : string) : list string :=
  match s with
  | EmptyString => [EmptyString]
  | String d r =>
      if Ascii.eqb c d then EmptyString :: split_on c r
      else match split_on c r with
           | x :: l => String d x :: l
           | [] => [String d EmptyString]
           end
  end.

Fixpoint remove_chars (p : ascii -> bool) (s : string) : string :=
  match s with
  | EmptyString => EmptyString
  | String c r =>
      if p c then remove_chars p r else String c (remove_chars p r)
  end.

Fixpoint lstrip_c0 (s : string) : string :=
  match s with
  | String c r => if between 0 32 c then lstrip_c0 r else s
  | EmptyString => s
  end.

Definition unsafe (c : ascii) : bool :=
  let n := nat_of_ascii c in ((n =? 9) || (n =? 13) || (n =? 10))%nat.

(** The scheme of [url] when it has one, and what follows the colon *)
Definition split_scheme (default url : string) : string * string :=
  match partition ":" url, url with
  | (before, Some after), String c _ =>
      if is_letter c && all_chars is_scheme_char before
      then (PyStr.lower before, after)
      else (default, url)
  | _, _ => (default, url)
  end.

(** The text up to the first of [/], [?] and [#], and the rest *)
Fixpoint until_delim (s : string) : string * string :=
  match s with
  | EmptyString => (EmptyString, EmptyString)
  | String c r =>
      if Ascii.eqb c "/" || Ascii.eqb c "?" || Ascii.eqb c "#"
      then (EmptyString, s)
      else let (n, rest) := until_delim r in (String c n, rest)
  end.

Record Split := {
  scheme : string;
  netloc : string;
  path : string;
  query : string;
  fragment : string
}.

Section Parse.

Variable bracketed_ok : string -> bool.

Definition check_brackets (netloc : string) : result unit :=
  match has "[" netloc, has "]" netloc with
  | true, true =>
      if bracketed_ok netloc then Ok tt else Raise ValueError
  | false, false => Ok tt
  | _, _ => Raise ValueError
  end.

Definition urlsplit (url default : string) : result Split :=
  let url := remove_chars unsafe (lstrip_c0 url) in
  let default := remove_chars unsafe default in
  let (scheme, url) := split_scheme default url in
  let (netloc, url) :=
    match url with
    | String "/" (String "/" r) => until_delim r
    | _ => (EmptyString, url)
    end in
  match check_brackets netloc with
  | Raise e => Raise e
  | Ok _ =>
      let (url, fragment) := partition "#" url in
      let (url, query) := partition "?" url in
      Ok {| scheme := scheme; netloc := netloc; path := url;
            query := match query with Some q => q | None => "" end;
            fragment := match fragment with Some f => f | None => "" end |}
  end.

(** [urlparse(url).netloc] *)
Definition netloc_of (url : string) : result string :=
  match urlsplit url "" with
  | Ok s => Ok (netloc s)
  | Raise e => Raise e
  end.

(** [_splitparams]: the parameters follow the first [;] of the last
    path segment *)
Definition last_segment (path : string) : string * string :=
  match rev (split_on "/" path) with
  | last :: before =>
      (match before with
       | [] => ""
       | _ => PyStr.join "/" (rev before) ++ "/"
       end, last)
  | [] => ("", "")
  end.

Definition splitparams (path : string) : string * string :=
  let (dir, last) := last_segment path in
  match partition ";" last with
  | (name, Some params) => (dir ++ name, params)
  | (_, None) => (path, "")
  end.

(** [urlparse(url, default)]: the split result, its path freed of the
    parameters, and the parameters *)
Definition urlparse (url default : string) : result (Split * string) :=
  match urlsplit url default with
  | Raise e => Raise e
  | Ok s =>
      if mem (scheme s) uses_params && has ";" (path s) then
        let (url, params) := splitparams (path s) in
        Ok ({| scheme := scheme s; netloc := netloc s; path := url;
               query := query s; fragment := fragment s |}, params)
      else Ok (s, "")
  end.

Definition urlunsplit (s : Split) : string :=
  let url := path s in
  let url :=
    if PyStr.truthy (netloc s)
       || (PyStr.truthy (scheme s) && mem (scheme s) uses_netloc
           && negb (PyStr.startswith url "//"))
    then "//" ++ netloc s
         ++ (if PyStr.truthy url && negb (PyStr.startswith url "/")
             then "/" ++ url else url)
    else url in
  let url := if PyStr.truthy (scheme s) then scheme s ++ ":" ++ url
             else url in
  let url := if PyStr.truthy (query s) then url ++ "?" ++ query s
             else url in
  if PyStr.truthy (fragment s) then url ++ "#" ++ fragment s else url.

Definition urlunparse (s : Split) (params : string) : string :=
  urlunsplit
    {| scheme := scheme s; netloc := netloc s;
       path := if PyStr.truthy params then path s ++ ";" ++ params
               else path s;
       query := query s; fragment := fragment s |}.

(** [segments[1:-1] = filter(None, segments[1:-1])] *)
Definition drop_inner_empty (segments : list string) : list string :=
  match segments with
  | first :: rest =>
      match rev rest with
      | last :: inner =>
          (first :: filter PyStr.truthy (rev inner) ++ [last])%list
      | [] => segments
      end
  | [] => segments
  end.

(** The loop over [segments] that builds [resolved_path] *)
Definition resolve (segments : list string) : list string :=
  fold_left
    (fun resolved seg =>
       if String.eqb seg ".." then removelast resolved
       else if String.eqb seg "." then resolved
       else (resolved ++ [seg])%list)
    segments [].

Definition merge_paths (bpath path : string) : string :=
  let base_parts := split_on "/" bpath in
  let base_parts :=
    if PyStr.truthy (last base_parts "") then removelast base_parts
    else base_parts in
  let segments :=
    if PyStr.startswith path "/" then split_on "/" path
    else drop_inner_empty (base_parts ++ split_on "/" path)%list in
  let resolved := resolve segments in
  let resolved :=
    if mem (last segments "") ["."; ".."] then (resolved ++ [""])%list
    else resolved in
  let joined := PyStr.join "/" resolved in
  if PyStr.truthy joined then joined else "/".

Definition urljoin (base url : string) : result string :=
  if negb (PyStr.truthy base) then Ok url
  else if negb (PyStr.truthy url) then Ok base
  else
    match urlparse base "" with
    | Raise e => Raise e
    | Ok (b, bparams) =>
    match urlparse url (scheme b) with
    | Raise e => Raise e
    | Ok (u, params) =>
        if negb (String.eqb (scheme u) (scheme b))
           || negb (mem (scheme u) uses_relative)
        then Ok url
        else if mem (scheme u) uses_netloc && PyStr.truthy (netloc u)
        then Ok (urlunparse u params)
        else
          let netloc :=
            if mem (scheme u) uses_netloc then netloc b else netloc u in
          if negb (PyStr.truthy (path u)) && negb (PyStr.truthy params)
          then
            Ok (urlunparse
                  {| scheme := scheme u; netloc := netloc;
                     path := path b;
                     query := if PyStr.truthy (query u) then query u
                              else query b;
                     fragment := fragment u |} bparams)
          else
            Ok (urlunparse
                  {| scheme := scheme u; netloc := netloc;
                     path := merge_paths (path b) (path u);
                     query := query u; fragment := fragment u |} params)
    end
    end.

End Parse.

End Urllib.

(* ================================================================= *)
(** ** The outside world *)

(** What a field of the registry's answer may hold *)
#[local] Set Warnings "-register-all".
Inductive pyval :=
| VNone
| VDatetime (aware : bool) (us : Z)   (* microseconds since the epoch *)
| VStr (s : string)
| VList (l : list pyval).

Record WhoisEntry := {
  creation_date : pyval;
  expiration_date : pyval
}.

Record World := {
  (** [whois.whois(domain)] *)
  whois : string -> result WhoisEntry;
  (** [datetime.now()], a naive datetime, when the age of the domain and
      when the days until its expiry are computed *)
  now_for_age : Z;
  now_for_expiry : Z;
  (** the status code of [requests.get(url, headers=...)] with the mobile
      user agent *)
  mobile_get : string -> result Z;
  (** the library's check of a bracketed host in a network location *)
  bracketed_ok : string -> bool
}.

Definition truthy_val (v : pyval) : bool :=
  match v with
  | VNone => false
  | VDatetime _ _ => true
  | VStr s => PyStr.truthy s
  | VList l => match l with [] => false | _ => true end
  end.

(** [v = v[0]] when [v] is a list *)
Definition first_if_list (v : pyval) : result pyval :=
  match v with
  | VList (x :: _) => Ok x
  | VList [] => Raise (OtherError "IndexError")
  | _ => Ok v
  end.

Definition microseconds_per_day : Z := 86400 * 10 ^ 6.

(** [(a - b).days] where one side is [datetime.now()]: both must be naive
    datetimes *)
Definition days_between (a b : pyval) : result Z :=
  match a, b with
  | VDatetime false x, VDatetime false y =>
      Ok ((x - y) / microseconds_per_day)
  | _, _ => Raise TypeError
  end.

(* ================================================================= *)
(** ** The Security extractor: [analyze_security] *)

Definition check_https (url : string) : Exec unit :=
  if PyStr.startswith url "https" then append "Website is secured with HTTPS"
  else append "Website is not using HTTPS (security risk)".

(** The body of the [try] *)
Definition registration_info (w : World) (url : string) : Exec unit :=
  domain <- lift (Urllib.netloc_of (bracketed_ok w) url) ;;
  domain_info <- lift (whois w domain) ;;
  (if truthy_val (creation_date domain_info) then
     creation_date <- lift (first_if_list (creation_date domain_info)) ;;
     age <- lift (days_between (VDatetime false (now_for_age w))
                               creation_date) ;;
     append ("Domain age: " ++ PyStr.of_Z age ++ " days")
   else skip) ;;
  (if truthy_val (expiration_date domain_info) then
     expiration_date <- lift (first_if_list (expiration_date domain_info)) ;;
     days_until_expiry <-
       lift (days_between expiration_date
                          (VDatetime false (now_for_expiry w))) ;;
     append ("Days until domain expiry: " ++ PyStr.of_Z days_until_expiry)
   else skip).

Definition could_not_fetch : Finding :=
  "Could not fetch domain registration information".

Definition security_checks (w : World) (url : string) : Exec unit :=
  check_https url ;;
  try_except (registration_info w url) (append could_not_fetch).

Definition analyze_security (w : World) (url : string)
  : result (list Finding) :=
  returning_analysis (security_checks w url).

(* ================================================================= *)
(** ** The mobile probe: [check_mobile_friendly] *)

(** [return e] from a function that keeps no list of findings *)
Definition returning {A} (m : Exec A) : result A := snd (m []).

Definition check_mobile_friendly (w : World) (url : string) : result bool :=
  returning (
    try_except
      (status_code <- lift (mobile_get w url) ;;
       ret (status_code =? 200))
      (ret false)).

(* ================================================================= *)
(** ** The Links extractor: [analyze_links] *)

Definition has_href (t : Tag) : bool :=
  match get t "href" with Some _ => true | None => false end.

(** [soup.find_all('a', href=True)] *)
Definition anchors (soup : Soup) : list Tag :=
  find_all_where "a" has_href soup.

(** [not href or href.startswith('#')] *)
Definition skipped (href : string) : bool :=
  negb (PyStr.truthy href) || PyStr.startswith href "#".

(** [internal_links] and [external_links] *)
Definition Buckets : Type := list string * list string.

(** The body of the loop for one anchor that is not skipped *)
Definition classify (w : World) (url base_domain href : string)
  (b : Buckets) : Exec Buckets :=
  absolute_url <- lift (Urllib.urljoin (bracketed_ok w) url href) ;;
  netloc <- lift (Urllib.netloc_of (bracketed_ok w) absolute_url) ;;
  if String.eqb netloc base_domain || negb (PyStr.truthy netloc)
  then ret ((fst b ++ [absolute_url])%list, snd b)
  else ret (fst b, (snd b ++ [absolute_url])%list).

Fixpoint classify_all (w : World) (url base_domain : string)
  (links : list Tag) (b : Buckets) : Exec Buckets :=
  match links with
  | [] => ret b
  | link :: rest =>
      match get link "href" with
      | Some href =>
          if skipped href then classify_all w url base_domain rest b
          else
            b' <- classify w url base_domain href b ;;
            classify_all w url base_domain rest b'
      | None => classify_all w url base_domain rest b
      end
  end.

Definition nofollow (soup : Soup) : list Tag :=
  find_all_where "a" (attr_is "rel" "nofollow") soup.

Definition link_checks (w : World) (url : string) (soup : Soup) : Exec unit :=
  let links := anchors soup in
  base_domain <- lift (Urllib.netloc_of (bracketed_ok w) url) ;;
  b <- classify_all w url base_domain links ([], []) ;;
  append ("Total links found: " ++ PyStr.of_Z (len links)) ;;
  append ("Internal links: " ++ PyStr.of_Z (len (fst b))) ;;
  append ("External links: " ++ PyStr.of_Z (len (snd b))) ;;
  let nofollow_links := len (nofollow soup) in
  if 0 <? nofollow_links then
    append ("Links with nofollow: " ++ PyStr.of_Z nofollow_links)
  else skip.

Definition analyze_links (w : World) (url : string) (soup : Soup)
  : result (list Finding) :=
  returning_analysis (link_checks w url soup).

(* ================================================================= *)
(** ** The Technical extractor: [analyze_technical] *)

(** [headers.get(name, default)] *)
Definition header_or (name default : string) (r : Response) : string :=
  match header name (headers r) with
  | Some v => v
  | None => default
  end.

(** [urlparse(self.url).path] *)
Definition path_of (w : World) (url : string) : result string :=
  match Urllib.urlparse (bracketed_ok w) url "" with
  | Ok (s, _) => Ok (Urllib.path s)
  | Raise e => Raise e
  end.

(** [len([x for x in path.split('/') if x])] *)
Definition path_depth (path : string) : Z :=
  len (filter PyStr.truthy (Urllib.split_on "/" path)).

Definition check_response_headers (r : Response) : Exec unit :=
  append ("Server: " ++ header_or "Server" "Not disclosed" r) ;;
  (if PyStr.contains (PyStr.lower (header_or "Content-Encoding" "" r)) "gzip"
   then append "Content compression (gzip) is enabled"
   else append "Content compression is not enabled") ;;
  append ("Cache-Control: " ++ header_or "Cache-Control" "Not set" r) ;;
  append ("Expires: " ++ header_or "Expires" "Not set" r) ;;
  append ("Content-Type: " ++ header_or "Content-Type" "Not set" r).

Definition check_url_structure (w : World) (url : string) : Exec unit :=
  path <- lift (path_of w url) ;;
  if 3 <? path_depth path then
    append ("URL structure is deep (" ++ PyStr.of_Z (path_depth path)
            ++ " levels, recommended: maximum 3)")
  else skip.

Definition check_viewport_content (soup : Soup) : Exec unit :=
  match find "meta" "name" "viewport" soup with
  | Some viewport_meta =>
      let content := get_default viewport_meta "content" "" in
      if PyStr.contains content "width=device-width"
         && PyStr.contains content "initial-scale=1"
      then append "Viewport is properly configured for mobile devices"
      else append "Viewport meta tag needs optimization"
  | None => skip
  end.

Definition analyze_technical (w : World) (url : string) (r : Response)
  (soup : Soup) : result (list Finding) :=
  returning_analysis (
    check_response_headers r ;;
    check_url_structure w url ;;
    check_viewport_content soup).

(* ================================================================= *)
(** ** [utils.py] *)

(** [is_valid_url(url)] *)
Definition is_valid_url (w : World) (url : string) : result bool :=
  returning (
    try_except
      (parsed <- lift (Urllib.urlparse (bracketed_ok w) url "") ;;
       let result := fst parsed in
       ret (PyStr.truthy (Urllib.scheme result)
            && PyStr.truthy (Urllib.netloc result)
            && Urllib.mem (Urllib.scheme result) ["http"; "https"]))
      (ret false)).

(** [re.sub(r'\s+', ' ', s)]: every maximal run of blanks becomes one
    space.  [in_run] tells that the previous character was a blank. *)
Fixpoint collapse_from (in_run : bool) (s : string) : string :=
  match s with
  | EmptyString => EmptyString
  | String c r =>
      if PyStr.is_space c then
        if in_run then collapse_from true r
        else String " " (collapse_from true r)
      else String c (collapse_from false r)
  end.

(** [clean_text(text)] *)
Definition clean_text (text : option string) : string :=
  if truthy_opt text then
    match text with
    | Some t => collapse_from false (PyInt.strip t)
    | None => ""
    end
  else "".

(* ================================================================= *)
(** ** The whole analysis: [analyze] *)

(** What the two fetches of [analyze] and the clock give *)
Record Fetch := {
  (** [requests.get(self.url, headers=self.headers)] *)
  get_page : string -> result Response;
  (** [BeautifulSoup(text, 'html.parser')] *)
  parse_html : string -> Soup;
  (** [trafilatura.extract(trafilatura.fetch_url(self.url))] *)
  extract_text : string -> result (option string);
  (** [time.time()] at the start and when the result is built *)
  start_time : PyNum.float;
  end_time : PyNum.float
}.

(** The dictionary that [analyze] returns *)
Record Report := {
  overall_score : PyNum.num;
  metrics : list (string * Z);
  load_time : PyNum.float;
  mobile_friendly : bool;
  ssl_certified : bool;
  analyses : Analyses;
  improvements : list string
}.

Definition analyze (w : World) (f : Fetch) (url : string) : result Report :=
  returning (
    response <- lift (get_page f url) ;;
    let soup := parse_html f (body response) in
    text_content <- lift (extract_text f url) ;;
    meta <- lift (analyze_meta_tags soup) ;;
    content <- lift (analyze_content soup text_content) ;;
    technical <- lift (analyze_technical w url response soup) ;;
    speed <- lift (analyze_speed response) ;;
    security <- lift (analyze_security w url) ;;
    links <- lift (analyze_links w url soup) ;;
    let a := {| meta_analysis := meta; content_analysis := content;
                technical_analysis := technical; speed_analysis := speed;
                security_analysis := security; link_analysis := links |} in
    let improvements := generate_improvements a in
    let scores := calculate_scores a in
    mobile <- lift (check_mobile_friendly w url) ;;
    ret {| overall_score := overall scores;
           metrics := map (fun c => (display_name c, score_of scores c))
                          categories;
           load_time := SFsub PyNum.prec PyNum.emax (end_time f) (start_time f);
           mobile_friendly := mobile;
           ssl_certified := PyStr.startswith url "https";
           analyses := a;
           improvements := improvements |}).

(* ================================================================= *)
(** ** The dashboard: [main.py] *)

(** How an item of a tab is shown: [st.success], [st.error] or [st.info] *)
Inductive Box := StSuccess | StError | StInfo.

(** [key in item.lower()] *)
Definition mentions (item key : string) : bool :=
  PyStr.contains (PyStr.lower item) key.

Definition meta_box (item : string) : Box :=
  if mentions item "optimal" || mentions item "found" then StSuccess
  else if mentions item "missing" || mentions item "too" then StError
  else StInfo.

Definition technical_box (item : string) : Box :=
  if mentions item "not" || mentions item "needs" then StError else StSuccess.

Definition speed_box (item : string) : Box :=
  if mentions item "slow" || mentions item "large" then StError else StSuccess.

Definition security_box (item : string) : Box :=
  if mentions item "not" || mentions item "risk" then StError else StSuccess.

Definition link_box (item : string) : Box :=
  if mentions item "broken" then StError else StInfo.

(** [s.find(c)]: the index of the first [c], or -1 *)
Fixpoint find_from (c : ascii) (i : Z) (s : string) : Z :=
  match s with
  | EmptyString => -1
  | String d r => if Ascii.eqb c d then i else find_from c (i + 1) r
  end.

Definition py_find (c : ascii) (s : string) : Z := find_from c 0 s.

Fixpoint drop (n : nat) (s : string) : string :=
  match n, s with
  | S k, String _ r => drop k r
  | _, _ => s
  end.

Fixpoint take (n : nat) (s : string) : string :=
  match n, s with
  | S k, String c r => String c (take k r)
  | _, _ => EmptyString
  end.

(** An index of a slice: a negative one counts from the end *)
Definition slice_index (s : string) (i : Z) : nat :=
  Z.to_nat (if i <? 0 then Z.max 0 (i + strlen s) else i).

(** [s[start:stop]] and [s[start:]] *)
Definition slice (s : string) (start stop : Z) : string :=
  take (slice_index s stop - slice_index s start) (drop (slice_index s start) s).

Definition slice_from (s : string) (start : Z) : string :=
  drop (slice_index s start) s.

(** [item[1:item.find(']')]] and [item[item.find(']')+1:].strip()] *)
Definition category_of (item : string) : string :=
  slice item 1 (py_find "]" item).

Definition text_of (item : string) : string :=
  PyInt.strip (slice_from item (py_find "]" item + 1)).

(** [grouped_improvements[category].append(text)], the list being created
    when the category is new; the dictionary is the list of its items in
    insertion order. *)
Fixpoint add_item (category text : string) (d : list (string * list string))
  : list (string * list string) :=
  match d with
  | [] => [(category, [text])]
  | (k, l) :: r =>
      if String.eqb k category then (k, (l ++ [text])%list) :: r
      else (k, l) :: add_item category text r
  end.

Definition group_improvements (improvements : list string)
  : list (string * list string) :=
  fold_left (fun d item => add_item (category_of item) (text_of item) d)
            improvements [].

(** The Content tab.  An item that mentions "keywords" goes to the keyword
    column; another item goes to the content metrics, under the text before
    its first colon, or under "General" when it has no colon. *)
Definition metric_category (item : string) : string :=
  if Urllib.has ":" item then fst (Urllib.partition ":" item) else "General".

Definition file_item (tab : list (string * list string) * list string)
  (item : string) : list (string * list string) * list string :=
  if mentions item "keywords" then (fst tab, (snd tab ++ [item])%list)
  else (add_item (metric_category item) item (fst tab), snd tab).

(** The dictionary [metrics] and the list [keywords] after the loop *)
Definition content_tab (items : list string)
  : list (string * list string) * list string :=
  fold_left file_item items ([], []).

(* ================================================================= *)
(** ** Vocabulary of the statements *)

(** [k] occurs in [s] *)
Definition substring (k s : string) : Prop :=
  exists pre post, s = pre ++ k ++ post.

(** A finding is flagged by a vocabulary when its lowercased text holds one
    of the keywords. *)
Definition flagged (keywords : list string) (f : Finding) : Prop :=
  exists k, In k keywords /\ substring k (PyStr.lower f).

(** [tally P l n]: exactly [n] elements of [l] satisfy [P] *)
Inductive tally {A} (P : A -> Prop) : list A -> Z -> Prop :=
| tally_nil : tally P [] 0
| tally_hit x l n : P x -> tally P l n -> tally P (x :: l) (n + 1)
| tally_miss x l n : ~ P x -> tally P l n -> tally P (x :: l) n.

(** The weight of a category in hundredths *)
Definition percent (c : category) : Z :=
  match c with
  | Meta => 20
  | Content => 25
  | Technical => 15
  | Speed => 15
  | Security => 15
  | Links => 10
  end.

(** The weighted sum of six sub-scores, in hundredths and as a rational
    number *)
Definition overall_hundredths (score : category -> Z) : Z :=
  percent Meta * score Meta + percent Content * score Content
  + percent Technical * score Technical + percent Speed * score Speed
  + percent Security * score Security + percent Links * score Links.

Definition exact_overall (score : category -> Z) : Q :=
  overall_hundredths score # 100.

(** *** The reachable partial sums of the overall score

    A sub-score is one of a few multiples of five.  The partial sums that
    [weighted_sum] can go through are enumerated category by category, each
    with the exact sum it stands for (in hundredths), and kept in a table
    indexed by that exact sum. *)

Definition possible_scores (c : category) : list Z :=
  match c with
  | Meta | Links => [100; 85; 70; 55; 40; 25; 10; 0]
  | Content => [100; 90; 80; 70; 60; 50; 40; 30; 20; 10; 0]
  | Technical => [100; 80; 60; 40; 20; 0]
  | Speed => [100; 75; 50; 25; 0]
  | Security => [100; 70; 40; 10; 0]
  end.

(** A partial sum: the exact value in hundredths, and the float *)
Definition State : Type := Z * PyNum.float.

Definition accumulate (st : State) (c : category) (s : Z) : State :=
  (fst st + percent c * s,
   PyNum.fadd (snd st) (PyNum.fmul (PyNum.of_int s) (weight c))).

Definition start : State := (0, PyNum.of_int 0).

(** The partial sums of [weighted_sum score], with their exact values *)
Definition run (score : category -> Z) (cs : list category) : State :=
  fold_left (fun st c => accumulate st c (score c)) cs start.

Definition float_eqb (x y : PyNum.float) : bool :=
  match x, y with
  | S754_zero s, S754_zero t => Bool.eqb s t
  | S754_infinity s, S754_infinity t => Bool.eqb s t
  | S754_nan, S754_nan => true
  | S754_finite s m e, S754_finite t n f =>
      Bool.eqb s t && Pos.eqb m n && Z.eqb e f
  | _, _ => false
  end.

Definition state_eqb (x y : State) : bool :=
  Z.eqb (fst x) (fst y) && float_eqb (snd x) (snd y).

Definition Table : Type := PositiveMap.t (list State).

Definition key (st : State) : positive := Z.to_pos (fst st + 1).

Definition member (st : State) (T : Table) : bool :=
  match PositiveMap.find (key st) T with
  | Some l => existsb (state_eqb st) l
  | None => false
  end.

Definition insert (T : Table) (st : State) : Table :=
  match PositiveMap.find (key st) T with
  | Some l =>
      if existsb (state_eqb st) l then T
      else PositiveMap.add (key st) (st :: l) T
  | None => PositiveMap.add (key st) [st] T
  end.

Definition states (T : Table) : list State :=
  flat_map snd (PositiveMap.elements T).

Definition products (c : category) : list State :=
  let w := weight c in
  map (fun s => (percent c * s, PyNum.fmul (PyNum.of_int s) w))
      (possible_scores c).

Definition successors (c : category) (L : list State) : list State :=
  let ps := products c in
  flat_map (fun st => map (fun p => (fst st + fst p,
                                     PyNum.fadd (snd st) (snd p))) ps) L.

Definition layer (T : Table) (c : category) : Table :=
  fold_left insert (successors c (states T)) (PositiveMap.empty _).

Definition reachable (cs : list category) : Table :=
  fold_left layer cs (insert (PositiveMap.empty _) start).

(** What is checked of a final sum: it is finite, it is exactly the sum it
    stands for, and clamping it changes neither its value nor its range. *)
Definition exact_state (st : State) : bool :=
  let clamped := clamp (PyNum.PFloat (snd st)) in
  PyNum.is_finite (snd st)
  && Qeq_bool (PyNum.to_Q (snd st)) (fst st # 100)
  && PyNum.eq clamped (PyNum.PFloat (snd st))
  && Qeq_bool (PyNum.value clamped) (fst st # 100)
  && Qle_bool 0 (PyNum.value clamped)
  && Qle_bool (PyNum.value clamped) 100.

(** *** Keywords of a text *)

(** The lowercased tokens of more than three characters, in order *)
Definition long_lower (words : list string) : list string :=
  map PyStr.lower (filter is_long words).

(** How often [w] occurs in [l] *)
Definition occurrences (w : string) (l : list string) : Z :=
  Z.of_nat (count_occ string_dec l w).

(** The distinct elements of [l] in the order of their first occurrence *)
Fixpoint distinct (l : list string) : list string :=
  match l with
  | [] => []
  | x :: r => x :: filter (fun y => negb (String.eqb y x)) (distinct r)
  end.

(** The frequency table the specification describes: every distinct long
    lowercased token with its number of occurrences, in the order of first
    occurrence *)
Definition frequency_table (words : list string) : list (string * Z) :=
  map (fun w => (w, occurrences w (long_lower words)))
      (distinct (long_lower words)).

(** The entries of [l] whose count is [c], in the order they have in [l] *)
Definition with_count (c : Z) (l : list (string * Z)) : list (string * Z) :=
  filter (fun e => snd e =? c) l.

(** [ranked table r]: [r] is [table] sorted by decreasing count, entries of
    equal count keeping the order they have in [table] *)
Definition ranked (table r : list (string * Z)) : Prop :=
  Permutation r table
  /\ StronglySorted (fun a b => snd b <= snd a) r
  /\ forall c, with_count c r = with_count c table.

(** The text of a keyword finding for a density printed as [shown] *)
Definition keyword_text (word shown : string) (count : Z) : string :=
  "'" ++ word ++ "': " ++ shown ++ "% (" ++ PyStr.of_Z count ++ " occurrences)".

(** A token: not empty and without blanks *)
Definition is_token (t : string) : Prop :=
  t <> "" /\ Forall (fun c => PyStr.is_space c = false) (list_ascii_of_string t).

(** The characters of a text that are not blanks *)
Fixpoint without_blanks (s : string) : string :=
  match s with
  | EmptyString => EmptyString
  | String c r =>
      if PyStr.is_space c then without_blanks r
      else String c (without_blanks r)
  end.

(** The tenths shown for a density are the nearest to [100 * count / n]. *)
Definition tenths_text (d : Z) : string :=
  PyStr.of_Z (d / 10) ++ "." ++ PyStr.of_Z (d mod 10).

Definition nearest_tenth (count n : Z) : bool :=
  match density count n with
  | Ok x =>
      let d := Fmt.scaled 1 x in
      (2 * Z.abs (d * n - 1000 * count) <=? n)
      && String.eqb (Fmt.fixed 1 x) (tenths_text d)
      && PyNum.lt (PyNum.PInt 0) (PyNum.PFloat x)
      && negb (PyNum.lt (PyNum.PInt 100) (PyNum.PFloat x))
  | Raise _ => false
  end.

Definition small_texts : list (Z * Z) :=
  flat_map (fun n => map (fun c => (Z.of_nat c, Z.of_nat n)) (seq 1 n))
           (seq 1 40).

(** The density of a keyword as it is printed *)
Definition shown_density (count word_count : Z) : string :=
  match density count word_count with
  | Ok d => Fmt.fixed 1 d
  | Raise _ => ""
  end.

(** The finding emitted for an entry of the table *)
Definition keyword_finding (word_count : Z) (e : string * Z) : string :=
  "- " ++ keyword_text (fst e) (shown_density (snd e) word_count) (snd e).

(** The findings of the Content extractor that do not depend on the text *)
Definition multiple_h1_text (n : Z) : string :=
  "Multiple H1 headings detected (" ++ PyStr.of_Z n ++ " found, recommended: 1)".

Definition total_images_text (n : Z) : string :=
  "Total images: " ++ PyStr.of_Z n.

Definition without_alt_text (n : Z) : string :=
  "Images without alt text: " ++ PyStr.of_Z n.

Definition optimize_text (n : Z) : string :=
  "Consider optimizing " ++ PyStr.of_Z n ++ " large image(s)".

Definition heading_findings (soup : Soup) : list string :=
  ((if h1_count soup =? 0 then ["Missing H1 heading (main title)"]
    else if 1 <? h1_count soup then [multiple_h1_text (h1_count soup)]
    else [])
   ++ [heading_summary soup])%list.

Definition image_findings (soup : Soup) : list string :=
  let images := find_all "img" soup in
  ([total_images_text (len images)]
   ++ (if 0 <? len (filter without_alt images)
       then [without_alt_text (len (filter without_alt images))] else [])
   ++ (if 0 <? len (filter raster images)
       then [optimize_text (len (filter raster images))] else []))%list.

(** A finding about the word count or about a keyword *)
Definition about_text (f : string) : bool :=
  PyStr.startswith f "Content is too short"
  || PyStr.startswith f "Good content length"
  || PyStr.startswith f "Top 5 keywords"
  || PyStr.startswith f "- '".

(** *** Links *)

(** The [href] values of a list of anchors, in order *)
Definition hrefs_of (links : list Tag) : list string :=
  flat_map (fun t => match get t "href" with
                     | Some h => [h]
                     | None => []
                     end) links.

(** The [href]s that are classified: neither empty nor a fragment *)
Definition kept (links : list Tag) : list string :=
  filter (fun h => negb (skipped h)) (hrefs_of links).

(** [resolves w url href an]: [href] resolves against [url] to the absolute
    URL [fst an], whose network location is [snd an] *)
Definition resolves (w : World) (url href : string) (an : string * string)
  : Prop :=
  Urllib.urljoin (bracketed_ok w) url href = Ok (fst an)
  /\ Urllib.netloc_of (bracketed_ok w) (fst an) = Ok (snd an).

(** The host of a resolved link is the host of the page, or is empty *)
Definition internal (base : string) (an : string * string) : bool :=
  String.eqb (snd an) base || negb (PyStr.truthy (snd an)).

Definition external (base : string) (an : string * string) : bool :=
  negb (internal base an).

Definition nofollow_findings (soup : Soup) : list string :=
  if 0 <? len (nofollow soup)
  then ["Links with nofollow: " ++ PyStr.of_Z (len (nofollow soup))]
  else [].

Definition link_findings (total n_internal n_external : Z) : list string :=
  ["Total links found: " ++ PyStr.of_Z total;
   "Internal links: " ++ PyStr.of_Z n_internal;
   "External links: " ++ PyStr.of_Z n_external].

(** A world in which nothing fails *)
Definition quiet_world : World :=
  {| whois := fun _ => Ok {| creation_date := VNone;
                             expiration_date := VNone |};
     now_for_age := 0;
     now_for_expiry := 0;
     mobile_get := fun _ => Ok 200;
     bracketed_ok := fun _ => true |}.

Definition anchor (href : string) : Tag :=
  {| tag_name := "a"; tag_attrs := [("href", href)]; tag_string := None |}.

Definition blog_url : string := "https://example.com/blog".

Definition blog_soup : Soup :=
  [anchor "/about"; anchor "https://example.com/contact";
   anchor "https://other.org"; anchor "#section"].

(** *** Statements about the list of findings, and fixtures *)

(** Each check of the Meta extractor appends one finding. *)
Definition appends_one (m : Exec unit) (f : Finding) : Prop :=
  forall st, m st = ((st ++ [f])%list, Ok tt).

Definition thirty_chars : string := "An SEO analysis of your site  ".

Definition boundary_soup : Soup :=
  [ {| tag_name := "title"; tag_attrs := []; tag_string := Some thirty_chars |};
    {| tag_name := "meta";
       tag_attrs := [("name", "description");
                     ("content", thirty_chars ++ thirty_chars ++ thirty_chars
                                 ++ thirty_chars ++ thirty_chars ++ "12345")];
       tag_string := None |} ].

(** [extends ok m]: whatever the list of findings [m] starts from, it only
    appends to it, and only findings that satisfy [ok]. *)
Definition extends {A} (ok : Finding -> Prop) (m : Exec A) : Prop :=
  forall st, exists extra r, m st = ((st ++ extra)%list, r) /\ Forall ok extra.

Definition about_domain (f : Finding) : Prop := PyStr.startswith f "D" = true.

Definition https_finding (url : string) : Finding :=
  if PyStr.startswith url "https" then "Website is secured with HTTPS"
  else "Website is not using HTTPS (security risk)".

Definition two_h1_soup : Soup :=
  [ {| tag_name := "h1"; tag_attrs := []; tag_string := Some "Welcome" |};
    {| tag_name := "h1"; tag_attrs := []; tag_string := Some "Again" |};
    {| tag_name := "img"; tag_attrs := [("src", "logo.png")];
       tag_string := None |} ].

Definition fox_text : string :=
  "The Quick fox and the quick dog saw a quick lazy fox jump".

(** *** Further vocabulary: texts and scores *)

(** A character of a printed integer: a digit or the minus sign *)
Definition numeric (c : ascii) : bool :=
  Urllib.between 48 57 c || Ascii.eqb c "-".

(** A character of a float printed with [Fmt.fixed]: a character of an
    integer, the point, or a letter of [nan] and [inf] *)
Definition float_char (c : ascii) : bool :=
  numeric c || Ascii.eqb c "." || Ascii.eqb c "n" || Ascii.eqb c "a"
  || Ascii.eqb c "i" || Ascii.eqb c "f".

(** The Boolean counterpart of [flagged] *)
Definition penalised (c : category) (f : string) : bool :=
  existsb (fun k => PyStr.contains (PyStr.lower f) k) (issue_keywords c).

Definition b2z (b : bool) : Z := if b then 1 else 0.

(** The six lists with the list of one category replaced *)
Definition with_list (c : category) (l : list string) (a : Analyses)
  : Analyses :=
  {| meta_analysis := match c with Meta => l | _ => meta_analysis a end;
     content_analysis := match c with Content => l | _ => content_analysis a end;
     technical_analysis :=
       match c with Technical => l | _ => technical_analysis a end;
     speed_analysis := match c with Speed => l | _ => speed_analysis a end;
     security_analysis :=
       match c with Security => l | _ => security_analysis a end;
     link_analysis := match c with Links => l | _ => link_analysis a end |}.

(** The sub-score of a category whose list is [l] *)
Definition score_for (c : category) (l : list string) : Z :=
  Z.max 0 (Z.min 100 (100 - deduction c * count_issues l (issue_keywords c))).

(** [separates lit rest k]: some character of [k] is not numeric and occurs
    neither in [lit] nor in [rest], lowercased *)
Definition separates (lit rest k : string) : bool :=
  existsb (fun x => negb (numeric x)
                    && negb (Urllib.has x (PyStr.lower lit))
                    && negb (Urllib.has x (PyStr.lower rest)))
          (list_ascii_of_string k).

(** [may_start u k]: [k] agrees with [u] as far as [u] goes, so that [k]
    may occur at the start of [u] followed by some text *)
Fixpoint may_start (u k : string) {struct k} : bool :=
  match k, u with
  | EmptyString, _ => true
  | String _ _, EmptyString => true
  | String a k', String b u' => Ascii.eqb a b && may_start u' k'
  end.

(** [no_start lit k]: [k] starts nowhere in [lit], whatever follows [lit] *)
Fixpoint no_start (lit k : string) : bool :=
  match lit with
  | EmptyString => true
  | String _ r => negb (may_start lit k) && no_start r k
  end.

(** [clear p lit rest k]: [k] cannot occur in a text made of [lit], a printed
    number whose characters satisfy [p], and [rest]: it starts nowhere in
    [lit], does not start with a character of the number, and does not occur
    in [rest], all lowercased *)
Definition clear (p : ascii -> bool) (lit rest k : string) : bool :=
  no_start (PyStr.lower lit) k
  && match k with
     | String c _ => negb (p c)
     | EmptyString => false
     end
  && negb (PyStr.contains (PyStr.lower rest) k).

(** A finding of the registry lookup *)
Definition registry_finding (f : string) : Prop :=
  (exists n, f = "Domain age: " ++ PyStr.of_Z n ++ " days")
  \/ (exists n, f = "Days until domain expiry: " ++ PyStr.of_Z n).

(** The body of the [try] of [analyze_security] raised *)
Definition lookup_failed (w : World) (url : string) : bool :=
  match snd (registration_info w url [https_finding url]) with
  | Raise _ => true
  | Ok _ => false
  end.

(** The two things the Speed extractor can complain about *)
Definition slow_response (r : Response) : bool := gt (total_seconds r) 2.

Definition large_page (r : Response) : bool :=
  match content_length r with
  | Ok n =>
      if 0 <? n then
        match true_div n (1024 * 1024) with
        | Ok size_mb => gt size_mb 3
        | Raise _ => false
        end
      else false
  | Raise _ => false
  end.

(** The finding about the response time *)
Definition response_time_finding (r : Response) : string :=
  if slow_response r
  then "Slow server response time: " ++ Fmt.fixed 2 (total_seconds r)
       ++ "s (recommended: < 2s)"
  else "Good server response time: " ++ Fmt.fixed 2 (total_seconds r) ++ "s".

Definition slow_page : Response :=
  {| total_seconds := PyNum.literal 5 2;
     headers := [("Content-Length", "4194304")];
     body := "" |}.

(** A character of the heading summary *)
Definition summary_char (c : ascii) : bool :=
  numeric c || Urllib.has c "Heading structure: h,".

(** The text is present and has fewer than 300 words *)
Definition short_text (text : option string) : bool :=
  match text with
  | Some t => PyStr.truthy t && (len (PyStr.split t) <? 300)
  | None => false
  end.

(** The findings about the top keywords of the text *)
Definition keyword_findings (text : option string) : list string :=
  match text with
  | Some t =>
      if PyStr.truthy t
      then map (keyword_finding (len (PyStr.split t)))
               (top_keywords (PyStr.split t))
      else []
  | None => []
  end.

(** The keyword findings that the scorer penalises *)
Definition keyword_hits (text : option string) : Z :=
  count_issues (keyword_findings text) (issue_keywords Content).

(** *** Technical *)

(** The response has no header [name] *)
Definition absent (name : string) (r : Response) : bool :=
  match header name (headers r) with
  | Some _ => false
  | None => true
  end.

(** The response does not announce gzip *)
Definition no_gzip (r : Response) : bool :=
  negb (PyStr.contains (PyStr.lower (header_or "Content-Encoding" "" r)) "gzip").

(** The page has a viewport tag whose content lacks one of the two settings *)
Definition viewport_needs (soup : Soup) : bool :=
  match find "meta" "name" "viewport" soup with
  | Some v =>
      negb (PyStr.contains (get_default v "content" "") "width=device-width"
            && PyStr.contains (get_default v "content" "") "initial-scale=1")
  | None => false
  end.

Definition technical_penalties (r : Response) (soup : Soup) : Z :=
  b2z (absent "Server" r) + b2z (no_gzip r) + b2z (absent "Cache-Control" r)
  + b2z (absent "Expires" r) + b2z (absent "Content-Type" r)
  + b2z (viewport_needs soup).

Definition header_findings (r : Response) : list string :=
  ["Server: " ++ header_or "Server" "Not disclosed" r;
   if no_gzip r then "Content compression is not enabled"
   else "Content compression (gzip) is enabled";
   "Cache-Control: " ++ header_or "Cache-Control" "Not set" r;
   "Expires: " ++ header_or "Expires" "Not set" r;
   "Content-Type: " ++ header_or "Content-Type" "Not set" r].

Definition depth_findings (path : string) : list string :=
  if 3 <? path_depth path
  then ["URL structure is deep (" ++ PyStr.of_Z (path_depth path)
        ++ " levels, recommended: maximum 3)"]
  else [].

Definition viewport_findings (soup : Soup) : list string :=
  match find "meta" "name" "viewport" soup with
  | Some _ =>
      if viewport_needs soup then ["Viewport meta tag needs optimization"]
      else ["Viewport is properly configured for mobile devices"]
  | None => []
  end.

(** *** Meta *)

(** The finding of each of the six checks of the Meta extractor *)
Definition title_finding (soup : Soup) : string :=
  match title_of soup with
  | Some title =>
      if PyStr.truthy title
      then length_finding "Title tag" 30 60 "50-60" (strlen title)
      else "Missing title tag"
  | None => "Missing title tag"
  end.

Definition description_finding (soup : Soup) : string :=
  match find "meta" "name" "description" soup with
  | Some meta_desc =>
      match get meta_desc "content" with
      | Some content =>
          if PyStr.truthy content
          then length_finding "Meta description" 120 155 "120-155"
                              (strlen content)
          else "Missing meta description"
      | None => "Missing meta description"
      end
  | None => "Missing meta description"
  end.

Definition robots_finding (soup : Soup) : string :=
  match find "meta" "name" "robots" soup with
  | Some robots => "Robots meta tag found: " ++ get_default robots "content" ""
  | None => "No robots meta tag found"
  end.

Definition canonical_finding (soup : Soup) : string :=
  match find "link" "rel" "canonical" soup with
  | Some canonical =>
      "Canonical URL is set to: " ++ get_default canonical "href" ""
  | None => "No canonical URL specified"
  end.

Definition viewport_finding (soup : Soup) : string :=
  match find "meta" "name" "viewport" soup with
  | Some _ => "Viewport meta tag is properly set for mobile devices"
  | None => "Missing viewport meta tag for mobile responsiveness"
  end.

Definition open_graph_finding (soup : Soup) : string :=
  match og_tags soup with
  | [] => "No Open Graph tags found for social media optimization"
  | tags => "Found " ++ PyStr.of_Z (len tags)
            ++ " Open Graph tags for social media sharing"
  end.

Definition meta_findings (soup : Soup) : list string :=
  [title_finding soup; description_finding soup; robots_finding soup;
   canonical_finding soup; viewport_finding soup; open_graph_finding soup].

(** A text is present and its length is within the bounds *)
Definition within (lo hi : Z) (text : option string) : bool :=
  match text with
  | Some t => PyStr.truthy t && (lo <=? strlen t) && (strlen t <=? hi)
  | None => false
  end.

Definition description_of (soup : Soup) : option string :=
  match find "meta" "name" "description" soup with
  | Some meta_desc => get meta_desc "content"
  | None => None
  end.

(** The robots tag is absent, or its content holds a keyword of the scorer *)
Definition robots_costs (soup : Soup) : bool :=
  match find "meta" "name" "robots" soup with
  | Some robots => penalised Meta (get_default robots "content" "")
  | None => true
  end.

Definition is_none {A} (x : option A) : bool :=
  match x with
  | Some _ => false
  | None => true
  end.

Definition is_nil {A} (l : list A) : bool :=
  match l with
  | [] => true
  | _ => false
  end.

(** The number of meta findings that the scorer penalises: the finding about
    the canonical URL always is one *)
Definition meta_penalties (soup : Soup) : Z :=
  b2z (negb (within 30 60 (title_of soup)))
  + b2z (negb (within 120 155 (description_of soup)))
  + b2z (robots_costs soup)
  + 1
  + b2z (is_none (find "meta" "name" "viewport" soup))
  + b2z (is_nil (og_tags soup)).

(** *** Suggestions and the dashboard *)

(** The findings of a category that give a suggestion *)
Definition issues_of (a : Analyses) (c : category) : list string :=
  filter is_issue (analysis_of a c).

(** The group of a category on the suggestions tab: none when the category
    has no suggestion *)
Definition group_of (a : Analyses) (c : category)
  : list (string * list string) :=
  match issues_of a c with
  | [] => []
  | l => [(display_name c, map (fun f => PyInt.strip (rewrite_issue f)) l)]
  end.

(** The keys of the dictionary of groups *)
Definition keys (d : list (string * list string)) : list string := map fst d.

(** One step of the grouping loop of the dashboard *)
Definition group_step (d : list (string * list string)) (item : string)
  : list (string * list string) :=
  add_item (category_of item) (text_of item) d.

Definition missing_alt_analyses : Analyses :=
  {| meta_analysis := ["Missing title tag"]; content_analysis := [];
     technical_analysis := []; speed_analysis := [];
     security_analysis := []; link_analysis := [] |}.

(** *** The whole analysis *)

(** A fetch that gives the response [slow_page], the page [blog_soup] and no
    text *)
Definition blog_fetch : Fetch :=
  {| get_page := fun _ => Ok slow_page;
     parse_html := fun _ => blog_soup;
     extract_text := fun _ => Ok None;
     start_time := PyNum.literal 1000 0;
     end_time := PyNum.literal 1003 0 |}.

(** The sub-score of a category in a report *)
Definition metric (rep : Report) (c : category) : Z :=
  score_of (calculate_scores (analyses rep)) c.

(** *** Normalised text *)

(** The words of a text, one space between two words.  [started] tells that
    a word was read, [pending] that blanks followed it. *)
Fixpoint spaced (started pending : bool) (s : string) : string :=
  match s with
  | EmptyString => EmptyString
  | String c r =>
      if PyStr.is_space c then spaced started started r
      else if pending then String " " (String c (spaced true false r))
           else String c (spaced true false r)
  end.

(** A text without the blanks at its end *)
Fixpoint rstrip (s : string) : string :=
  match s with
  | EmptyString => EmptyString
  | String c r =>
      match rstrip r with
      | EmptyString => if PyStr.is_space c then EmptyString
                       else String c EmptyString
      | x => String c x
      end
  end.

(** A page with one link, marked nofollow *)
Definition nofollow_soup : Soup :=
  [ {| tag_name := "a";
       tag_attrs := [("href", "https://other.org"); ("rel", "nofollow")];
       tag_string := None |} ].

(** A character of the end of a keyword finding, after the word and its
    closing quote *)
Definition tail_char (c : ascii) : bool :=
  float_char c || Urllib.has c ": % ( occurrences)".

(** What the keyword column of the Content tab shows for a text: the header
    line, and the keyword findings of the words that hold "keywords" *)
Definition keyword_column (text : option string) : list string :=
  match text with
  | Some t =>
      if PyStr.truthy t
      then "Top 5 keywords and their density:"
           :: map (keyword_finding (len (PyStr.split t)))
                  (filter (fun e => mentions (fst e) "keywords")
                          (top_keywords (PyStr.split t)))
      else []
  | None => []
  end.

(* ================================================================= *)
(** ** Strings: what the searches compute *)

Lemma startswith_spec (s p : string) :
  PyStr.startswith s p = true <-> exists post, s = p ++ post.
Proof.
  revert s; induction p as [|a p IH]; intros s; simpl.
  - split; [intros _; now exists s | intros _; now destruct s].
  - destruct s as [|b s].
    + split; [discriminate | intros [post H]; discriminate].
    + rewrite andb_true_iff, Ascii.eqb_eq, IH. split.
      * intros [-> [post ->]]. now exists post.
      * intros [post H]. injection H as -> ->. split; [reflexivity | now exists post].
Qed.

Lemma contains_spec (x k : string) :
  PyStr.contains x k = true <-> substring k x.
Proof.
  unfold substring. induction x as [|c x IH]; simpl.
  - rewrite orb_false_r, startswith_spec. split.
    + intros [post H]. now exists "", post.
    + intros [pre [post H]]. destruct pre; [now exists post | discriminate].
  - rewrite orb_true_iff, startswith_spec, IH. split.
    + intros [[post H] | [pre [post H]]].
      * now exists "", post.
      * exists (String c pre), post. simpl. now rewrite H.
    + intros [pre [post H]]. destruct pre as [|d pre]; simpl in H.
      * left. now exists post.
      * right. injection H as _ H. now exists pre, post.
Qed.

Lemma flagged_spec (keywords : list string) (f : Finding) :
  existsb (fun k => PyStr.contains (PyStr.lower f) k) keywords = true
  <-> flagged keywords f.
Proof.
  unfold flagged. rewrite existsb_exists.
  split; intros [k [Hin Hk]]; exists k; split; trivial;
    now apply contains_spec.
Qed.

Lemma tally_unique {A} (P : A -> Prop) (l : list A) (m n : Z) :
  tally P l m -> tally P l n -> m = n.
Proof.
  intros Hm; revert n; induction Hm; intros n' Hn; inversion Hn; subst;
    try reflexivity; try contradiction.
  - f_equal. now apply IHHm.
  - now apply IHHm.
Qed.

Lemma count_issues_tally (analysis : list Finding) (keywords : list string) :
  tally (flagged keywords) analysis (count_issues analysis keywords).
Proof.
  unfold count_issues. induction analysis as [|f l IH]; simpl.
  - constructor.
  - destruct (existsb _ keywords) eqn:E.
    + simpl List.length. rewrite Nat2Z.inj_succ, <- Z.add_1_r.
      apply tally_hit; [now apply flagged_spec | exact IH].
    + apply tally_miss; [| exact IH].
      rewrite <- flagged_spec, E. discriminate.
Qed.

Lemma tally_nonneg {A} (P : A -> Prop) (l : list A) (n : Z) :
  tally P l n -> 0 <= n.
Proof. induction 1; lia. Qed.

Lemma clamp_int_spec (s : Z) : clamp_int s = Z.max 0 (Z.min 100 s).
Proof.
  unfold clamp_int, clamp, PyNum.max, PyNum.min, PyNum.lt.
  destruct (s <? 100) eqn:E1.
  - destruct (0 <? s) eqn:E2; lia.
  - simpl. lia.
Qed.

(** C1. Each category's sub-score is 100 minus its per-issue deduction times
    the number of its findings whose lowercased text holds one of its issue
    keywords, clamped to [0,100]; so it is never negative nor above 100.
    The vocabularies and deductions are those of the table. *)
Theorem sub_score_is_clamped_deduction (a : Analyses) (c : category) :
  (exists n,
      tally (flagged (issue_keywords c)) (analysis_of a c) n
      /\ score_of (calculate_scores a) c
         = Z.max 0 (Z.min 100 (100 - deduction c * n)))
  /\ 0 <= score_of (calculate_scores a) c <= 100
  /\ map (fun c => (issue_keywords c, deduction c)) categories
     = [(["missing"; "too"; "no"], 15);
        (["missing"; "too short"; "multiple"], 10);
        (["not"; "slow"; "needs"], 20);
        (["slow"; "large"], 25);
        (["not"; "risk"; "could not"], 30);
        (["broken"; "invalid"], 15)].
Proof.
  assert (E : score_of (calculate_scores a) c
              = Z.max 0 (Z.min 100 (100 - deduction c
                  * count_issues (analysis_of a c) (issue_keywords c)))).
  { simpl. unfold sub_score, raw_score.
    now rewrite clamp_int_spec, (Z.mul_comm (deduction c)). }
  split; [| split].
  - exists (count_issues (analysis_of a c) (issue_keywords c)).
    split; [apply count_issues_tally | exact E].
  - rewrite E. lia.
  - reflexivity.
Qed.

(* ================================================================= *)
(** ** The overall score *)

Lemma float_eqb_eq (x y : PyNum.float) : float_eqb x y = true -> x = y.
Proof.
  destruct x, y; simpl; try discriminate; trivial.
  - intros H. apply Bool.eqb_prop in H. now subst.
  - intros H. apply Bool.eqb_prop in H. now subst.
  - rewrite !andb_true_iff. intros [[H1 H2] H3].
    apply Bool.eqb_prop in H1. apply Pos.eqb_eq in H2. apply Z.eqb_eq in H3.
    now subst.
Qed.

Lemma float_eqb_refl (x : PyNum.float) : float_eqb x x = true.
Proof.
  destruct x; simpl; trivial; try apply Bool.eqb_reflx.
  now rewrite Bool.eqb_reflx, Pos.eqb_refl, Z.eqb_refl.
Qed.

Lemma state_eqb_eq (x y : State) : state_eqb x y = true -> x = y.
Proof.
  destruct x, y. unfold state_eqb. simpl. rewrite andb_true_iff.
  intros [H1 H2]. apply Z.eqb_eq in H1. apply float_eqb_eq in H2. now subst.
Qed.

Lemma state_eqb_refl (x : State) : state_eqb x x = true.
Proof. unfold state_eqb. now rewrite Z.eqb_refl, float_eqb_refl. Qed.

Lemma member_states (st : State) (T : Table) :
  member st T = true -> In st (states T).
Proof.
  unfold member, states. destruct (PositiveMap.find (key st) T) as [l|] eqn:E;
    [| discriminate].
  intros H. apply existsb_exists in H as [x [Hx Heq]].
  apply state_eqb_eq in Heq. subst x.
  apply in_flat_map. exists (key st, l). split; [| exact Hx].
  now apply PositiveMap.elements_correct.
Qed.

Lemma member_insert (st : State) (T : Table) : member st (insert T st) = true.
Proof.
  unfold insert. destruct (PositiveMap.find (key st) T) as [l|] eqn:E.
  - destruct (existsb (state_eqb st) l) eqn:X.
    + unfold member. now rewrite E.
    + unfold member. rewrite PositiveMap.gss. simpl.
      now rewrite state_eqb_refl.
  - unfold member. rewrite PositiveMap.gss. simpl. now rewrite state_eqb_refl.
Qed.

Lemma member_insert_other (x st : State) (T : Table) :
  member x T = true -> member x (insert T st) = true.
Proof.
  intros H. unfold insert.
  destruct (PositiveMap.find (key st) T) as [l|] eqn:E.
  - destruct (existsb (state_eqb st) l); [exact H |].
    unfold member in *. destruct (Pos.eq_dec (key x) (key st)) as [K | K].
    + rewrite K, PositiveMap.gss. rewrite K, E in H. simpl.
      now rewrite H, orb_true_r.
    + now rewrite PositiveMap.gso.
  - unfold member in *. destruct (Pos.eq_dec (key x) (key st)) as [K | K].
    + rewrite K, E in H. discriminate.
    + now rewrite PositiveMap.gso.
Qed.

Lemma member_fold_insert (l : list State) (T : Table) (x : State) :
  In x l \/ member x T = true -> member x (fold_left insert l T) = true.
Proof.
  revert T. induction l as [|y l IH]; intros T [H | H]; simpl.
  - contradiction.
  - exact H.
  - destruct H as [-> | H].
    + apply IH. right. apply member_insert.
    + apply IH. now left.
  - apply IH. right. now apply member_insert_other.
Qed.

Lemma successors_in (c : category) (L : list State) (st : State) (s : Z) :
  In st L -> In s (possible_scores c) -> In (accumulate st c s) (successors c L).
Proof.
  intros Hst Hs. unfold successors. apply in_flat_map. exists st.
  split; [exact Hst |]. apply in_map_iff.
  exists (percent c * s, PyNum.fmul (PyNum.of_int s) (weight c)).
  split; [reflexivity |]. unfold products. apply in_map_iff. now exists s.
Qed.

Lemma layer_member (T : Table) (c : category) (st : State) (s : Z) :
  member st T = true -> In s (possible_scores c) ->
  member (accumulate st c s) (layer T c) = true.
Proof.
  intros Hst Hs. unfold layer. apply member_fold_insert. left.
  apply successors_in; [now apply member_states | exact Hs].
Qed.

Lemma run_reachable (score : category -> Z) (cs : list category) :
  (forall c, In c cs -> In (score c) (possible_scores c)) ->
  member (run score cs) (reachable cs) = true.
Proof.
  unfold run, reachable.
  generalize (member_insert start (PositiveMap.empty _)).
  generalize (insert (PositiveMap.empty _) start) as T. generalize start as st.
  induction cs as [|c cs IH]; intros st T Hst Hscore; simpl.
  - exact Hst.
  - apply IH.
    + apply layer_member; [exact Hst |]. apply Hscore. now left.
    + intros c' Hc'. apply Hscore. now right.
Qed.

Lemma run_float (score : category -> Z) (cs : list category) (st : State) :
  snd (fold_left (fun st c => accumulate st c (score c)) cs st)
  = fold_left (fun acc k =>
                 PyNum.fadd acc (PyNum.fmul (PyNum.of_int (score k)) (weight k)))
              cs (snd st).
Proof. revert st. induction cs as [|c cs IH]; intros st; simpl; [| rewrite IH]; reflexivity. Qed.

Lemma run_exact (score : category -> Z) (cs : list category) (st : State) :
  fst (fold_left (fun st c => accumulate st c (score c)) cs st)
  = fold_left (fun k c => k + percent c * score c) cs (fst st).
Proof. revert st. induction cs as [|c cs IH]; intros st; simpl; [| rewrite IH]; reflexivity. Qed.

Lemma sub_score_possible (a : Analyses) (c : category) :
  In (sub_score a c) (possible_scores c).
Proof.
  unfold sub_score, raw_score. rewrite clamp_int_spec.
  pose proof (tally_nonneg _ _ _
                (count_issues_tally (analysis_of a c) (issue_keywords c))) as Hn.
  set (n := count_issues (analysis_of a c) (issue_keywords c)) in *.
  clearbody n.
  destruct (Z_lt_le_dec n 11) as [Hlt | Hge].
  - assert (Hc : In n [0; 1; 2; 3; 4; 5; 6; 7; 8; 9; 10]) by (simpl; lia).
    simpl in Hc.
    destruct c;
      repeat (destruct Hc as [Hc | Hc];
              [subst n; vm_compute; repeat first [left; reflexivity | right] |]);
      contradiction.
  - replace (Z.max 0 (Z.min 100 (100 - n * deduction c))) with 0
      by (destruct c; cbv [deduction]; lia).
    destruct c; simpl; repeat first [left; reflexivity | right].
Qed.

Lemma reachable_exact : forallb exact_state (states (reachable categories)) = true.
Proof. vm_compute. reflexivity. Qed.

Lemma run_sub_scores_exact (a : Analyses) :
  exact_state (run (sub_score a) categories) = true.
Proof.
  pose proof reachable_exact as H. rewrite forallb_forall in H. apply H.
  apply member_states, run_reachable. intros c _. apply sub_score_possible.
Qed.

Lemma run_is_weighted_sum (score : category -> Z) :
  run score categories = (overall_hundredths score, weighted_sum score).
Proof.
  rewrite (surjective_pairing (run score categories)). unfold run.
  rewrite run_float, run_exact. reflexivity.
Qed.

Lemma exact_state_elim (k : Z) (x : PyNum.float) :
  exact_state (k, x) = true ->
  PyNum.is_finite x = true
  /\ (PyNum.to_Q x == k # 100)%Q
  /\ PyNum.eq (clamp (PyNum.PFloat x)) (PyNum.PFloat x) = true
  /\ (PyNum.value (clamp (PyNum.PFloat x)) == k # 100)%Q
  /\ (0 <= PyNum.value (clamp (PyNum.PFloat x)) <= 100)%Q.
Proof.
  unfold exact_state. cbn [fst snd].
  generalize (clamp (PyNum.PFloat x)) as y. intros y.
  rewrite !andb_true_iff. intros [[[[[H1 H2] H3] H4] H5] H6].
  apply Qeq_bool_iff in H2, H4. apply Qle_bool_iff in H5, H6.
  repeat split; assumption.
Qed.

Lemma weighted_sum_exact (a : Analyses) :
  exact_state (overall_hundredths (sub_score a), weighted_sum (sub_score a))
  = true.
Proof. rewrite <- run_is_weighted_sum. apply run_sub_scores_exact. Qed.

(** C2. The overall score of [calculate_scores] is the weighted sum of the
    six sub-scores with weights 0.20, 0.25, 0.15, 0.15, 0.15 and 0.10, which
    add up to 1: the sum computed in floating point is exactly that rational
    number, every category takes part in it, and the final clamp leaves its
    value unchanged; so the overall score lies in [0,100]. *)
Theorem overall_is_weighted_sum (a : Analyses) :
  let s := calculate_scores a in
  let total := weighted_sum (score_of s) in
  PyNum.is_finite total = true
  /\ (PyNum.to_Q total == exact_overall (score_of s))%Q
  /\ PyNum.eq (overall s) (PyNum.PFloat total) = true
  /\ (PyNum.value (overall s) == exact_overall (score_of s))%Q
  /\ (0 <= PyNum.value (overall s) <= 100)%Q
  /\ map percent categories = [20; 25; 15; 15; 15; 10]
  /\ fold_right Z.add 0 (map percent categories) = 100
  /\ (forall c, weight c = PyNum.literal (percent c) 100).
Proof.
  intros s total. subst total s.
  cbn [calculate_scores score_of overall]. unfold exact_overall.
  destruct (exact_state_elim _ _ (weighted_sum_exact a))
    as (H1 & H2 & H3 & H4 & H5).
  split; [exact H1 |]. split; [exact H2 |]. split; [exact H3 |].
  split; [exact H4 |]. split; [exact H5 |].
  split; [reflexivity |]. split; [reflexivity |].
  intros c. destruct c; vm_compute; reflexivity.
Qed.

(* ================================================================= *)
(** ** The suggestion generator *)

Lemma improvements_of_cons (c : category) (f : Finding) (l : list Finding) :
  improvements_of c (f :: l)
  = (improvements_of c [f] ++ improvements_of c l)%list.
Proof. unfold improvements_of. simpl. now rewrite app_nil_r. Qed.

Lemma is_issue_spec (f : Finding) :
  is_issue f = true <-> flagged trigger_keywords f.
Proof. apply flagged_spec. Qed.

Lemma in_improvements_of (c : category) (l : list Finding) (s : string) :
  In s (improvements_of c l)
  <-> exists f, In f l /\ flagged trigger_keywords f /\ s = suggestion_for c f.
Proof.
  unfold improvements_of. rewrite in_flat_map. split.
  - intros [f [Hf Hs]]. destruct (is_issue f) eqn:E; [| contradiction].
    destruct Hs as [Hs | []]. exists f.
    split; [exact Hf | split; [now apply is_issue_spec | now symmetry]].
  - intros [f [Hf [Hk Hs]]]. exists f. split; [exact Hf |].
    apply is_issue_spec in Hk. rewrite Hk. now left.
Qed.

(** C3, the claim as written fails: the finding
    "Title tag is too long (70 chars...)" holds "too long" in lower case, so
    the substitution of "Too long" leaves it as it is. *)
Lemma too_long_title_is_not_rewritten :
  let a := {| meta_analysis := ["Title tag is too long (70 chars...)"];
              content_analysis := []; technical_analysis := [];
              speed_analysis := []; security_analysis := [];
              link_analysis := [] |} in
  generate_improvements a
  = ["[Meta Tags] Title tag is too long (70 chars...)"]
  /\ generate_improvements a
     <> ["[Meta Tags] Reduce length of title tag is too long (70 chars...)"].
Proof. split; [reflexivity | discriminate]. Qed.

(** C3, amended. A finding gives a suggestion exactly when its lowercased
    text holds one of the trigger keywords; the suggestion is the finding
    after the five literal, case-sensitive substitutions, applied in order,
    each on the result of the previous, behind the name of its category in
    brackets.  "Missing title tag" of Meta Tags gives
    "[Meta Tags] Add title tag"; "Title tag is too long (70 chars...)" gives
    "[Meta Tags] Title tag is too long (70 chars...)", unchanged. *)
Theorem suggestions_rewrite_literally :
  (forall a s,
      In s (generate_improvements a)
      <-> exists c f,
          In f (analysis_of a c) /\ flagged trigger_keywords f
          /\ s = "[" ++ display_name c ++ "] "
                 ++ PyStr.replace
                      (PyStr.replace
                         (PyStr.replace
                            (PyStr.replace
                               (PyStr.replace f "Missing" "Add")
                               "Too short" "Increase length of")
                            "Too long" "Reduce length of")
                         "No " "Add ")
                      "Not " "Enable ")
  /\ (forall a,
         generate_improvements a
         = (improvements_of Meta (meta_analysis a)
            ++ improvements_of Content (content_analysis a)
            ++ improvements_of Technical (technical_analysis a)
            ++ improvements_of Speed (speed_analysis a)
            ++ improvements_of Security (security_analysis a)
            ++ improvements_of Links (link_analysis a))%list)
  /\ (forall c f l,
         improvements_of c (f :: l)
         = (improvements_of c [f] ++ improvements_of c l)%list
         /\ (improvements_of c [f] = [] <-> ~ flagged trigger_keywords f))
  /\ trigger_keywords
     = ["missing"; "too"; "no"; "not"; "slow"; "large"; "multiple"; "broken"]
  /\ map display_name categories
     = ["Meta Tags"; "Content"; "Technical"; "Speed"; "Security"; "Links"]
  /\ improvements_of Meta ["Missing title tag"] = ["[Meta Tags] Add title tag"]
  /\ improvements_of Meta ["Title tag is too long (70 chars...)"]
     = ["[Meta Tags] Title tag is too long (70 chars...)"]
  /\ improvements_of Meta ["Title tag length is optimal (45 chars)"] = [].
Proof.
  split; [| split; [| split; [| repeat split]]].
  - intros a s. unfold generate_improvements. rewrite in_flat_map. split.
    + intros [c [_ H]]. apply in_improvements_of in H as [f [H1 [H2 H3]]].
      exists c, f. split; [exact H1 | split; [exact H2 | exact H3]].
    + intros [c [f [H1 [H2 H3]]]]. exists c. split.
      * destruct c; simpl; tauto.
      * apply in_improvements_of. exists f.
        split; [exact H1 | split; [exact H2 | exact H3]].
  - intros a. unfold generate_improvements. simpl. now rewrite app_nil_r.
  - intros c f l. split; [apply improvements_of_cons |].
    rewrite <- is_issue_spec. unfold improvements_of. simpl.
    destruct (is_issue f); simpl; split; congruence.
Qed.

(* ================================================================= *)
(** ** The Speed extractor *)

(** C4, the claim as written fails: without a Content-Length header the
    guard [content_length > 0] is false and no finding is emitted about the
    page size; the response-time finding is the only one. *)
Lemma no_content_length_no_size_finding :
  let r := {| total_seconds := PyNum.literal 1 2;
              headers := [("Content-Type", "text/html")];
              body := "<html><body>Hello</body></html>" |} in
  header "content-length" (headers r) = None
  /\ analyze_speed r = Ok ["Good server response time: 0.50s"]
  /\ ~ (exists f g, analyze_speed r = Ok [f; g]).
Proof.
  split; [reflexivity | split; [reflexivity |]].
  intros [f [g H]]. vm_compute in H. discriminate.
Qed.

(** C4, amended. When the headers have no Content-Length entry the page
    size is taken to be 0 and the extractor emits no finding about it: its
    result is the response-time finding alone.  The body of the response is
    never looked at. *)
Theorem speed_without_content_length (r : Response) :
  header "content-length" (headers r) = None ->
  content_length r = Ok 0
  /\ analyze_speed r
     = Ok [if gt (total_seconds r) 2
           then "Slow server response time: "
                ++ Fmt.fixed 2 (total_seconds r) ++ "s (recommended: < 2s)"
           else "Good server response time: "
                ++ Fmt.fixed 2 (total_seconds r) ++ "s"]
  /\ (forall r',
         total_seconds r' = total_seconds r -> headers r' = headers r ->
         analyze_speed r' = analyze_speed r).
Proof.
  intros H.
  assert (E : content_length r = Ok 0) by (unfold content_length; now rewrite H).
  split; [exact E | split].
  - unfold analyze_speed, returning_analysis, bind, check_response_time,
      check_page_size, bind, lift.
    rewrite E. destruct (gt (total_seconds r) 2); reflexivity.
  - intros r' Ht Hh.
    unfold analyze_speed, check_response_time, check_page_size, content_length.
    now rewrite Ht, Hh.
Qed.

Lemma speed_without_content_length_witness :
  let r := {| total_seconds := PyNum.literal 5 2;
              headers := [("Server", "nginx")]; body := "" |} in
  header "content-length" (headers r) = None
  /\ analyze_speed r
     = Ok ["Slow server response time: 2.50s (recommended: < 2s)"].
Proof.
  split; [reflexivity |].
  exact (proj1 (proj2 (speed_without_content_length
    {| total_seconds := PyNum.literal 5 2;
       headers := [("Server", "nginx")]; body := "" |} eq_refl))).
Defined.

(* ================================================================= *)
(** ** The Meta extractor *)

Lemma append_appends (f : Finding) : appends_one (append f) f.
Proof. intros st. reflexivity. Qed.

Lemma check_title_appends (soup : Soup) :
  exists f, appends_one (check_title soup) f.
Proof.
  unfold check_title. destruct (title_of soup) as [t|];
    [destruct (PyStr.truthy t) |]; eexists; apply append_appends.
Qed.

Lemma check_description_appends (soup : Soup) :
  exists f, appends_one (check_description soup) f.
Proof.
  unfold check_description.
  destruct (find "meta" "name" "description" soup) as [t|];
    [destruct (get t "content") as [c|]; [destruct (PyStr.truthy c) |] |];
    eexists; apply append_appends.
Qed.

Lemma check_robots_appends (soup : Soup) :
  exists f, appends_one (check_robots soup) f.
Proof.
  unfold check_robots. destruct (find "meta" "name" "robots" soup);
    eexists; apply append_appends.
Qed.

Lemma check_canonical_appends (soup : Soup) :
  exists f, appends_one (check_canonical soup) f.
Proof.
  unfold check_canonical. destruct (find "link" "rel" "canonical" soup);
    eexists; apply append_appends.
Qed.

Lemma check_viewport_appends (soup : Soup) :
  exists f, appends_one (check_viewport soup) f.
Proof.
  unfold check_viewport. destruct (find "meta" "name" "viewport" soup);
    eexists; apply append_appends.
Qed.

Lemma check_open_graph_appends (soup : Soup) :
  exists f, appends_one (check_open_graph soup) f.
Proof.
  unfold check_open_graph. destruct (og_tags soup);
    eexists; apply append_appends.
Qed.

Lemma analyze_meta_tags_shape (soup : Soup) (f1 f2 : Finding) :
  appends_one (check_title soup) f1 ->
  appends_one (check_description soup) f2 ->
  exists f3 f4 f5 f6,
    analyze_meta_tags soup = Ok [f1; f2; f3; f4; f5; f6].
Proof.
  intros H1 H2.
  destruct (check_robots_appends soup) as [f3 H3].
  destruct (check_canonical_appends soup) as [f4 H4].
  destruct (check_viewport_appends soup) as [f5 H5].
  destruct (check_open_graph_appends soup) as [f6 H6].
  exists f3, f4, f5, f6.
  unfold analyze_meta_tags, returning_analysis, bind.
  now rewrite H1, H2, H3, H4, H5, H6.
Qed.

Lemma truthy_nonempty (s : string) : s <> "" -> PyStr.truthy s = true.
Proof.
  intros H. unfold PyStr.truthy. destruct (String.eqb_spec s ""); [contradiction | reflexivity].
Qed.

(** The three verdicts on a length, told apart by their texts *)
Lemma title_verdicts (n : Z) :
  let f := length_finding "Title tag" 30 60 "50-60" n in
  (f = "Title tag is too short (" ++ PyStr.of_Z n
       ++ " chars, recommended: 50-60)" <-> n < 30)
  /\ (f = "Title tag is too long (" ++ PyStr.of_Z n
          ++ " chars, recommended: 50-60)" <-> 60 < n)
  /\ (f = "Title tag length is optimal (" ++ PyStr.of_Z n ++ " chars)"
      <-> 30 <= n <= 60).
Proof.
  unfold length_finding.
  destruct (Z.ltb_spec n 30); [| destruct (Z.ltb_spec 60 n)]; cbn;
    repeat split; intros; try lia; try reflexivity; try discriminate.
Qed.

Lemma description_verdicts (n : Z) :
  let f := length_finding "Meta description" 120 155 "120-155" n in
  (f = "Meta description is too short (" ++ PyStr.of_Z n
       ++ " chars, recommended: 120-155)" <-> n < 120)
  /\ (f = "Meta description is too long (" ++ PyStr.of_Z n
          ++ " chars, recommended: 120-155)" <-> 155 < n)
  /\ (f = "Meta description length is optimal (" ++ PyStr.of_Z n ++ " chars)"
      <-> 120 <= n <= 155).
Proof.
  unfold length_finding.
  destruct (Z.ltb_spec n 120); [| destruct (Z.ltb_spec 155 n)]; cbn;
    repeat split; intros; try lia; try reflexivity; try discriminate.
Qed.

Lemma check_title_present (soup : Soup) (t : string) :
  title_of soup = Some t -> t <> "" ->
  appends_one (check_title soup)
              (length_finding "Title tag" 30 60 "50-60" (strlen t)).
Proof.
  intros H Ht. unfold check_title. rewrite H, (truthy_nonempty _ Ht).
  apply append_appends.
Qed.

Lemma check_description_present (soup : Soup) (tag : Tag) (c : string) :
  find "meta" "name" "description" soup = Some tag ->
  get tag "content" = Some c -> c <> "" ->
  appends_one (check_description soup)
              (length_finding "Meta description" 120 155 "120-155" (strlen c)).
Proof.
  intros H Hc Hne. unfold check_description.
  rewrite H, Hc, (truthy_nonempty _ Hne). apply append_appends.
Qed.

(** C5, the claim as written fails: a title or a description of length 0
    is not "too short" but missing, the extractor testing the truth value of
    the string before its length. *)
Lemma empty_title_and_description_are_missing :
  let soup := [ {| tag_name := "title"; tag_attrs := [];
                   tag_string := Some "" |};
                {| tag_name := "meta";
                   tag_attrs := [("name", "description"); ("content", "")];
                   tag_string := None |} ] in
  title_of soup = Some ""
  /\ option_map (fun t => get t "content")
                (find "meta" "name" "description" soup) = Some (Some "")
  /\ analyze_meta_tags soup
     = Ok ["Missing title tag";
           "Missing meta description";
           "No robots meta tag found";
           "No canonical URL specified";
           "Missing viewport meta tag for mobile responsiveness";
           "No Open Graph tags found for social media optimization"].
Proof. repeat split. Qed.

(** C5, amended. A title that is not empty, of length L, is "too short"
    iff L < 30, "too long" iff L > 60 and "optimal" otherwise, so 30 and 60
    are optimal; a description whose content is not empty is classified the
    same way with the bounds 120 and 155.  An empty title or content is
    reported as missing. *)
Theorem title_and_description_thresholds (soup : Soup) :
  (forall t,
      title_of soup = Some t -> t <> "" ->
      exists f rest,
        analyze_meta_tags soup = Ok (f :: rest)
        /\ (f = "Title tag is too short (" ++ PyStr.of_Z (strlen t)
                ++ " chars, recommended: 50-60)" <-> strlen t < 30)
        /\ (f = "Title tag is too long (" ++ PyStr.of_Z (strlen t)
                ++ " chars, recommended: 50-60)" <-> 60 < strlen t)
        /\ (f = "Title tag length is optimal (" ++ PyStr.of_Z (strlen t)
                ++ " chars)" <-> 30 <= strlen t <= 60))
  /\ (forall tag c,
         find "meta" "name" "description" soup = Some tag ->
         get tag "content" = Some c -> c <> "" ->
         exists f1 f rest,
           analyze_meta_tags soup = Ok (f1 :: f :: rest)
           /\ (f = "Meta description is too short (" ++ PyStr.of_Z (strlen c)
                   ++ " chars, recommended: 120-155)" <-> strlen c < 120)
           /\ (f = "Meta description is too long (" ++ PyStr.of_Z (strlen c)
                   ++ " chars, recommended: 120-155)" <-> 155 < strlen c)
           /\ (f = "Meta description length is optimal ("
                   ++ PyStr.of_Z (strlen c) ++ " chars)"
               <-> 120 <= strlen c <= 155))
  /\ (title_of soup = Some "" ->
      exists rest, analyze_meta_tags soup = Ok ("Missing title tag" :: rest))
  /\ (forall tag,
         find "meta" "name" "description" soup = Some tag ->
         get tag "content" = Some "" ->
         exists f1 rest,
           analyze_meta_tags soup
           = Ok (f1 :: "Missing meta description" :: rest)).
Proof.
  split; [| split; [| split]].
  - intros t H Ht.
    destruct (check_description_appends soup) as [f2 H2].
    destruct (analyze_meta_tags_shape soup _ f2 (check_title_present _ _ H Ht) H2)
      as (f3 & f4 & f5 & f6 & E).
    eexists; eexists. split; [exact E |]. apply title_verdicts.
  - intros tag c H Hc Hne.
    destruct (check_title_appends soup) as [f1 H1].
    destruct (analyze_meta_tags_shape soup f1 _ H1
                (check_description_present _ _ _ H Hc Hne))
      as (f3 & f4 & f5 & f6 & E).
    eexists; eexists; eexists. split; [exact E |]. apply description_verdicts.
  - intros H.
    destruct (check_description_appends soup) as [f2 H2].
    assert (H1 : appends_one (check_title soup) "Missing title tag").
    { unfold check_title. rewrite H. apply append_appends. }
    destruct (analyze_meta_tags_shape soup _ f2 H1 H2) as (f3 & f4 & f5 & f6 & E).
    eexists. exact E.
  - intros tag H Hc.
    destruct (check_title_appends soup) as [f1 H1].
    assert (H2 : appends_one (check_description soup) "Missing meta description").
    { unfold check_description. rewrite H, Hc. apply append_appends. }
    destruct (analyze_meta_tags_shape soup f1 _ H1 H2) as (f3 & f4 & f5 & f6 & E).
    eexists; eexists. exact E.
Qed.

Lemma title_and_description_thresholds_witness :
  exists f1 f2 rest,
    analyze_meta_tags boundary_soup = Ok (f1 :: f2 :: rest)
    /\ f1 = "Title tag length is optimal (30 chars)"
    /\ f2 = "Meta description length is optimal (155 chars)".
Proof.
  destruct (title_and_description_thresholds boundary_soup)
    as (Ht & Hd & _ & _).
  destruct (Ht thirty_chars eq_refl ltac:(discriminate))
    as (f & rest & E & _ & _ & Hopt).
  destruct (Hd _ _ eq_refl eq_refl ltac:(discriminate))
    as (f1 & f2 & rest' & E' & _ & _ & Hopt').
  exists f1, f2, rest'. split; [exact E' |].
  rewrite E in E'. injection E' as -> _.
  split; [apply Hopt | apply Hopt']; vm_compute; split; discriminate.
Defined.

(* ================================================================= *)
(** ** The Security extractor and the mobile probe *)

Lemma extends_ret {A} (ok : Finding -> Prop) (a : A) : extends ok (ret a).
Proof. intros st. exists [], (Ok a). now rewrite app_nil_r. Qed.

Lemma extends_lift {A} (ok : Finding -> Prop) (r : result A) :
  extends ok (lift r).
Proof. intros st. exists [], r. now rewrite app_nil_r. Qed.

Lemma extends_append (ok : Finding -> Prop) (f : Finding) :
  ok f -> extends ok (append f).
Proof. intros H st. exists [f], (Ok tt). split; [reflexivity | now constructor]. Qed.

Lemma extends_bind {A B} (ok : Finding -> Prop) (m : Exec A) (k : A -> Exec B) :
  extends ok m -> (forall a, extends ok (k a)) -> extends ok (bind m k).
Proof.
  intros Hm Hk st. destruct (Hm st) as (e1 & r & E & F1). unfold bind.
  rewrite E. destruct r as [a | e].
  - destruct (Hk a (st ++ e1)%list) as (e2 & r & E2 & F2).
    exists (e1 ++ e2)%list, r. rewrite E2, app_assoc.
    split; [reflexivity | now apply Forall_app].
  - now exists e1, (Raise e).
Qed.

Lemma registration_info_extends (w : World) (url : string) :
  extends about_domain (registration_info w url).
Proof.
  unfold registration_info.
  apply extends_bind; [apply extends_lift | intros domain].
  apply extends_bind; [apply extends_lift | intros info].
  apply extends_bind; [| intros _].
  - destruct (truthy_val (creation_date info)); [| apply extends_ret].
    apply extends_bind; [apply extends_lift | intros c].
    apply extends_bind; [apply extends_lift | intros age].
    now apply extends_append.
  - destruct (truthy_val (expiration_date info)); [| apply extends_ret].
    apply extends_bind; [apply extends_lift | intros c].
    apply extends_bind; [apply extends_lift | intros days].
    now apply extends_append.
Qed.

Lemma about_domain_not_fetch (l : list Finding) :
  Forall about_domain l -> count_occ string_dec l could_not_fetch = 0%nat.
Proof.
  induction 1 as [|f l Hf _ IH]; simpl; [reflexivity |].
  destruct (string_dec f could_not_fetch) as [-> | _]; [discriminate | exact IH].
Qed.

Lemma https_finding_not_fetch (url : string) :
  https_finding url <> could_not_fetch.
Proof. unfold https_finding. destruct (PyStr.startswith url "https"); discriminate. Qed.

Lemma check_https_appends (url : string) :
  appends_one (check_https url) (https_finding url).
Proof.
  intros st. unfold check_https, https_finding.
  destruct (PyStr.startswith url "https"); reflexivity.
Qed.

(** What [analyze_security] returns, from what the body of its [try] does *)
Lemma analyze_security_cases (w : World) (url : string) :
  exists extra r,
    registration_info w url [https_finding url]
    = ((https_finding url :: extra)%list, r)
    /\ Forall about_domain extra
    /\ analyze_security w url
       = Ok (https_finding url
             :: extra ++ match r with
                         | Ok _ => []
                         | Raise _ => [could_not_fetch]
                         end)%list.
Proof.
  destruct (registration_info_extends w url [https_finding url])
    as (extra & r & E & F).
  exists extra, r. split; [exact E | split; [exact F |]].
  unfold analyze_security, returning_analysis, security_checks, bind.
  rewrite check_https_appends. unfold try_except. cbn [app]. rewrite E.
  destruct r; [now rewrite app_nil_r | reflexivity].
Qed.

(** C8. The Security extractor never raises: it returns a list that starts
    with the HTTPS finding, and whenever the registry lookup fails (in the
    parsing of the host name, in the lookup itself or in the date
    arithmetic) the failure is caught and shows as exactly one
    "Could not fetch domain registration information" finding, the last one.
    The mobile probe never raises either: a failed probe gives [false]. *)
Theorem security_and_probe_never_raise (w : World) (url : string) :
  (exists rest,
      analyze_security w url = Ok (https_finding url :: rest)
      /\ (In (https_finding url)
             ["Website is secured with HTTPS";
              "Website is not using HTTPS (security risk)"])
      /\ match snd (registration_info w url [https_finding url]) with
         | Raise _ =>
             count_occ string_dec (https_finding url :: rest) could_not_fetch
             = 1%nat
             /\ last rest "" = could_not_fetch
         | Ok _ =>
             count_occ string_dec (https_finding url :: rest) could_not_fetch
             = 0%nat
         end
      /\ (forall e, Urllib.netloc_of (bracketed_ok w) url = Raise e ->
                    rest = [could_not_fetch])
      /\ (forall domain e,
             Urllib.netloc_of (bracketed_ok w) url = Ok domain ->
             whois w domain = Raise e -> rest = [could_not_fetch])
      /\ (forall domain info,
             Urllib.netloc_of (bracketed_ok w) url = Ok domain ->
             whois w domain = Ok info ->
             truthy_val (creation_date info) = true ->
             (forall c, first_if_list (creation_date info) = Ok c ->
                        exists e, days_between (VDatetime false (now_for_age w)) c
                                  = Raise e) ->
             rest = [could_not_fetch]))
  /\ (exists b,
         check_mobile_friendly w url = Ok b
         /\ (forall e, mobile_get w url = Raise e -> b = false)
         /\ (forall code, mobile_get w url = Ok code -> b = (code =? 200))).
Proof.
  split.
  - destruct (analyze_security_cases w url) as (extra & r & E & F & EA).
    eexists. split; [exact EA |]. split.
    { unfold https_finding. destruct (PyStr.startswith url "https"); simpl; tauto. }
    split.
    { rewrite E. cbn [snd].
      destruct r; cbn [count_occ];
        (destruct (string_dec (https_finding url) could_not_fetch) as [X | _];
         [now apply https_finding_not_fetch in X |]);
        rewrite count_occ_app, (about_domain_not_fetch _ F);
        [reflexivity |].
      split; [reflexivity | now rewrite last_last]. }
    assert (R : forall e,
               registration_info w url [https_finding url]
               = ([https_finding url], Raise e) ->
               (extra ++ match r with
                         | Ok _ => []
                         | Raise _ => [could_not_fetch]
                         end)%list = [could_not_fetch]).
    { intros e X. rewrite X in E. injection E as E1 E2. subst r.
      now rewrite <- E1. }
    split; [| split].
    + intros e H. apply (R e). unfold registration_info, bind, lift.
      now rewrite H.
    + intros domain e H1 H2. apply (R e). unfold registration_info, bind, lift.
      now rewrite H1, H2.
    + intros domain info H1 H2 H3 H4.
      destruct (first_if_list (creation_date info)) as [c | e] eqn:H5.
      * destruct (H4 c eq_refl) as [e H6]. apply (R e).
        unfold registration_info, bind, lift. now rewrite H1, H2, H3, H5, H6.
      * apply (R e). unfold registration_info, bind, lift.
        now rewrite H1, H2, H3, H5.
  - unfold check_mobile_friendly, returning, try_except, bind, lift, ret.
    destruct (mobile_get w url) as [code | e]; cbn [snd].
    + exists (code =? 200). repeat split; congruence.
    + exists false. repeat split; congruence.
Qed.

(* ================================================================= *)
(** ** The Content extractor: the frequency table *)

Lemma word_freq_fold (words : list string) (d : list (string * Z)) :
  fold_left (fun d word => if is_long word then bump (PyStr.lower word) d else d)
            words d
  = fold_left (fun d w => bump w d) (long_lower words) d.
Proof.
  unfold long_lower. revert d. induction words as [|w l IH]; intros d; simpl.
  - reflexivity.
  - destruct (is_long w); simpl; apply IH.
Qed.

Lemma in_distinct (x : string) (l : list string) : In x (distinct l) <-> In x l.
Proof.
  induction l as [|y l IH]; simpl; [tauto |].
  rewrite filter_In, IH. destruct (String.eqb_spec x y) as [-> | N]; simpl.
  - tauto.
  - split; [tauto | intros [-> | H]; [contradiction | tauto]].
Qed.

(** Appending one more word to the text *)
Lemma distinct_snoc (l : list string) (w : string) :
  distinct (l ++ [w])
  = if in_dec string_dec w l then distinct l else (distinct l ++ [w])%list.
Proof.
  induction l as [|x l IH]; simpl; [reflexivity |].
  rewrite IH. destruct (string_dec x w) as [-> | N].
  - destruct (in_dec string_dec w l) as [I | I]; [reflexivity |].
    rewrite filter_app. simpl. rewrite String.eqb_refl. simpl.
    now rewrite app_nil_r.
  - destruct (in_dec string_dec w l) as [I | I]; [reflexivity |].
    rewrite filter_app. simpl.
    destruct (String.eqb_spec w x) as [-> | _]; [contradiction | reflexivity].
Qed.

Lemma occurrences_snoc (x w : string) (l : list string) :
  occurrences x (l ++ [w])
  = occurrences x l + (if String.eqb w x then 1 else 0).
Proof.
  unfold occurrences. rewrite count_occ_app. simpl.
  destruct (string_dec w x) as [-> | N].
  - rewrite String.eqb_refl. lia.
  - destruct (String.eqb_spec w x); [contradiction | lia].
Qed.

Lemma NoDup_distinct (l : list string) : NoDup (distinct l).
Proof.
  induction l as [|x l IH]; simpl; constructor.
  - rewrite filter_In, String.eqb_refl. simpl. intros [_ H]. discriminate.
  - now apply NoDup_filter.
Qed.

(** Bumping a key of the table, and bumping a word that is not a key yet *)
Lemma bump_present (w : string) (keys : list string) (f g : string -> Z) :
  NoDup keys -> In w keys ->
  (forall x, g x = f x + (if String.eqb w x then 1 else 0)) ->
  bump w (map (fun x => (x, f x)) keys) = map (fun x => (x, g x)) keys.
Proof.
  intros Hnd Hin Hg. induction keys as [|k keys IH]; [contradiction |].
  inversion Hnd as [|? ? Hk Hnd']; subst. simpl.
  destruct (String.eqb_spec k w) as [-> | N].
  - rewrite (Hg w), String.eqb_refl. f_equal. apply map_ext_in.
    intros x Hx. rewrite Hg.
    destruct (String.eqb_spec w x) as [-> | _]; [contradiction |].
    now rewrite Z.add_0_r.
  - rewrite (Hg k). destruct (String.eqb_spec w k) as [E | _];
      [symmetry in E; contradiction |].
    rewrite Z.add_0_r. f_equal. apply IH; trivial.
    destruct Hin as [E | Hin]; [contradiction | exact Hin].
Qed.

Lemma bump_absent (w : string) (keys : list string) (f : string -> Z) :
  ~ In w keys ->
  bump w (map (fun x => (x, f x)) keys)
  = (map (fun x => (x, f x)) keys ++ [(w, 1)])%list.
Proof.
  intros Hin. induction keys as [|k keys IH]; simpl; [reflexivity |].
  destruct (String.eqb_spec k w) as [-> | N].
  - exfalso. apply Hin. now left.
  - f_equal. apply IH. intros H. apply Hin. now right.
Qed.

Lemma occurrences_absent (w : string) (l : list string) :
  ~ In w l -> occurrences w l = 0.
Proof.
  intros H. unfold occurrences.
  now rewrite (proj1 (count_occ_not_In string_dec l w) H).
Qed.

Lemma bump_fold_is_table (l : list string) :
  fold_left (fun d w => bump w d) l []
  = map (fun w => (w, occurrences w l)) (distinct l).
Proof.
  induction l as [|w l IH] using rev_ind; [reflexivity |].
  rewrite fold_left_app. simpl. rewrite IH, distinct_snoc.
  destruct (in_dec string_dec w l) as [I | I].
  - apply bump_present.
    + apply NoDup_distinct.
    + now apply in_distinct.
    + intros x. apply occurrences_snoc.
  - rewrite bump_absent by now rewrite in_distinct.
    rewrite map_app. simpl.
    rewrite occurrences_snoc, String.eqb_refl, (occurrences_absent _ _ I).
    f_equal. apply map_ext_in. intros x Hx. rewrite occurrences_snoc.
    destruct (String.eqb_spec w x) as [-> | _]; [| now rewrite Z.add_0_r].
    exfalso. apply I. now apply in_distinct.
Qed.

(** The dictionary [word_freq] is the frequency table of the
    specification. *)
Lemma word_freq_is_table (words : list string) :
  word_freq words = frequency_table words.
Proof.
  unfold word_freq, frequency_table. rewrite word_freq_fold.
  apply bump_fold_is_table.
Qed.

Lemma occurrences_bounds (w : string) (l : list string) :
  In w l -> 1 <= occurrences w l <= len l.
Proof.
  intros H. unfold occurrences, len.
  pose proof (proj1 (count_occ_In string_dec l w) H).
  pose proof (count_occ_bound string_dec w l). lia.
Qed.

Lemma long_lower_length (words : list string) :
  len (long_lower words) <= len words.
Proof.
  unfold long_lower, len. rewrite length_map.
  pose proof (filter_length_le is_long words). lia.
Qed.

Lemma frequency_table_counts (words : list string) (e : string * Z) :
  In e (frequency_table words) ->
  In (fst e) (long_lower words)
  /\ snd e = occurrences (fst e) (long_lower words)
  /\ 1 <= snd e <= len words.
Proof.
  unfold frequency_table. rewrite in_map_iff. intros [w [<- H]].
  apply (proj1 (in_distinct _ _)) in H. simpl.
  split; [exact H | split; [reflexivity |]].
  pose proof (occurrences_bounds _ _ H). pose proof (long_lower_length words).
  lia.
Qed.

(* ================================================================= *)
(** ** The Content extractor: the ranking *)

Lemma insert_desc_perm (x : string * Z) (l : list (string * Z)) :
  Permutation (insert_desc x l) (x :: l).
Proof.
  induction l as [|y l IH]; simpl; [reflexivity |].
  destruct (snd x <? snd y); [| reflexivity].
  rewrite IH. apply perm_swap.
Qed.

Lemma sorted_desc_perm (l : list (string * Z)) : Permutation (sorted_desc l) l.
Proof.
  induction l as [|x l IH]; simpl; [reflexivity |].
  rewrite insert_desc_perm. now constructor.
Qed.

Lemma insert_desc_sorted (x : string * Z) (l : list (string * Z)) :
  StronglySorted (fun a b => snd b <= snd a) l ->
  StronglySorted (fun a b => snd b <= snd a) (insert_desc x l).
Proof.
  induction 1 as [|y l Hs IH Hy]; simpl.
  - repeat constructor.
  - destruct (Z.ltb_spec (snd x) (snd y)).
    + constructor; [exact IH |].
      apply (Permutation_Forall (Permutation_sym (insert_desc_perm x l))).
      constructor; [lia | exact Hy].
    + constructor; [now constructor |].
      constructor; [lia |].
      eapply Forall_impl; [| exact Hy]. simpl. intros z Hz. lia.
Qed.

Lemma sorted_desc_sorted (l : list (string * Z)) :
  StronglySorted (fun a b => snd b <= snd a) (sorted_desc l).
Proof.
  induction l as [|x l IH]; simpl; [constructor | now apply insert_desc_sorted].
Qed.

Lemma insert_desc_stable (c : Z) (x : string * Z) (l : list (string * Z)) :
  with_count c (insert_desc x l) = with_count c (x :: l).
Proof.
  unfold with_count. induction l as [|y l IH]; simpl; [reflexivity |].
  destruct (Z.ltb_spec (snd x) (snd y)); [| reflexivity].
  simpl. rewrite IH. simpl.
  destruct (Z.eqb_spec (snd y) c), (Z.eqb_spec (snd x) c);
    try reflexivity; lia.
Qed.

Lemma sorted_desc_stable (c : Z) (l : list (string * Z)) :
  with_count c (sorted_desc l) = with_count c l.
Proof.
  induction l as [|x l IH]; simpl; [reflexivity |].
  rewrite insert_desc_stable. unfold with_count in *. simpl. now rewrite IH.
Qed.

Lemma sorted_desc_ranked (table : list (string * Z)) :
  ranked table (sorted_desc table).
Proof.
  split; [apply sorted_desc_perm | split; [apply sorted_desc_sorted |]].
  intros c. apply sorted_desc_stable.
Qed.

(* ================================================================= *)
(** ** The Content extractor: what it returns *)

Lemma check_headings_appends (soup : Soup) (st : list string) :
  check_headings soup st = ((st ++ heading_findings soup)%list, Ok tt).
Proof.
  unfold check_headings, heading_findings, bind, multiple_h1_text, append,
    skip, ret.
  destruct (h1_count soup =? 0); [| destruct (1 <? h1_count soup)];
    rewrite <- ?app_assoc; reflexivity.
Qed.

Lemma check_images_appends (soup : Soup) (st : list string) :
  check_images soup st = ((st ++ image_findings soup)%list, Ok tt).
Proof.
  unfold check_images, image_findings, bind, total_images_text,
    without_alt_text, optimize_text, append, skip, ret.
  cbv zeta.
  destruct (0 <? len (filter without_alt (find_all "img" soup)));
    destruct (0 <? len (filter raster (find_all "img" soup)));
    rewrite <- ?app_assoc, ?app_nil_r; reflexivity.
Qed.

Lemma for_each_appends {A} (l : list A) (body : A -> Exec unit)
  (text : A -> string) (st : list string) :
  (forall x, In x l -> appends_one (body x) (text x)) ->
  for_each l body st = ((st ++ map text l)%list, Ok tt).
Proof.
  revert st. induction l as [|x l IH]; intros st H; simpl.
  - now rewrite app_nil_r.
  - unfold bind. rewrite (H x) by now left.
    rewrite IH by (intros y Hy; apply H; now right).
    now rewrite <- app_assoc.
Qed.

Lemma overflow_bound_large : 1 < overflow_bound.
Proof.
  unfold overflow_bound.
  assert (0 < 2 ^ 970) by (apply Z.pow_pos_nonneg; lia).
  assert (E : 2 ^ 54 - 1 = 18014398509481983) by reflexivity.
  rewrite E. nia.
Qed.

(** The division that gives a density never fails when the count is at
    least 1 and at most the number of words. *)
Lemma density_defined (count word_count : Z) :
  1 <= count <= word_count ->
  exists q,
    true_div count word_count = Ok q
    /\ density count word_count = Ok (PyNum.fmul q (PyNum.of_int 100)).
Proof.
  intros H. unfold density, true_div.
  destruct (Z.eqb_spec word_count 0); [lia |].
  pose proof overflow_bound_large.
  destruct (Z.leb_spec (overflow_bound * Z.abs word_count) (Z.abs count));
    [nia |].
  eexists. split; reflexivity.
Qed.

Lemma firstn_incl {A} (n : nat) (l : list A) (x : A) :
  In x (firstn n l) -> In x l.
Proof.
  intros H. rewrite <- (firstn_skipn n l). apply in_or_app. now left.
Qed.

Lemma top_keywords_in_table (words : list string) (e : string * Z) :
  In e (top_keywords words) -> In e (frequency_table words).
Proof.
  unfold top_keywords. intros H. apply firstn_incl in H.
  rewrite word_freq_is_table in H.
  exact (Permutation_in _ (sorted_desc_perm _) H).
Qed.

Lemma top_keywords_counts (words : list string) (e : string * Z) :
  In e (top_keywords words) -> 1 <= snd e <= len words.
Proof.
  intros H. now apply frequency_table_counts, top_keywords_in_table.
Qed.

Lemma keyword_appends (words : list string) (e : string * Z) :
  In e (top_keywords words) ->
  appends_one
    (bind (lift (density (snd e) (len words)))
          (fun d => append (keyword_line (fst e) d (snd e))))
    (keyword_finding (len words) e).
Proof.
  intros H st.
  destruct (density_defined _ _ (top_keywords_counts _ _ H)) as (q & _ & E).
  unfold bind, lift, keyword_finding, shown_density. now rewrite E.
Qed.

Lemma check_text_present (text : string) (st : list string) :
  text <> "" ->
  check_text (Some text) st
  = ((st ++ [word_count_finding (len (PyStr.split text));
             "Top 5 keywords and their density:"]
         ++ map (keyword_finding (len (PyStr.split text)))
                (top_keywords (PyStr.split text)))%list,
     Ok tt).
Proof.
  intros H. unfold check_text. rewrite (truthy_nonempty _ H). cbv zeta.
  unfold bind at 1. unfold append at 1. unfold bind at 1. unfold append at 1.
  rewrite (for_each_appends _ _ (keyword_finding (len (PyStr.split text)))).
  - now rewrite <- !app_assoc.
  - intros e He. now apply keyword_appends.
Qed.

Lemma check_text_absent (text : option string) (st : list string) :
  text = None \/ text = Some "" -> check_text text st = (st, Ok tt).
Proof. intros [-> | ->]; reflexivity. Qed.

Lemma analyze_content_with_text (soup : Soup) (text : string) :
  text <> "" ->
  analyze_content soup (Some text)
  = Ok (heading_findings soup ++ image_findings soup
        ++ [word_count_finding (len (PyStr.split text));
            "Top 5 keywords and their density:"]
        ++ map (keyword_finding (len (PyStr.split text)))
               (top_keywords (PyStr.split text)))%list.
Proof.
  intros H. unfold analyze_content, returning_analysis, bind.
  rewrite check_headings_appends, check_images_appends,
    (check_text_present _ _ H).
  now rewrite <- !app_assoc.
Qed.

Lemma analyze_content_without_text (soup : Soup) (text : option string) :
  text = None \/ text = Some "" ->
  analyze_content soup text
  = Ok (heading_findings soup ++ image_findings soup)%list.
Proof.
  intros H. unfold analyze_content, returning_analysis, bind.
  now rewrite check_headings_appends, check_images_appends,
    (check_text_absent _ _ H).
Qed.

(* ================================================================= *)
(** ** The Content extractor: tokens and densities *)

Lemma flush_tokens (cur : list ascii) :
  Forall (fun c => PyStr.is_space c = false) cur ->
  Forall is_token (PyStr.flush cur).
Proof.
  intros H. destruct cur as [|c cur]; simpl; [constructor |].
  constructor; [| constructor]. split.
  - intros E. apply (f_equal list_ascii_of_string) in E.
    rewrite list_ascii_of_string_of_list_ascii in E. simpl in E.
    now apply app_eq_nil in E as [_ E].
  - rewrite list_ascii_of_string_of_list_ascii.
    apply Forall_rev in H. exact H.
Qed.

Lemma split_from_tokens (cur : list ascii) (s : string) :
  Forall (fun c => PyStr.is_space c = false) cur ->
  Forall is_token (PyStr.split_from cur s).
Proof.
  revert cur. induction s as [|c s IH]; intros cur H; simpl.
  - now apply flush_tokens.
  - destruct (PyStr.is_space c) eqn:E.
    + apply Forall_app. split; [now apply flush_tokens | now apply IH].
    + apply IH. now constructor.
Qed.

Lemma split_tokens (s : string) : Forall is_token (PyStr.split s).
Proof. apply split_from_tokens. constructor. Qed.

Lemma string_of_rev_cons (c : ascii) (cur : list ascii) (s : string) :
  string_of_list_ascii (rev (c :: cur)) ++ s
  = string_of_list_ascii (rev cur) ++ String c s.
Proof.
  simpl. induction (rev cur) as [|d l IH]; simpl; [reflexivity | now rewrite IH].
Qed.

Lemma concat_flush (cur : list ascii) :
  String.concat "" (PyStr.flush cur) = string_of_list_ascii (rev cur).
Proof. destruct cur; reflexivity. Qed.

Lemma concat_app (l r : list string) :
  String.concat "" (l ++ r) = String.concat "" l ++ String.concat "" r.
Proof.
  induction l as [|x l IH]; simpl; [reflexivity |].
  destruct l as [|y l]; simpl in *.
  - destruct r; simpl; [| reflexivity].
    induction x; simpl; [reflexivity | now f_equal].
  - rewrite IH. clear. induction x; simpl; [reflexivity | now f_equal].
Qed.

Lemma split_from_concat (cur : list ascii) (s : string) :
  String.concat "" (PyStr.split_from cur s)
  = string_of_list_ascii (rev cur) ++ without_blanks s.
Proof.
  revert cur. induction s as [|c s IH]; intros cur; simpl.
  - rewrite concat_flush. clear.
    induction (string_of_list_ascii (rev cur)); simpl; [reflexivity | now f_equal].
  - destruct (PyStr.is_space c).
    + now rewrite concat_app, concat_flush, IH.
    + now rewrite IH, string_of_rev_cons.
Qed.

Lemma split_concat (s : string) :
  String.concat "" (PyStr.split s) = without_blanks s.
Proof. apply split_from_concat. Qed.

Lemma small_texts_nearest : forallb (fun p => nearest_tenth (fst p) (snd p)) small_texts = true.
Proof. vm_compute. reflexivity. Qed.

Lemma nearest_tenth_small (count n : Z) :
  1 <= count <= n -> n <= 40 -> nearest_tenth count n = true.
Proof.
  intros H Hn. pose proof small_texts_nearest as F.
  rewrite forallb_forall in F. apply (F (count, n)).
  unfold small_texts. apply in_flat_map. exists (Z.to_nat n). split.
  - apply in_seq. lia.
  - apply in_map_iff. exists (Z.to_nat count). split.
    + f_equal; lia.
    + apply in_seq. lia.
Qed.

Lemma heading_and_image_findings_not_about_text (soup : Soup) :
  Forall (fun f => about_text f = false)
         (heading_findings soup ++ image_findings soup).
Proof.
  apply Forall_app. split.
  - unfold heading_findings.
    destruct (h1_count soup =? 0); [| destruct (1 <? h1_count soup)];
      repeat constructor.
  - unfold image_findings. cbv zeta.
    destruct (0 <? len (filter without_alt (find_all "img" soup)));
      destruct (0 <? len (filter raster (find_all "img" soup)));
      repeat constructor.
Qed.

(** C9. When the extracted text is absent ([None] or empty) the Content
    extractor does not fail: it returns the heading findings and the image
    findings, among them the heading summary and the image total, and no
    finding about the word count or a keyword; the content sub-score is
    computed from these findings alone. *)
Theorem content_without_text (soup : Soup) (text : option string) :
  text = None \/ text = Some "" ->
  exists findings,
    analyze_content soup text = Ok findings
    /\ findings = (heading_findings soup ++ image_findings soup)%list
    /\ In (heading_summary soup) findings
    /\ In (total_images_text (len (find_all "img" soup))) findings
    /\ Forall (fun f => about_text f = false) findings
    /\ forall a,
        content_analysis a = findings ->
        exists n,
          tally (flagged (issue_keywords Content)) findings n
          /\ score_of (calculate_scores a) Content
             = Z.max 0 (Z.min 100 (100 - 10 * n)).
Proof.
  intros H. exists (heading_findings soup ++ image_findings soup)%list.
  split; [now apply analyze_content_without_text |].
  split; [reflexivity |]. split; [| split; [| split]].
  - apply in_or_app. left. unfold heading_findings. apply in_or_app. right.
    now left.
  - apply in_or_app. right. unfold image_findings. now left.
  - apply heading_and_image_findings_not_about_text.
  - intros a Ha.
    exists (count_issues (content_analysis a) (issue_keywords Content)).
    split.
    + rewrite <- Ha. apply count_issues_tally.
    + simpl. unfold sub_score, raw_score.
      now rewrite clamp_int_spec, Z.mul_comm.
Qed.

Lemma content_without_text_witness :
  exists findings,
    analyze_content two_h1_soup None = Ok findings
    /\ findings
       = ["Multiple H1 headings detected (2 found, recommended: 1)";
          "Heading structure: h1: 2";
          "Total images: 1";
          "Images without alt text: 1";
          "Consider optimizing 1 large image(s)"].
Proof.
  destruct (content_without_text two_h1_soup None (or_introl eq_refl))
    as (findings & E & F & _).
  exists findings. split; [exact E | exact F].
Defined.

Lemma analyze_content_returns (soup : Soup) (text : option string) :
  exists findings, analyze_content soup text = Ok findings.
Proof.
  destruct text as [t |].
  - destruct (string_dec t "") as [-> | N].
    + eexists. apply analyze_content_without_text. now right.
    + eexists. now apply analyze_content_with_text.
  - eexists. apply analyze_content_without_text. now left.
Qed.

(** C10. The density division never divides by zero: the Content extractor
    returns for every input, and each keyword it prints a density for has a
    count of at least 1, every counted occurrence being one of the tokens of
    the split; so the token count is at least the count, the division is
    defined, and the density lies in (0, 100]. *)
Theorem density_never_divides_by_zero (soup : Soup) (text : option string) :
  (exists findings, analyze_content soup text = Ok findings)
  /\ forall t,
      text = Some t -> t <> "" ->
      let words := PyStr.split t in
      analyze_content soup text
      = Ok (heading_findings soup ++ image_findings soup
            ++ [word_count_finding (len words);
                "Top 5 keywords and their density:"]
            ++ map (keyword_finding (len words)) (top_keywords words))%list
      /\ forall e,
          In e (top_keywords words) ->
          snd e = occurrences (fst e) (long_lower words)
          /\ len (long_lower words) <= len words
          /\ 1 <= snd e <= len words
          /\ (exists q, true_div (snd e) (len words) = Ok q)
          /\ (0 < (100 * snd e) # (Z.to_pos (len words)) <= 100)%Q
          /\ (len words <= 40 ->
              exists x,
                density (snd e) (len words) = Ok x
                /\ PyNum.lt (PyNum.PInt 0) (PyNum.PFloat x) = true
                /\ PyNum.lt (PyNum.PInt 100) (PyNum.PFloat x) = false).
Proof.
  split; [apply analyze_content_returns |].
  intros t -> Ht words. split; [now apply analyze_content_with_text |].
  intros e He.
  pose proof (top_keywords_counts _ _ He) as B.
  destruct (frequency_table_counts _ _ (top_keywords_in_table _ _ He))
    as (_ & Hocc & _).
  destruct (density_defined _ _ B) as (q & Hq & Hd).
  split; [exact Hocc |]. split; [apply long_lower_length |].
  split; [exact B |]. split; [now exists q |]. split.
  - unfold Qlt, Qle. cbn [Qnum Qden]. rewrite Z2Pos.id by lia. lia.
  - intros Hn. pose proof (nearest_tenth_small _ _ B Hn) as X.
    unfold nearest_tenth in X. rewrite Hd in X. cbv zeta in X.
    rewrite !andb_true_iff, negb_true_iff in X.
    destruct X as [[_ X1] X2]. eexists. split; [exact Hd |]. now split.
Qed.

Lemma density_never_divides_by_zero_witness :
  analyze_content two_h1_soup (Some "fast pages rank well and fast pages win")
  = Ok ["Multiple H1 headings detected (2 found, recommended: 1)";
        "Heading structure: h1: 2";
        "Total images: 1";
        "Images without alt text: 1";
        "Consider optimizing 1 large image(s)";
        "Content is too short (8 words, recommended: minimum 300)";
        "Top 5 keywords and their density:";
        "- 'fast': 25.0% (2 occurrences)";
        "- 'pages': 25.0% (2 occurrences)";
        "- 'rank': 12.5% (1 occurrences)";
        "- 'well': 12.5% (1 occurrences)"]
  /\ 1 <= 2 <= len (PyStr.split "fast pages rank well and fast pages win").
Proof.
  destruct (density_never_divides_by_zero two_h1_soup
              (Some "fast pages rank well and fast pages win")) as [_ H].
  destruct (H _ eq_refl ltac:(discriminate)) as [E B].
  split; [exact E |].
  exact (proj1 (proj2 (proj2 (B ("fast", 2) (or_introl eq_refl))))).
Defined.

(** C6. For a text that is not empty, split on blanks into N tokens, the
    Content extractor builds the frequency table of the lowercased tokens of
    more than three characters, ranks it by decreasing count with ties in
    the order of first occurrence, keeps the first five and emits one
    finding per kept keyword, the text ['<word>': <density>% (<count>
    occurrences)] behind a dash, where the density is 100 * count / N, N
    being the number of all tokens, printed with one decimal (for texts of
    up to 40 tokens it is checked to be a nearest tenth). *)
Theorem keyword_density_findings (soup : Soup) (text : string) :
  text <> "" ->
  let words := PyStr.split text in
  let N := len words in
  Forall is_token words
  /\ String.concat "" words = without_blanks text
  /\ exists r,
      ranked (frequency_table words) r
      /\ analyze_content soup (Some text)
         = Ok (heading_findings soup ++ image_findings soup
               ++ [word_count_finding N; "Top 5 keywords and their density:"]
               ++ map (keyword_finding N) (firstn 5 r))%list
      /\ forall e,
          In e (firstn 5 r) ->
          snd e = occurrences (fst e) (long_lower words)
          /\ exists q,
              true_div (snd e) N = Ok q
              /\ keyword_finding N e
                 = "- " ++ keyword_text
                             (fst e)
                             (Fmt.fixed 1 (PyNum.fmul q (PyNum.of_int 100)))
                             (snd e)
              /\ (N <= 40 ->
                  exists d,
                    Fmt.fixed 1 (PyNum.fmul q (PyNum.of_int 100))
                    = tenths_text d
                    /\ 2 * Z.abs (d * N - 1000 * snd e) <= N).
Proof.
  intros Ht words N. subst N words.
  split; [apply split_tokens |]. split; [apply split_concat |].
  exists (sorted_desc (frequency_table (PyStr.split text))).
  split; [apply sorted_desc_ranked |].
  assert (T : firstn 5 (sorted_desc (frequency_table (PyStr.split text)))
              = top_keywords (PyStr.split text)).
  { unfold top_keywords. now rewrite word_freq_is_table. }
  rewrite T. split; [now apply analyze_content_with_text |].
  intros e He.
  pose proof (top_keywords_counts _ _ He) as B.
  destruct (frequency_table_counts _ _ (top_keywords_in_table _ _ He))
    as (_ & Hocc & _).
  destruct (density_defined _ _ B) as (q & Hq & Hd).
  split; [exact Hocc |]. exists q. split; [exact Hq |]. split.
  - unfold keyword_finding, shown_density. now rewrite Hd.
  - intros Hn. pose proof (nearest_tenth_small _ _ B Hn) as X.
    unfold nearest_tenth in X. rewrite Hd in X. cbv zeta in X.
    rewrite !andb_true_iff in X. destruct X as [[[X1 X2] _] _].
    exists (Fmt.scaled 1 (PyNum.fmul q (PyNum.of_int 100))).
    split; [now apply String.eqb_eq | now apply Z.leb_le].
Qed.

Example fox_text_findings :
  analyze_content [] (Some fox_text)
  = Ok ["Missing H1 heading (main title)";
        "Heading structure: ";
        "Total images: 0";
        "Content is too short (13 words, recommended: minimum 300)";
        "Top 5 keywords and their density:";
        "- 'quick': 23.1% (3 occurrences)";
        "- 'lazy': 7.7% (1 occurrences)";
        "- 'jump': 7.7% (1 occurrences)"].
Proof. vm_compute. reflexivity. Qed.

Lemma keyword_density_findings_witness :
  fox_text <> ""
  /\ Forall is_token (PyStr.split fox_text)
  /\ exists r,
      ranked [("quick", 3); ("lazy", 1); ("jump", 1)] r
      /\ analyze_content [] (Some fox_text)
         = Ok (["Missing H1 heading (main title)";
                "Heading structure: ";
                "Total images: 0";
                "Content is too short (13 words, recommended: minimum 300)";
                "Top 5 keywords and their density:"]
               ++ map (keyword_finding 13) (firstn 5 r))%list.
Proof.
  split; [discriminate |].
  destruct (keyword_density_findings [] fox_text ltac:(discriminate))
    as (T & _ & r & R & E & _).
  split; [exact T |]. exists r. split; [exact R | exact E].
Defined.

(* ================================================================= *)
(** ** The Links extractor *)

Lemma internal_spec (base : string) (an : string * string) :
  internal base an = true <-> snd an = base \/ snd an = "".
Proof.
  unfold internal, PyStr.truthy. rewrite orb_true_iff, negb_true_iff, negb_false_iff.
  now rewrite !String.eqb_eq.
Qed.

Lemma skipped_spec (href : string) :
  skipped href = true <-> href = "" \/ exists rest, href = "#" ++ rest.
Proof.
  unfold skipped, PyStr.truthy.
  rewrite orb_true_iff, negb_true_iff, negb_false_iff, String.eqb_eq.
  now rewrite startswith_spec.
Qed.

Lemma classify_all_spec (w : World) (url base : string) (links : list Tag)
  (b : Buckets) (resolved : list (string * string)) (st : list string) :
  Forall2 (resolves w url) (kept links) resolved ->
  classify_all w url base links b st
  = (st, Ok ((fst b ++ map fst (filter (internal base) resolved))%list,
             (snd b ++ map fst (filter (external base) resolved))%list)).
Proof.
  revert b resolved. induction links as [|link rest IH]; intros b resolved H.
  - inversion H; subst. simpl. unfold ret. rewrite !app_nil_r.
    now destruct b.
  - simpl. unfold kept, hrefs_of in H. simpl in H.
    destruct (get link "href") as [href |]; [| now apply IH].
    simpl in H. destruct (skipped href); simpl in H; [now apply IH |].
    inversion H as [| ? an ? resolved' [J N] H']; subst.
    unfold bind at 1. unfold classify, bind, lift. rewrite J, N.
    fold (internal base an). unfold external. simpl filter.
    destruct (internal base an); unfold ret; simpl negb; cbv iota;
      rewrite (IH _ resolved' H'); cbn [fst snd map];
      now rewrite <- ?app_assoc.
Qed.

Lemma kept_length (links : list Tag) (base : string)
  (resolved : list (string * string)) (w : World) (url : string) :
  Forall2 (resolves w url) (kept links) resolved ->
  len (filter (internal base) resolved) + len (filter (external base) resolved)
  = len (kept links).
Proof.
  intros H. apply Forall2_length in H. unfold len. rewrite H. clear H.
  rewrite <- Nat2Z.inj_add. f_equal. unfold external.
  induction resolved as [|an l IH]; simpl; [reflexivity |].
  destruct (internal base an); simpl; lia.
Qed.

Lemma hrefs_of_length (links : list Tag) :
  Forall (fun t => has_href t = true) links ->
  List.length (hrefs_of links) = List.length links.
Proof.
  induction 1 as [|t links Ht _ IH]; simpl; [reflexivity |].
  unfold has_href in Ht. destruct (get t "href"); [| discriminate].
  simpl. now rewrite IH.
Qed.

Lemma hrefs_of_anchors (soup : Soup) :
  List.length (hrefs_of (anchors soup)) = List.length (anchors soup).
Proof.
  apply hrefs_of_length, Forall_forall. intros t Ht.
  apply filter_In in Ht as [_ Ht]. now apply andb_true_iff in Ht.
Qed.

Lemma analyze_links_spec (w : World) (url base : string) (soup : Soup)
  (resolved : list (string * string)) :
  Urllib.netloc_of (bracketed_ok w) url = Ok base ->
  Forall2 (resolves w url) (kept (anchors soup)) resolved ->
  analyze_links w url soup
  = Ok (link_findings (len (anchors soup))
                      (len (filter (internal base) resolved))
                      (len (filter (external base) resolved))
        ++ nofollow_findings soup)%list.
Proof.
  intros Hb H.
  unfold analyze_links, returning_analysis, link_checks. cbv zeta.
  unfold bind at 1. unfold lift at 1. rewrite Hb.
  unfold bind at 1. rewrite (classify_all_spec _ _ _ _ _ _ _ H).
  cbn [fst snd app]. unfold len at 2 3. rewrite !length_map.
  fold (len (filter (internal base) resolved)).
  fold (len (filter (external base) resolved)).
  unfold bind, append, skip, ret, nofollow_findings, link_findings.
  destruct (0 <? len (nofollow soup)); reflexivity.
Qed.

(** When the library rejects a link that is to be classified, the
    extractor raises. *)
Lemma classify_pure (w : World) (url base href : string) (b : Buckets)
  (st : list string) :
  exists r, classify w url base href b st = (st, r).
Proof.
  unfold classify, bind, lift, ret.
  destruct (Urllib.urljoin (bracketed_ok w) url href) as [a | e];
    [| now eexists].
  destruct (Urllib.netloc_of (bracketed_ok w) a) as [n | e]; [| now eexists].
  destruct (String.eqb n base || negb (PyStr.truthy n)); now eexists.
Qed.

Lemma classify_all_raises (w : World) (url base href : string) (e : exn)
  (links : list Tag) :
  In href (kept links) ->
  Urllib.urljoin (bracketed_ok w) url href = Raise e ->
  forall b st, exists e', classify_all w url base links b st = (st, Raise e').
Proof.
  intros Hin He. induction links as [|link rest IH]; intros b st;
    [contradiction |].
  simpl. unfold kept, hrefs_of in Hin. simpl in Hin.
  destruct (get link "href") as [h |]; [| now apply IH].
  simpl in Hin. destruct (skipped h); simpl in Hin; [now apply IH |].
  unfold bind. destruct (classify_pure w url base h b st) as [r Er].
  destruct Hin as [-> | Hin].
  - exists e. unfold classify, bind, lift. now rewrite He.
  - rewrite Er. destruct r as [b' | e']; [now apply IH | now exists e'].
Qed.

Lemma analyze_links_raises (w : World) (url base href : string) (e : exn)
  (soup : Soup) :
  Urllib.netloc_of (bracketed_ok w) url = Ok base ->
  In href (kept (anchors soup)) ->
  Urllib.urljoin (bracketed_ok w) url href = Raise e ->
  exists e', analyze_links w url soup = Raise e'.
Proof.
  intros Hb Hin He.
  destruct (classify_all_raises w url base href e _ Hin He ([], []) [])
    as [e' E].
  exists e'. unfold analyze_links, returning_analysis, link_checks. cbv zeta.
  unfold bind at 1. unfold lift at 1. rewrite Hb.
  unfold bind at 1. now rewrite E.
Qed.

(** C7. The reported total counts every anchor that has an [href]; the
    anchors whose [href] is empty or starts with [#] are in neither other
    count; every other [href] is resolved against the URL of the page and is
    internal iff the host of the result is the host of the page or is empty,
    external otherwise.  For the page https://example.com/blog, [/about] and
    [https://example.com/contact] are internal, [https://other.org] is
    external and [#section] is in the total only. *)
Theorem links_are_counted_by_host (w : World) (url base : string) (soup : Soup)
  (resolved : list (string * string)) :
  Urllib.netloc_of (bracketed_ok w) url = Ok base ->
  Forall2 (resolves w url) (kept (anchors soup)) resolved ->
  analyze_links w url soup
  = Ok (link_findings (len (anchors soup))
                      (len (filter (internal base) resolved))
                      (len (filter (external base) resolved))
        ++ nofollow_findings soup)%list
  /\ len (hrefs_of (anchors soup)) = len (anchors soup)
  /\ len (filter (internal base) resolved)
     + len (filter (external base) resolved)
     = len (kept (anchors soup))
  /\ (forall href,
         In href (kept (anchors soup))
         <-> In href (hrefs_of (anchors soup))
             /\ ~ (href = "" \/ exists rest, href = "#" ++ rest))
  /\ (forall an,
         (internal base an = true <-> snd an = base \/ snd an = "")
         /\ (external base an = true <-> ~ (snd an = base \/ snd an = "")))
  /\ analyze_links quiet_world blog_url blog_soup
     = Ok ["Total links found: 4"; "Internal links: 2"; "External links: 1"]
  /\ Forall2 (resolves quiet_world blog_url)
             ["/about"; "https://example.com/contact"; "https://other.org"]
             [("https://example.com/about", "example.com");
              ("https://example.com/contact", "example.com");
              ("https://other.org", "other.org")]
  /\ Urllib.netloc_of (bracketed_ok quiet_world) blog_url = Ok "example.com"
  /\ kept (anchors blog_soup)
     = ["/about"; "https://example.com/contact"; "https://other.org"].
Proof.
  intros Hb H.
  split; [now apply analyze_links_spec |].
  split; [unfold len; now rewrite hrefs_of_anchors |].
  split; [now apply (kept_length _ _ _ w url) |].
  split; [| split; [| split; [| split; [| split]]]].
  - intros href. unfold kept. rewrite filter_In, negb_true_iff.
    rewrite <- skipped_spec. destruct (skipped href); intuition congruence.
  - intros an. unfold external. rewrite negb_true_iff, <- internal_spec.
    destruct (internal base an); intuition congruence.
  - vm_compute. reflexivity.
  - repeat constructor.
  - reflexivity.
  - reflexivity.
Qed.

Lemma links_are_counted_by_host_witness :
  Urllib.netloc_of (bracketed_ok quiet_world) blog_url = Ok "example.com"
  /\ analyze_links quiet_world blog_url blog_soup
     = Ok ["Total links found: 4"; "Internal links: 2"; "External links: 1"].
Proof.
  split; [reflexivity |].
  exact (proj1 (links_are_counted_by_host quiet_world blog_url "example.com"
                  blog_soup
                  [("https://example.com/about", "example.com");
                   ("https://example.com/contact", "example.com");
                   ("https://other.org", "other.org")]
                  eq_refl
                  ltac:(repeat constructor))).
Defined.

(* ================================================================= *)
(** ** Which findings the scorer penalises *)

Lemma lower_app (a b : string) :
  PyStr.lower (a ++ b) = PyStr.lower a ++ PyStr.lower b.
Proof. induction a as [|c a IH]; simpl; [reflexivity | now rewrite IH]. Qed.

Lemma has_app (x : ascii) (a b : string) :
  Urllib.has x (a ++ b) = Urllib.has x a || Urllib.has x b.
Proof.
  induction a as [|c a IH]; simpl; [reflexivity |].
  now rewrite IH, orb_assoc.
Qed.

Lemma startswith_has (x : ascii) (s k : string) :
  PyStr.startswith s k = true -> Urllib.has x k = true -> Urllib.has x s = true.
Proof.
  intros H. apply startswith_spec in H as [post ->]. intros Hx.
  now rewrite has_app, Hx.
Qed.

(** A string that lacks a character of [k] does not contain [k]. *)
Lemma lacks_contains (x : ascii) (s k : string) :
  Urllib.has x k = true -> Urllib.has x s = false -> PyStr.contains s k = false.
Proof.
  intros Hk Hs. destruct (PyStr.contains s k) eqn:E; [| reflexivity].
  apply contains_spec in E as (pre & post & ->).
  rewrite !has_app, Hk, orb_true_r in Hs. discriminate.
Qed.

Lemma numeric_lower (c : ascii) : numeric c = true -> PyStr.lower_char c = c.
Proof.
  destruct c as [[] [] [] [] [] [] [] []]; try discriminate; reflexivity.
Qed.

Lemma numeric_has (x : ascii) (s : string) :
  Urllib.all_chars numeric s = true -> numeric x = false ->
  Urllib.has x (PyStr.lower s) = false.
Proof.
  intros Hs Hx. induction s as [|c s IH]; simpl in *; [reflexivity |].
  apply andb_true_iff in Hs as [Hc Hs]. rewrite (numeric_lower _ Hc), (IH Hs).
  destruct (Ascii.eqb_spec x c) as [-> | _]; [congruence | reflexivity].
Qed.

Lemma uint_numeric (d : Decimal.uint) :
  Urllib.all_chars numeric (NilEmpty.string_of_uint d) = true.
Proof. induction d; simpl; trivial. Qed.

Lemma of_Z_numeric (n : Z) : Urllib.all_chars numeric (PyStr.of_Z n) = true.
Proof.
  unfold PyStr.of_Z, NilZero.string_of_int, NilZero.string_of_uint.
  destruct (Z.to_int n) as [d | d]; destruct d; try reflexivity;
    simpl; apply (uint_numeric d).
Qed.

(** A literal followed by a printed integer lacks every character that the
    lowercased literal lacks and that is not numeric. *)
Lemma literal_number_lacks (x : ascii) (lit : string) (n : Z) (rest : string) :
  numeric x = false ->
  Urllib.has x (PyStr.lower lit) = false ->
  Urllib.has x (PyStr.lower rest) = false ->
  Urllib.has x (PyStr.lower (lit ++ PyStr.of_Z n ++ rest)) = false.
Proof.
  intros Hx Hl Hr. rewrite !lower_app, !has_app, Hl, Hr.
  now rewrite (numeric_has _ _ (of_Z_numeric n) Hx).
Qed.

Lemma count_issues_app (l r : list string) (kws : list string) :
  count_issues (l ++ r) kws = count_issues l kws + count_issues r kws.
Proof.
  unfold count_issues. rewrite filter_app, length_app. lia.
Qed.

Lemma count_issues_cons (f : string) (l : list string) (kws : list string) :
  count_issues (f :: l) kws
  = b2z (existsb (fun k => PyStr.contains (PyStr.lower f) k) kws)
    + count_issues l kws.
Proof.
  unfold count_issues. simpl.
  destruct (existsb _ kws); simpl List.length; unfold b2z; lia.
Qed.

Lemma count_issues_bounds (l : list string) (kws : list string) :
  0 <= count_issues l kws <= len l.
Proof.
  unfold count_issues, len. pose proof (filter_length_le
    (fun x => existsb (fun k => PyStr.contains (PyStr.lower x) k) kws) l). lia.
Qed.

Lemma has_list (x : ascii) (k : string) :
  In x (list_ascii_of_string k) -> Urllib.has x k = true.
Proof.
  induction k as [|c k IH]; simpl; [contradiction |].
  intros [-> | H]; [now rewrite Ascii.eqb_refl | now rewrite IH, orb_true_r].
Qed.

(** A literal, a printed integer and a literal: no keyword that the
    literals keep apart occurs in it. *)
Lemma number_finding_unpenalised (lit rest : string) (n : Z)
  (kws : list string) :
  forallb (separates lit rest) kws = true ->
  existsb (fun k => PyStr.contains (PyStr.lower (lit ++ PyStr.of_Z n ++ rest)) k)
          kws = false.
Proof.
  intros H. rewrite forallb_forall in H.
  destruct (existsb _ kws) eqn:E; [| reflexivity].
  apply existsb_exists in E as (k & Hk & C).
  apply H in Hk. apply existsb_exists in Hk as (x & Hx & S).
  rewrite !andb_true_iff, !negb_true_iff in S. destruct S as [[S1 S2] S3].
  rewrite (lacks_contains x _ k (has_list _ _ Hx)
             (literal_number_lacks x lit n rest S1 S2 S3)) in C.
  discriminate.
Qed.

Lemma append_empty (s : string) : s ++ "" = s.
Proof. induction s as [|c s IH]; simpl; [reflexivity | now rewrite IH]. Qed.

Lemma number_tail_unpenalised (lit : string) (n : Z) (kws : list string) :
  forallb (separates lit "") kws = true ->
  existsb (fun k => PyStr.contains (PyStr.lower (lit ++ PyStr.of_Z n)) k) kws
  = false.
Proof.
  intros H. rewrite <- (append_empty (PyStr.of_Z n)).
  now apply number_finding_unpenalised.
Qed.

Lemma score_of_with_list (c : category) (l : list string) (a : Analyses) :
  score_of (calculate_scores (with_list c l a)) c = score_for c l.
Proof.
  simpl. unfold sub_score, raw_score, score_for. rewrite clamp_int_spec.
  rewrite (Z.mul_comm (deduction c)). now destruct c.
Qed.

(* ================================================================= *)
(** ** The Links extractor never costs a point *)

Lemma classify_all_pure (w : World) (url base : string) (links : list Tag)
  (b : Buckets) (st : list string) :
  exists r, classify_all w url base links b st = (st, r).
Proof.
  revert b. induction links as [|link rest IH]; intros b; simpl.
  - now eexists.
  - destruct (get link "href") as [href |]; [| apply IH].
    destruct (skipped href); [apply IH |].
    unfold bind. destruct (classify_pure w url base href b st) as [r ->].
    destruct r as [b' | e]; [apply IH | now eexists].
Qed.

Lemma analyze_links_shape (w : World) (url : string) (soup : Soup)
  (findings : list string) :
  analyze_links w url soup = Ok findings ->
  exists n_internal n_external,
    findings = (link_findings (len (anchors soup)) n_internal n_external
                ++ nofollow_findings soup)%list.
Proof.
  unfold analyze_links, returning_analysis, link_checks. cbv zeta.
  unfold bind at 1. unfold lift at 1.
  destruct (Urllib.netloc_of (bracketed_ok w) url) as [base | e];
    [| discriminate].
  unfold bind at 1.
  destruct (classify_all_pure w url base (anchors soup) ([], []) []) as [r ->].
  destruct r as [b | e]; [| discriminate].
  unfold bind, append, skip, ret, nofollow_findings, link_findings.
  destruct (0 <? len (nofollow soup)); intros H; injection H as <-;
    now eexists; eexists.
Qed.

Lemma link_findings_unpenalised (total n_internal n_external : Z) (soup : Soup) :
  count_issues (link_findings total n_internal n_external
                ++ nofollow_findings soup) (issue_keywords Links) = 0.
Proof.
  rewrite count_issues_app. unfold link_findings, nofollow_findings.
  rewrite !count_issues_cons.
  rewrite !number_tail_unpenalised by reflexivity.
  destruct (0 <? len (nofollow soup)); [rewrite count_issues_cons |];
    rewrite ?number_tail_unpenalised by reflexivity; reflexivity.
Qed.

(** X1. Whatever the page, the findings of the Links extractor hold neither
    "broken" nor "invalid": when it returns, the links sub-score is 100. *)
Theorem links_score_is_always_100 (w : World) (url : string) (soup : Soup)
  (findings : list string) (a : Analyses) :
  analyze_links w url soup = Ok findings ->
  count_issues findings (issue_keywords Links) = 0
  /\ score_of (calculate_scores (with_list Links findings a)) Links = 100.
Proof.
  intros H. apply analyze_links_shape in H as (i & e & ->).
  pose proof (link_findings_unpenalised (len (anchors soup)) i e soup) as Z.
  split; [exact Z |]. rewrite score_of_with_list. unfold score_for.
  now rewrite Z.
Qed.

Lemma links_score_is_always_100_witness :
  analyze_links quiet_world blog_url blog_soup
  = Ok ["Total links found: 4"; "Internal links: 2"; "External links: 1"]
  /\ score_of (calculate_scores
                 (with_list Links
                    ["Total links found: 4"; "Internal links: 2";
                     "External links: 1"]
                    {| meta_analysis := []; content_analysis := [];
                       technical_analysis := []; speed_analysis := [];
                       security_analysis := []; link_analysis := [] |}))
              Links = 100.
Proof.
  assert (E : analyze_links quiet_world blog_url blog_soup
              = Ok ["Total links found: 4"; "Internal links: 2";
                    "External links: 1"]) by (vm_compute; reflexivity).
  split; [exact E |].
  exact (proj2 (links_score_is_always_100 quiet_world blog_url blog_soup _ _ E)).
Defined.

(* ================================================================= *)
(** ** Texts built around a printed number *)

Lemma may_start_spec (u x k : string) :
  may_start u k = false -> PyStr.startswith (u ++ x) k = false.
Proof.
  revert u. induction k as [|a k IH]; intros u H; [discriminate |].
  destruct u as [|b u]; [discriminate |]. simpl in *.
  destruct (Ascii.eqb a b); [| reflexivity]. simpl in *. now apply IH.
Qed.

Lemma contains_cons (a : ascii) (s k : string) :
  PyStr.contains (String a s) k
  = PyStr.startswith (String a s) k || PyStr.contains s k.
Proof. reflexivity. Qed.

Lemma no_start_spec (lit x k : string) :
  no_start lit k = true -> PyStr.contains (lit ++ x) k = PyStr.contains x k.
Proof.
  induction lit as [|c lit IH]; intros H; [reflexivity |].
  cbn [no_start] in H. apply andb_true_iff in H as [H1 H2].
  apply negb_true_iff in H1.
  change ((String c lit ++ x)) with (String c (lit ++ x)).
  rewrite contains_cons.
  change (String c (lit ++ x)) with (String c lit ++ x).
  now rewrite (may_start_spec _ x _ H1), IH.
Qed.

Lemma float_char_lower (c : ascii) : float_char c = true -> PyStr.lower_char c = c.
Proof.
  destruct c as [[] [] [] [] [] [] [] []]; try discriminate; reflexivity.
Qed.

Lemma numeric_float_char (s : string) :
  Urllib.all_chars numeric s = true -> Urllib.all_chars float_char s = true.
Proof.
  induction s as [|c s IH]; simpl; [reflexivity |].
  rewrite !andb_true_iff. intros [H1 H2]. split; [| now apply IH].
  unfold float_char. now rewrite H1.
Qed.

Lemma all_chars_app (p : ascii -> bool) (a b : string) :
  Urllib.all_chars p (a ++ b) = Urllib.all_chars p a && Urllib.all_chars p b.
Proof.
  induction a as [|c a IH]; simpl; [reflexivity |].
  now rewrite IH, andb_assoc.
Qed.

Lemma zeros_float (n : nat) : Urllib.all_chars float_char (Fmt.zeros n) = true.
Proof. induction n; simpl; trivial. Qed.

Lemma fixed_float_chars (digits : nat) (x : PyNum.float) :
  Urllib.all_chars float_char (Fmt.fixed digits x) = true.
Proof.
  assert (N : forall n, Urllib.all_chars float_char (PyStr.of_Z n) = true)
    by (intros n; apply numeric_float_char, of_Z_numeric).
  assert (B : forall (b : bool) r q z,
             Urllib.all_chars float_char
               ((if b then "-" else "") ++ PyStr.of_Z r ++ "."
                ++ Fmt.zeros z ++ PyStr.of_Z q) = true).
  { intros b r q z. rewrite !all_chars_app, !N, zeros_float.
    now destruct b. }
  destruct x as [s | s | | s m e]; try apply B; [now destruct s | reflexivity].
Qed.

Section Printed.

Variable p : ascii -> bool.
Hypothesis p_lower : forall c, p c = true -> PyStr.lower_char c = c.

(** A number printed before [x]: a keyword that does not start with a
    character of a number starts nowhere in the number. *)
Lemma number_skip (num x : string) (c : ascii) (k : string) :
  Urllib.all_chars p num = true -> p c = false ->
  PyStr.contains (PyStr.lower num ++ x) (String c k)
  = PyStr.contains x (String c k).
Proof.
  intros Hn Hc. induction num as [|d num IH]; [reflexivity |].
  simpl in Hn. apply andb_true_iff in Hn as [Hd Hn].
  change (PyStr.lower (String d num) ++ x)
    with (String (PyStr.lower_char d) (PyStr.lower num ++ x)).
  rewrite contains_cons, (IH Hn), (p_lower _ Hd).
  cbn [PyStr.startswith].
  destruct (Ascii.eqb_spec c d) as [-> | _]; [congruence | reflexivity].
Qed.

Lemma number_text_clear (lit num rest k : string) :
  Urllib.all_chars p num = true ->
  clear p lit rest k = true ->
  PyStr.contains (PyStr.lower (lit ++ num ++ rest)) k = false.
Proof.
  intros Hn H. unfold clear in H.
  rewrite !andb_true_iff, negb_true_iff in H. destruct H as [[H1 H2] H3].
  destruct k as [|c k]; [discriminate |]. apply negb_true_iff in H2.
  now rewrite !lower_app, (no_start_spec _ _ _ H1), (number_skip _ _ _ _ Hn H2).
Qed.

(** The finding [lit ++ <number> ++ rest] is not penalised by keywords that
    are clear of [lit] and [rest]. *)
Lemma number_text_unpenalised (lit num rest : string) (kws : list string) :
  Urllib.all_chars p num = true ->
  forallb (clear p lit rest) kws = true ->
  existsb (fun k => PyStr.contains (PyStr.lower (lit ++ num ++ rest)) k) kws
  = false.
Proof.
  intros Hn H. rewrite forallb_forall in H.
  destruct (existsb _ kws) eqn:E; [| reflexivity].
  apply existsb_exists in E as (k & Hk & C).
  now rewrite (number_text_clear _ _ _ _ Hn (H k Hk)) in C.
Qed.

End Printed.

Lemma float_text_unpenalised (lit rest : string) (digits : nat)
  (x : PyNum.float) (kws : list string) :
  forallb (clear float_char lit rest) kws = true ->
  existsb (fun k => PyStr.contains
                      (PyStr.lower (lit ++ Fmt.fixed digits x ++ rest)) k) kws
  = false.
Proof.
  apply (number_text_unpenalised float_char float_char_lower),
    fixed_float_chars.
Qed.

Lemma integer_text_unpenalised (lit rest : string) (n : Z) (kws : list string) :
  forallb (clear numeric lit rest) kws = true ->
  existsb (fun k => PyStr.contains (PyStr.lower (lit ++ PyStr.of_Z n ++ rest)) k)
          kws = false.
Proof.
  apply (number_text_unpenalised numeric numeric_lower), of_Z_numeric.
Qed.

Lemma integer_tail_unpenalised (lit : string) (n : Z) (kws : list string) :
  forallb (clear numeric lit "") kws = true ->
  existsb (fun k => PyStr.contains (PyStr.lower (lit ++ PyStr.of_Z n)) k) kws
  = false.
Proof.
  intros H. rewrite <- (append_empty (PyStr.of_Z n)).
  now apply integer_text_unpenalised.
Qed.

(* ================================================================= *)
(** ** The security sub-score *)

Lemma registration_info_findings (w : World) (url : string) :
  extends registry_finding (registration_info w url).
Proof.
  unfold registration_info.
  apply extends_bind; [apply extends_lift | intros domain].
  apply extends_bind; [apply extends_lift | intros info].
  apply extends_bind; [| intros _].
  - destruct (truthy_val (creation_date info)); [| apply extends_ret].
    apply extends_bind; [apply extends_lift | intros c].
    apply extends_bind; [apply extends_lift | intros age].
    apply extends_append. left. now exists age.
  - destruct (truthy_val (expiration_date info)); [| apply extends_ret].
    apply extends_bind; [apply extends_lift | intros c].
    apply extends_bind; [apply extends_lift | intros days].
    apply extends_append. right. now exists days.
Qed.

Lemma registry_findings_unpenalised (l : list string) :
  Forall registry_finding l -> count_issues l (issue_keywords Security) = 0.
Proof.
  induction 1 as [|f l Hf _ IH]; [reflexivity |].
  rewrite count_issues_cons, IH.
  destruct Hf as [[n ->] | [n ->]].
  - now rewrite integer_text_unpenalised.
  - now rewrite integer_tail_unpenalised.
Qed.

Lemma analyze_security_findings (w : World) (url : string) :
  exists extra,
    Forall registry_finding extra
    /\ analyze_security w url
       = Ok (https_finding url
             :: extra ++ (if lookup_failed w url then [could_not_fetch]
                          else []))%list.
Proof.
  destruct (registration_info_findings w url [https_finding url])
    as (extra & r & E & F).
  exists extra. split; [exact F |].
  unfold analyze_security, returning_analysis, security_checks, bind.
  rewrite check_https_appends. unfold try_except, lookup_failed.
  cbn [app]. rewrite E. cbn [snd].
  destruct r; [now rewrite app_nil_r | reflexivity].
Qed.

(** X3. The security sub-score is 100, less 30 when the URL does not start
    with "https", less 30 when the registry lookup failed: the findings
    about the age and the expiry of the domain cost nothing, so the score is
    never below 40. *)
Theorem security_score_formula (w : World) (url : string) (a : Analyses) :
  exists findings,
    analyze_security w url = Ok findings
    /\ score_of (calculate_scores (with_list Security findings a)) Security
       = 100 - 30 * b2z (negb (PyStr.startswith url "https"))
             - 30 * b2z (lookup_failed w url).
Proof.
  destruct (analyze_security_findings w url) as (extra & F & E).
  eexists. split; [exact E |].
  rewrite score_of_with_list. unfold score_for.
  rewrite count_issues_cons, count_issues_app,
    (registry_findings_unpenalised _ F).
  unfold https_finding.
  destruct (PyStr.startswith url "https"), (lookup_failed w url); reflexivity.
Qed.

(* ================================================================= *)
(** ** The speed sub-score *)

Lemma Ok_inj (A : Type) (a b : A) : Ok a = Ok b -> a = b.
Proof. intros H. exact (f_equal (fun r => match r with Ok x => x | Raise _ => a end) H). Qed.

Lemma keyword_penalises (f k : string) (kws : list string) :
  In k kws -> PyStr.contains (PyStr.lower f) k = true ->
  existsb (fun k => PyStr.contains (PyStr.lower f) k) kws = true.
Proof. intros I C. apply existsb_exists. now exists k. Qed.

Lemma large_page_penalised (x : string) :
  existsb (fun k => PyStr.contains
                      (PyStr.lower ("Large page size: " ++ x)) k)
          (issue_keywords Speed) = true.
Proof.
  apply (keyword_penalises _ "large"); [simpl; tauto | reflexivity].
Qed.

Lemma analyze_speed_findings (r : Response) (findings : list string) :
  analyze_speed r = Ok findings ->
  count_issues findings (issue_keywords Speed)
  = b2z (slow_response r) + b2z (large_page r).
Proof.
  unfold analyze_speed, returning_analysis, check_response_time,
    check_page_size, large_page, slow_response.
  cbv zeta. unfold bind, lift, append, skip, ret.
  assert (T : forall l,
             count_issues
               ((if gt (total_seconds r) 2
                 then "Slow server response time: "
                      ++ Fmt.fixed 2 (total_seconds r)
                      ++ "s (recommended: < 2s)"
                 else "Good server response time: "
                      ++ Fmt.fixed 2 (total_seconds r) ++ "s") :: l)
               (issue_keywords Speed)
             = b2z (gt (total_seconds r) 2)
               + count_issues l (issue_keywords Speed)).
  { intros l. rewrite count_issues_cons. f_equal.
    destruct (gt (total_seconds r) 2).
    - now rewrite lower_app.
    - now rewrite float_text_unpenalised. }
  destruct (gt (total_seconds r) 2) eqn:G;
    (destruct (content_length r) as [n | e]; [| discriminate]);
    (destruct (0 <? n);
     [ destruct (true_div n (1024 * 1024)) as [q | e]; [| discriminate];
       destruct (gt q 3) |]);
    intros H; apply Ok_inj in H; subst findings; cbn [app];
    rewrite T, ?count_issues_cons;
    rewrite ?large_page_penalised;
    rewrite ?float_text_unpenalised by reflexivity;
    reflexivity.
Qed.

(** X4. When the Speed extractor returns, the speed sub-score is 100, less
    25 for a response time above 2 seconds, less 25 for a page above 3 MB:
    100, 75 or 50. *)
Theorem speed_score_formula (r : Response) (findings : list string)
  (a : Analyses) :
  analyze_speed r = Ok findings ->
  score_of (calculate_scores (with_list Speed findings a)) Speed
  = 100 - 25 * b2z (slow_response r) - 25 * b2z (large_page r).
Proof.
  intros H. rewrite score_of_with_list. unfold score_for.
  rewrite (analyze_speed_findings _ _ H).
  destruct (slow_response r), (large_page r); reflexivity.
Qed.

Lemma speed_score_formula_witness :
  analyze_speed slow_page
  = Ok ["Slow server response time: 2.50s (recommended: < 2s)";
        "Large page size: 4.00MB (recommended: < 3MB)"]
  /\ score_of (calculate_scores
                 (with_list Speed
                    ["Slow server response time: 2.50s (recommended: < 2s)";
                     "Large page size: 4.00MB (recommended: < 3MB)"]
                    {| meta_analysis := []; content_analysis := [];
                       technical_analysis := []; speed_analysis := [];
                       security_analysis := []; link_analysis := [] |}))
              Speed = 50.
Proof.
  assert (E : analyze_speed slow_page
              = Ok ["Slow server response time: 2.50s (recommended: < 2s)";
                    "Large page size: 4.00MB (recommended: < 3MB)"])
    by (vm_compute; reflexivity).
  split; [exact E |].
  exact (speed_score_formula slow_page _ _ E).
Defined.

(* ================================================================= *)
(** ** The content sub-score *)

(** A text whose characters are all in a class lacks, once lowercased, every
    character that no lowercased character of the class equals. *)
Lemma class_lacks (p : ascii -> bool) (x : ascii) (s : string) :
  (forall c, p c = true -> Ascii.eqb x (PyStr.lower_char c) = false) ->
  Urllib.all_chars p s = true -> Urllib.has x (PyStr.lower s) = false.
Proof.
  intros P. induction s as [|c s IH]; simpl; [reflexivity |].
  intros H. apply andb_true_iff in H as [Hc Hs].
  now rewrite (P c Hc), (IH Hs).
Qed.

Lemma all_chars_join (p : ascii -> bool) (sep : string) (l : list string) :
  Urllib.all_chars p sep = true ->
  Forall (fun x => Urllib.all_chars p x = true) l ->
  Urllib.all_chars p (PyStr.join sep l) = true.
Proof.
  intros Hsep. induction 1 as [|x l Hx Hl IH]; [reflexivity |].
  destruct l as [|y l]; [exact Hx |].
  change (PyStr.join sep (x :: y :: l))
    with (x ++ sep ++ PyStr.join sep (y :: l)).
  now rewrite !all_chars_app, Hx, Hsep, IH.
Qed.

Lemma all_chars_weaken (p q : ascii -> bool) (s : string) :
  (forall c, p c = true -> q c = true) ->
  Urllib.all_chars p s = true -> Urllib.all_chars q s = true.
Proof.
  intros I. induction s as [|c s IH]; simpl; [reflexivity |].
  rewrite !andb_true_iff. intros [H1 H2]. split; [now apply I | now apply IH].
Qed.

Lemma heading_summary_chars (soup : Soup) :
  Urllib.all_chars summary_char (heading_summary soup) = true.
Proof.
  unfold heading_summary. rewrite all_chars_app. apply andb_true_iff.
  split; [reflexivity |].
  apply all_chars_join; [reflexivity |].
  apply Forall_forall. intros x Hx.
  apply in_map_iff in Hx as ([k n] & <- & Hk).
  apply filter_In in Hk as [Hk _]. unfold headings in Hk.
  apply in_map_iff in Hk as (k' & E & Hk'). injection E as <- _.
  cbn [fst snd]. rewrite !all_chars_app.
  rewrite (all_chars_weaken numeric summary_char (PyStr.of_Z _))
    by (try apply of_Z_numeric; intros c Hc; unfold summary_char;
        now rewrite Hc).
  simpl in Hk'. repeat (destruct Hk' as [<- | Hk']; [reflexivity |]).
  contradiction.
Qed.

Lemma summary_char_lacks_m (c : ascii) :
  summary_char c = true -> Ascii.eqb "m" (PyStr.lower_char c) = false.
Proof.
  destruct c as [[] [] [] [] [] [] [] []]; try discriminate; reflexivity.
Qed.

Lemma summary_char_lacks_o (c : ascii) :
  summary_char c = true -> Ascii.eqb "o" (PyStr.lower_char c) = false.
Proof.
  destruct c as [[] [] [] [] [] [] [] []]; try discriminate; reflexivity.
Qed.

Lemma heading_summary_unpenalised (soup : Soup) :
  existsb (fun k => PyStr.contains (PyStr.lower (heading_summary soup)) k)
          (issue_keywords Content) = false.
Proof.
  pose proof (class_lacks _ "m" _ summary_char_lacks_m
                (heading_summary_chars soup)) as M.
  pose proof (class_lacks _ "o" _ summary_char_lacks_o
                (heading_summary_chars soup)) as O.
  cbn [issue_keywords existsb].
  rewrite (lacks_contains "m" _ "missing" eq_refl M),
    (lacks_contains "o" _ "too short" eq_refl O),
    (lacks_contains "m" _ "multiple" eq_refl M).
  reflexivity.
Qed.

Lemma heading_findings_issues (soup : Soup) :
  count_issues (heading_findings soup) (issue_keywords Content)
  = b2z (negb (h1_count soup =? 1)).
Proof.
  assert (0 <= h1_count soup) by (unfold h1_count, len; lia).
  unfold heading_findings.
  destruct (Z.eqb_spec (h1_count soup) 0) as [E | N].
  - rewrite E. cbn [app]. rewrite !count_issues_cons.
    now rewrite heading_summary_unpenalised.
  - destruct (Z.ltb_spec 1 (h1_count soup)).
    + cbn [app]. rewrite !count_issues_cons, heading_summary_unpenalised.
      rewrite (keyword_penalises _ "multiple")
        by (try reflexivity; simpl; tauto).
      destruct (Z.eqb_spec (h1_count soup) 1); [lia | reflexivity].
    + cbn [app]. rewrite !count_issues_cons, heading_summary_unpenalised.
      destruct (Z.eqb_spec (h1_count soup) 1); [reflexivity | lia].
Qed.

Lemma image_findings_issues (soup : Soup) :
  count_issues (image_findings soup) (issue_keywords Content) = 0.
Proof.
  unfold image_findings, total_images_text, without_alt_text, optimize_text.
  cbv zeta.
  destruct (0 <? len (filter without_alt (find_all "img" soup)));
    destruct (0 <? len (filter raster (find_all "img" soup)));
    cbn [app]; rewrite !count_issues_cons;
    rewrite ?integer_tail_unpenalised by reflexivity;
    rewrite ?integer_text_unpenalised by reflexivity;
    reflexivity.
Qed.

Lemma word_count_finding_issues (n : Z) :
  existsb (fun k => PyStr.contains (PyStr.lower (word_count_finding n)) k)
          (issue_keywords Content)
  = (n <? 300).
Proof.
  unfold word_count_finding. destruct (n <? 300).
  - apply (keyword_penalises _ "too short"); [simpl; tauto | reflexivity].
  - now apply integer_text_unpenalised.
Qed.

Lemma keyword_hits_bounds (text : option string) : 0 <= keyword_hits text <= 5.
Proof.
  unfold keyword_hits.
  pose proof (count_issues_bounds (keyword_findings text)
                (issue_keywords Content)) as B.
  assert (len (keyword_findings text) <= 5); [| lia].
  unfold keyword_findings, len, top_keywords.
  destruct text as [t |]; [destruct (PyStr.truthy t) |];
    rewrite ?length_map; [| simpl; lia ..].
  pose proof (firstn_le_length 5 (sorted_desc (word_freq (PyStr.split t)))).
  lia.
Qed.

Lemma analyze_content_findings (soup : Soup) (text : option string) :
  exists findings,
    analyze_content soup text = Ok findings
    /\ count_issues findings (issue_keywords Content)
       = b2z (negb (h1_count soup =? 1)) + b2z (short_text text)
         + keyword_hits text.
Proof.
  assert (A : forall t, t <> "" -> PyStr.truthy t = true)
    by apply truthy_nonempty.
  destruct text as [t |]; [destruct (string_dec t "") as [-> | N] |].
  - eexists. split; [apply analyze_content_without_text; now right |].
    rewrite count_issues_app, heading_findings_issues, image_findings_issues.
    change (short_text (Some "")) with false.
    change (keyword_hits (Some "")) with 0. change (b2z false) with 0. lia.
  - eexists. split; [now apply analyze_content_with_text |].
    rewrite !count_issues_app, heading_findings_issues, image_findings_issues.
    rewrite !count_issues_cons, word_count_finding_issues.
    unfold keyword_hits, keyword_findings, short_text. rewrite (A t N).
    cbn [andb].
    replace (existsb _ (issue_keywords Content)) with false by reflexivity.
    change (b2z false) with 0.
    change (count_issues [] (issue_keywords Content)) with 0. lia.
  - eexists. split; [apply analyze_content_without_text; now left |].
    rewrite count_issues_app, heading_findings_issues, image_findings_issues.
    change (short_text None) with false.
    change (keyword_hits None) with 0. change (b2z false) with 0. lia.
Qed.

(** X5. The Content extractor always returns, and the content sub-score is
    100 less 10 for a number of H1 headings other than one, less 10 for a
    text of fewer than 300 words, less 10 for each of the at most five
    keyword findings that holds a keyword of the scorer: the heading summary
    and the image findings cost nothing, and the score is never below 30. *)
Theorem content_score_formula (soup : Soup) (text : option string)
  (a : Analyses) :
  exists findings,
    analyze_content soup text = Ok findings
    /\ score_of (calculate_scores (with_list Content findings a)) Content
       = 100 - 10 * b2z (negb (h1_count soup =? 1))
             - 10 * b2z (short_text text) - 10 * keyword_hits text
    /\ 0 <= keyword_hits text <= 5
    /\ 30 <= score_of (calculate_scores (with_list Content findings a)) Content.
Proof.
  destruct (analyze_content_findings soup text) as (findings & E & C).
  pose proof (keyword_hits_bounds text) as B.
  exists findings. split; [exact E |].
  rewrite score_of_with_list. unfold score_for. rewrite C.
  cbn [deduction].
  destruct (negb (h1_count soup =? 1)), (short_text text); unfold b2z; lia.
Qed.

(* ================================================================= *)
(** ** The Technical extractor and the URL check *)

Lemma analyze_technical_cases (w : World) (url : string) (r : Response)
  (soup : Soup) :
  analyze_technical w url r soup
  = match path_of w url with
    | Ok path =>
        Ok (header_findings r ++ depth_findings path
            ++ viewport_findings soup)%list
    | Raise e => Raise e
    end.
Proof.
  unfold analyze_technical, returning_analysis, check_response_headers,
    check_url_structure, check_viewport_content, header_findings,
    depth_findings, viewport_findings, viewport_needs, no_gzip.
  unfold bind, lift, append, skip, ret. cbn [app].
  destruct (path_of w url) as [path | e];
    destruct (PyStr.contains
                (PyStr.lower (header_or "Content-Encoding" "" r)) "gzip");
    cbn [negb app]; try reflexivity;
    destruct (3 <? path_depth path); cbn [app];
    destruct (find "meta" "name" "viewport" soup) as [v |];
    try reflexivity;
    cbv zeta;
    destruct (PyStr.contains (get_default v "content" "") "width=device-width"
              && PyStr.contains (get_default v "content" "")
                   "initial-scale=1");
    reflexivity.
Qed.

Lemma default_penalised (lit name default : string) (r : Response) :
  existsb (fun k => PyStr.contains (PyStr.lower (lit ++ default)) k)
          (issue_keywords Technical) = true ->
  b2z (absent name r)
  <= b2z (existsb (fun k => PyStr.contains
                              (PyStr.lower (lit ++ header_or name default r)) k)
                  (issue_keywords Technical)).
Proof.
  intros H. unfold absent, header_or.
  destruct (header name (headers r)); [| now rewrite H].
  clear H. destruct (existsb _ _); cbv [b2z]; lia.
Qed.

Lemma header_findings_issues (r : Response) :
  b2z (absent "Server" r) + b2z (no_gzip r) + b2z (absent "Cache-Control" r)
  + b2z (absent "Expires" r) + b2z (absent "Content-Type" r)
  <= count_issues (header_findings r) (issue_keywords Technical).
Proof.
  unfold header_findings. rewrite !count_issues_cons.
  pose proof (default_penalised "Server: " "Server" "Not disclosed" r eq_refl).
  pose proof (default_penalised "Cache-Control: " "Cache-Control" "Not set" r
                eq_refl).
  pose proof (default_penalised "Expires: " "Expires" "Not set" r eq_refl).
  pose proof (default_penalised "Content-Type: " "Content-Type" "Not set" r
                eq_refl).
  assert (b2z (no_gzip r)
          = b2z (existsb
                   (fun k => PyStr.contains
                      (PyStr.lower
                         (if no_gzip r
                          then "Content compression is not enabled"
                          else "Content compression (gzip) is enabled")) k)
                   (issue_keywords Technical)))
    by (now destruct (no_gzip r)).
  change (count_issues [] (issue_keywords Technical)) with 0. lia.
Qed.

Lemma depth_findings_issues (path : string) :
  count_issues (depth_findings path) (issue_keywords Technical) = 0.
Proof.
  unfold depth_findings. destruct (3 <? path_depth path); [| reflexivity].
  rewrite count_issues_cons. now rewrite integer_text_unpenalised.
Qed.

Lemma viewport_findings_issues (soup : Soup) :
  count_issues (viewport_findings soup) (issue_keywords Technical)
  = b2z (viewport_needs soup).
Proof.
  unfold viewport_findings, viewport_needs.
  destruct (find "meta" "name" "viewport" soup) as [v |]; [| reflexivity].
  now destruct (negb _).
Qed.

Lemma findings_length (r : Response) (path : string) (soup : Soup) :
  5 <= len (header_findings r ++ depth_findings path ++ viewport_findings soup)
    <= 7.
Proof.
  unfold len. rewrite !length_app.
  unfold header_findings, depth_findings, viewport_findings.
  destruct (3 <? path_depth path);
    (destruct (find "meta" "name" "viewport" soup);
     [destruct (viewport_needs soup) |]);
    simpl List.length; lia.
Qed.

(** X6. When the Technical extractor returns, it returns five to seven
    findings, and the technical sub-score loses 20 points for each of the
    headers Server, Cache-Control, Expires and Content-Type that the response
    lacks, for a response that does not announce gzip, and for a viewport
    tag without the two settings: the texts written for a missing header,
    "Not disclosed" and "Not set", hold the keyword "not". *)
Theorem technical_missing_headers_cost (w : World) (url : string)
  (r : Response) (soup : Soup) (findings : list string) (a : Analyses) :
  analyze_technical w url r soup = Ok findings ->
  5 <= len findings <= 7
  /\ score_of (calculate_scores (with_list Technical findings a)) Technical
     <= Z.max 0 (100 - 20 * technical_penalties r soup).
Proof.
  rewrite analyze_technical_cases.
  destruct (path_of w url) as [path | e]; [| discriminate].
  intros H. apply Ok_inj in H. subst findings.
  split; [apply findings_length |].
  rewrite score_of_with_list. unfold score_for, technical_penalties.
  rewrite !count_issues_app, depth_findings_issues, viewport_findings_issues.
  pose proof (header_findings_issues r). cbn [deduction]. lia.
Qed.

Lemma technical_missing_headers_cost_witness :
  analyze_technical quiet_world blog_url slow_page blog_soup
  = Ok ["Server: Not disclosed"; "Content compression is not enabled";
        "Cache-Control: Not set"; "Expires: Not set"; "Content-Type: Not set"]
  /\ score_of (calculate_scores
                 (with_list Technical
                    ["Server: Not disclosed";
                     "Content compression is not enabled";
                     "Cache-Control: Not set"; "Expires: Not set";
                     "Content-Type: Not set"]
                    {| meta_analysis := []; content_analysis := [];
                       technical_analysis := []; speed_analysis := [];
                       security_analysis := []; link_analysis := [] |}))
              Technical
     <= Z.max 0 (100 - 20 * technical_penalties slow_page blog_soup).
Proof.
  assert (E : analyze_technical quiet_world blog_url slow_page blog_soup
              = Ok ["Server: Not disclosed";
                    "Content compression is not enabled";
                    "Cache-Control: Not set"; "Expires: Not set";
                    "Content-Type: Not set"])
    by (vm_compute; reflexivity).
  split; [exact E |].
  exact (proj2 (technical_missing_headers_cost quiet_world blog_url slow_page
                  blog_soup _ _ E)).
Defined.

(** X7. The Technical extractor raises exactly when [urlparse] raises on the
    URL, and then the same exception: no header and no page makes it
    raise. *)
Theorem technical_raises_with_urlparse (w : World) (url : string)
  (r : Response) (soup : Soup) (e : exn) :
  analyze_technical w url r soup = Raise e
  <-> Urllib.urlparse (bracketed_ok w) url "" = Raise e.
Proof.
  rewrite analyze_technical_cases. unfold path_of.
  destruct (Urllib.urlparse (bracketed_ok w) url "") as [[s p] | e'];
    split; intros H; try discriminate; injection H as <-; reflexivity.
Qed.

(** X8. [is_valid_url] never raises; it answers [True] only for a URL that
    [urlparse] splits into the scheme http or https and a network location
    that is not empty; and on such a URL the Technical extractor returns. *)
Theorem valid_url_is_analysable (w : World) (url : string) :
  exists b,
    is_valid_url w url = Ok b
    /\ (b = true ->
        (exists s p,
            Urllib.urlparse (bracketed_ok w) url "" = Ok (s, p)
            /\ (Urllib.scheme s = "http" \/ Urllib.scheme s = "https")
            /\ Urllib.netloc s <> "")
        /\ forall r soup, exists findings,
             analyze_technical w url r soup = Ok findings).
Proof.
  unfold is_valid_url, returning, try_except, bind, lift, ret.
  destruct (Urllib.urlparse (bracketed_ok w) url "") as [[s p] | e] eqn:E;
    cbn [fst snd]; eexists; (split; [reflexivity |]); [| discriminate].
  intros H. apply andb_true_iff in H as [H M].
  apply andb_true_iff in H as [_ N]. split.
  - exists s, p. split; [reflexivity |]. split.
    + unfold Urllib.mem in M. cbn [existsb] in M.
      rewrite orb_false_r in M. apply orb_true_iff in M.
      destruct M as [M | M]; apply String.eqb_eq in M; tauto.
    + intros Z. rewrite Z in N. discriminate.
  - intros r soup. rewrite analyze_technical_cases. unfold path_of.
    rewrite E. now eexists.
Qed.

(* ================================================================= *)
(** ** The meta sub-score *)

Lemma analyze_meta_tags_findings (soup : Soup) :
  analyze_meta_tags soup = Ok (meta_findings soup).
Proof.
  unfold analyze_meta_tags, returning_analysis, bind, meta_findings.
  assert (T : appends_one (check_title soup) (title_finding soup)).
  { unfold check_title, title_finding. destruct (title_of soup) as [t |];
      [destruct (PyStr.truthy t) |]; apply append_appends. }
  assert (D : appends_one (check_description soup) (description_finding soup)).
  { unfold check_description, description_finding.
    destruct (find "meta" "name" "description" soup) as [t |];
      [destruct (get t "content") as [c |]; [destruct (PyStr.truthy c) |] |];
      apply append_appends. }
  assert (R : appends_one (check_robots soup) (robots_finding soup)).
  { unfold check_robots, robots_finding.
    destruct (find "meta" "name" "robots" soup); apply append_appends. }
  assert (C : appends_one (check_canonical soup) (canonical_finding soup)).
  { unfold check_canonical, canonical_finding.
    destruct (find "link" "rel" "canonical" soup); apply append_appends. }
  assert (V : appends_one (check_viewport soup) (viewport_finding soup)).
  { unfold check_viewport, viewport_finding.
    destruct (find "meta" "name" "viewport" soup); apply append_appends. }
  assert (G : appends_one (check_open_graph soup) (open_graph_finding soup)).
  { unfold check_open_graph, open_graph_finding.
    destruct (og_tags soup); apply append_appends. }
  now rewrite T, D, R, C, V, G.
Qed.

Lemma title_length_issue (n : Z) :
  penalised Meta (length_finding "Title tag" 30 60 "50-60" n)
  = negb ((30 <=? n) && (n <=? 60)).
Proof.
  unfold length_finding, penalised.
  destruct (Z.ltb_spec n 30); [| destruct (Z.ltb_spec 60 n)].
  - rewrite (keyword_penalises _ "too") by (try reflexivity; simpl; tauto).
    destruct (Z.leb_spec 30 n); [lia | reflexivity].
  - rewrite (keyword_penalises _ "too") by (try reflexivity; simpl; tauto).
    destruct (Z.leb_spec n 60); [lia | now rewrite andb_false_r].
  - destruct (Z.leb_spec 30 n); [| lia]. destruct (Z.leb_spec n 60); [| lia].
    exact (integer_text_unpenalised "Title tag length is optimal (" " chars)"
             n (issue_keywords Meta) eq_refl).
Qed.

Lemma description_length_issue (n : Z) :
  penalised Meta (length_finding "Meta description" 120 155 "120-155" n)
  = negb ((120 <=? n) && (n <=? 155)).
Proof.
  unfold length_finding, penalised.
  destruct (Z.ltb_spec n 120); [| destruct (Z.ltb_spec 155 n)].
  - rewrite (keyword_penalises _ "too") by (try reflexivity; simpl; tauto).
    destruct (Z.leb_spec 120 n); [lia | reflexivity].
  - rewrite (keyword_penalises _ "too") by (try reflexivity; simpl; tauto).
    destruct (Z.leb_spec n 155); [lia | now rewrite andb_false_r].
  - destruct (Z.leb_spec 120 n); [| lia]. destruct (Z.leb_spec n 155); [| lia].
    exact (integer_text_unpenalised "Meta description length is optimal ("
             " chars)" n (issue_keywords Meta) eq_refl).
Qed.

Lemma title_finding_issue (soup : Soup) :
  penalised Meta (title_finding soup) = negb (within 30 60 (title_of soup)).
Proof.
  unfold title_finding, within. destruct (title_of soup) as [t |];
    [destruct (PyStr.truthy t) |]; try reflexivity.
  now rewrite title_length_issue.
Qed.

Lemma description_finding_issue (soup : Soup) :
  penalised Meta (description_finding soup)
  = negb (within 120 155 (description_of soup)).
Proof.
  unfold description_finding, description_of, within.
  destruct (find "meta" "name" "description" soup) as [t |];
    [destruct (get t "content") as [c |]; [destruct (PyStr.truthy c) |] |];
    try reflexivity.
  now rewrite description_length_issue.
Qed.

(** A text after a literal in which no keyword starts is penalised exactly
    when the text is. *)
Lemma literal_prefix_any (lit x : string) (kws : list string) :
  forallb (no_start (PyStr.lower lit)) kws = true ->
  existsb (fun k => PyStr.contains (PyStr.lower (lit ++ x)) k) kws
  = existsb (fun k => PyStr.contains (PyStr.lower x) k) kws.
Proof.
  induction kws as [|k kws IH]; [reflexivity |].
  cbn [forallb existsb]. intros H. apply andb_true_iff in H as [H1 H2].
  now rewrite (IH H2), lower_app, (no_start_spec _ _ _ H1).
Qed.

Lemma literal_prefix_issue (c : category) (lit x : string) :
  forallb (no_start (PyStr.lower lit)) (issue_keywords c) = true ->
  penalised c (lit ++ x) = penalised c x.
Proof. apply literal_prefix_any. Qed.

Lemma robots_finding_issue (soup : Soup) :
  penalised Meta (robots_finding soup) = robots_costs soup.
Proof.
  unfold robots_finding, robots_costs.
  destruct (find "meta" "name" "robots" soup) as [t |]; [| reflexivity].
  now apply literal_prefix_issue.
Qed.

Lemma canonical_finding_issue (soup : Soup) :
  penalised Meta (canonical_finding soup) = true.
Proof.
  unfold canonical_finding, penalised.
  destruct (find "link" "rel" "canonical" soup) as [t |]; [| reflexivity].
  apply (keyword_penalises _ "no"); [simpl; tauto | reflexivity].
Qed.

Lemma viewport_finding_issue (soup : Soup) :
  penalised Meta (viewport_finding soup)
  = is_none (find "meta" "name" "viewport" soup).
Proof.
  unfold viewport_finding.
  now destruct (find "meta" "name" "viewport" soup).
Qed.

Lemma open_graph_finding_issue (soup : Soup) :
  penalised Meta (open_graph_finding soup) = is_nil (og_tags soup).
Proof.
  unfold open_graph_finding. destruct (og_tags soup) as [|t l]; [reflexivity |].
  now apply integer_text_unpenalised.
Qed.

Lemma meta_findings_issues (soup : Soup) :
  count_issues (meta_findings soup) (issue_keywords Meta) = meta_penalties soup.
Proof.
  unfold meta_findings, meta_penalties. rewrite !count_issues_cons.
  fold (penalised Meta (title_finding soup)).
  fold (penalised Meta (description_finding soup)).
  fold (penalised Meta (robots_finding soup)).
  fold (penalised Meta (canonical_finding soup)).
  fold (penalised Meta (viewport_finding soup)).
  fold (penalised Meta (open_graph_finding soup)).
  rewrite title_finding_issue, description_finding_issue, robots_finding_issue,
    canonical_finding_issue, viewport_finding_issue, open_graph_finding_issue.
  change (count_issues [] (issue_keywords Meta)) with 0.
  change (b2z true) with 1. lia.
Qed.

Lemma meta_penalties_bounds (soup : Soup) : 1 <= meta_penalties soup <= 6.
Proof.
  unfold meta_penalties.
  destruct (negb (within 30 60 (title_of soup))),
    (negb (within 120 155 (description_of soup))), (robots_costs soup),
    (is_none (find "meta" "name" "viewport" soup)), (is_nil (og_tags soup));
    cbv [b2z]; lia.
Qed.

(** X2. The Meta extractor never raises and returns exactly six findings,
    one per check.  The meta sub-score is 100 less 15 for each of: a title
    that is missing or not 30 to 60 characters long, a description that is
    missing or not 120 to 155 characters long, a robots tag that is absent
    or whose content holds a keyword, a missing viewport tag, no Open Graph
    tag -- and less 15 once more, since both findings about the canonical
    URL hold "no": the meta sub-score is never above 85, nor below 10. *)
Theorem meta_score_formula (soup : Soup) (a : Analyses) :
  exists findings,
    analyze_meta_tags soup = Ok findings
    /\ len findings = 6
    /\ score_of (calculate_scores (with_list Meta findings a)) Meta
       = 100 - 15 * meta_penalties soup
    /\ 10 <= score_of (calculate_scores (with_list Meta findings a)) Meta <= 85.
Proof.
  exists (meta_findings soup).
  split; [apply analyze_meta_tags_findings |]. split; [reflexivity |].
  rewrite score_of_with_list. unfold score_for.
  rewrite meta_findings_issues. pose proof (meta_penalties_bounds soup).
  cbn [deduction]. lia.
Qed.

(* ================================================================= *)
(** ** The dashboard and the scorer *)

Lemma append_assoc (a b c : string) : (a ++ b) ++ c = a ++ b ++ c.
Proof. induction a as [|x a IH]; simpl; [reflexivity | now rewrite IH]. Qed.

Lemma contains_trans (s k j : string) :
  PyStr.contains s k = true -> PyStr.contains k j = true ->
  PyStr.contains s j = true.
Proof.
  rewrite !contains_spec. intros (pre & post & ->) (pre' & post' & ->).
  exists (pre ++ pre'), (post' ++ post). now rewrite !append_assoc.
Qed.

(** X9. The Speed tab and the Security tab of the dashboard show as an error
    exactly the findings that the scorer penalises; the Technical tab shows
    as an error the penalised findings but those that only hold "slow"; an
    error of the Links tab or of the Meta tab is a penalised finding. *)
Theorem dashboard_errors_are_penalties (f : string) :
  (speed_box f = StError <-> penalised Speed f = true)
  /\ (security_box f = StError <-> penalised Security f = true)
  /\ (penalised Technical f = true
      <-> technical_box f = StError \/ mentions f "slow" = true)
  /\ (link_box f = StError -> penalised Links f = true)
  /\ (meta_box f = StError -> penalised Meta f = true).
Proof.
  unfold speed_box, security_box, technical_box, link_box, meta_box, penalised,
    mentions.
  cbn [issue_keywords existsb].
  pose proof (fun H => contains_trans (PyStr.lower f) "could not" "not" H
                         eq_refl) as C.
  repeat split; revert C;
    repeat match goal with
           | |- context [PyStr.contains ?s ?k] =>
               destruct (PyStr.contains s k)
           end;
    cbn [orb]; intros C; try (specialize (C eq_refl)); intros;
    try discriminate; try reflexivity; try tauto;
    match goal with
    | H : _ \/ _ |- _ => destruct H; discriminate
    end.
Qed.

(** X10. A page without a robots tag, or without an Open Graph tag, has a
    meta finding that costs 15 points and that the Meta tab of the
    dashboard shows as a success, its text holding "found". *)
Theorem meta_success_yet_penalised (soup : Soup) :
  find "meta" "name" "robots" soup = None \/ og_tags soup = [] ->
  exists findings f,
    analyze_meta_tags soup = Ok findings
    /\ In f findings
    /\ penalised Meta f = true
    /\ meta_box f = StSuccess.
Proof.
  intros H. exists (meta_findings soup).
  destruct H as [H | H].
  - exists (robots_finding soup).
    split; [apply analyze_meta_tags_findings |].
    split; [simpl; tauto |]. unfold robots_finding. rewrite H.
    split; reflexivity.
  - exists (open_graph_finding soup).
    split; [apply analyze_meta_tags_findings |].
    split; [simpl; tauto |]. unfold open_graph_finding. rewrite H.
    split; reflexivity.
Qed.

Lemma meta_success_yet_penalised_witness :
  exists findings f,
    analyze_meta_tags [] = Ok findings
    /\ In f findings
    /\ penalised Meta f = true
    /\ meta_box f = StSuccess.
Proof.
  exact (meta_success_yet_penalised [] (or_introl eq_refl)).
Defined.

(* ================================================================= *)
(** ** Suggestions *)

(** X11. A finding that the scorer penalises and that holds none of
    "needs", "risk" and "invalid", the three keywords of the scorer that the
    suggestion generator does not know, gives a suggestion under the name
    of its category. *)
Theorem penalised_findings_get_suggestions (a : Analyses) (c : category)
  (f : string) :
  In f (analysis_of a c) ->
  penalised c f = true ->
  mentions f "needs" = false ->
  mentions f "risk" = false ->
  mentions f "invalid" = false ->
  is_issue f = true
  /\ In (suggestion_for c f) (generate_improvements a).
Proof.
  intros I P N R V.
  assert (E : is_issue f = true).
  { unfold penalised, mentions, is_issue in *.
    pose proof (fun H => contains_trans (PyStr.lower f) "could not" "not" H
                           eq_refl) as C1.
    pose proof (fun H => contains_trans (PyStr.lower f) "too short" "too" H
                           eq_refl) as C2.
    cbn [trigger_keywords existsb].
    destruct c; cbn [issue_keywords existsb] in P;
      rewrite ?N, ?R, ?V in P; cbn [orb] in P;
      repeat (apply orb_true_iff in P as [P | P]); try discriminate;
      rewrite ?(C1 P), ?(C2 P), ?P, ?orb_true_r; reflexivity. }
  split; [exact E |].
  unfold generate_improvements. apply in_flat_map. exists c.
  split; [destruct c; simpl; tauto |].
  unfold improvements_of. apply in_flat_map. exists f.
  split; [exact I |]. rewrite E. now left.
Qed.

Lemma penalised_findings_get_suggestions_witness :
  is_issue "Missing title tag" = true
  /\ In (suggestion_for Meta "Missing title tag")
        (generate_improvements missing_alt_analyses).
Proof.
  apply (penalised_findings_get_suggestions missing_alt_analyses Meta
           "Missing title tag");
    [simpl; tauto | reflexivity ..].
Defined.

Lemma improvements_of_issues (a : Analyses) (c : category) :
  improvements_of c (analysis_of a c) = map (suggestion_for c) (issues_of a c).
Proof.
  unfold improvements_of, issues_of.
  induction (analysis_of a c) as [|f l IH]; [reflexivity |].
  simpl. destruct (is_issue f); simpl; now rewrite IH.
Qed.

Lemma category_of_suggestion (c : category) (f : string) :
  category_of (suggestion_for c f) = display_name c.
Proof. now destruct c. Qed.

Lemma text_of_suggestion (c : category) (f : string) :
  text_of (suggestion_for c f) = PyInt.strip (rewrite_issue f).
Proof. now destruct c. Qed.

Lemma add_item_new (k t : string) (d : list (string * list string)) :
  ~ In k (keys d) -> add_item k t d = (d ++ [(k, [t])])%list.
Proof.
  induction d as [|[k' l] d IH]; simpl; [reflexivity |].
  intros H. destruct (String.eqb_spec k' k) as [-> | _]; [tauto |].
  rewrite IH; tauto.
Qed.

Lemma add_item_last (k t : string) (l : list string)
  (d : list (string * list string)) :
  ~ In k (keys d) ->
  add_item k t (d ++ [(k, l)]) = (d ++ [(k, (l ++ [t])%list)])%list.
Proof.
  induction d as [|[k' l'] d IH]; simpl.
  - now rewrite String.eqb_refl.
  - intros H. destruct (String.eqb_spec k' k) as [-> | _]; [tauto |].
    rewrite IH; tauto.
Qed.

Lemma group_block (c : category) (l acc : list string)
  (d : list (string * list string)) :
  ~ In (display_name c) (keys d) ->
  fold_left group_step (map (suggestion_for c) l)
            (d ++ [(display_name c, acc)])%list
  = (d ++ [(display_name c,
            (acc ++ map (fun f => PyInt.strip (rewrite_issue f)) l)%list)])%list.
Proof.
  intros H. revert acc. induction l as [|f l IH]; intros acc.
  - simpl. now rewrite app_nil_r.
  - cbn [map fold_left]. unfold group_step at 2.
    rewrite category_of_suggestion, text_of_suggestion, (add_item_last _ _ _ _ H).
    rewrite IH. now rewrite <- app_assoc.
Qed.

Lemma group_category (a : Analyses) (c : category)
  (d : list (string * list string)) :
  ~ In (display_name c) (keys d) ->
  fold_left group_step (improvements_of c (analysis_of a c)) d
  = (d ++ group_of a c)%list.
Proof.
  intros H. rewrite improvements_of_issues. unfold group_of.
  destruct (issues_of a c) as [|f l]; [simpl; now rewrite app_nil_r |].
  cbn [map fold_left]. unfold group_step at 2.
  rewrite category_of_suggestion, text_of_suggestion, (add_item_new _ _ _ H).
  now rewrite (group_block c l _ d H).
Qed.

Lemma keys_group_of (a : Analyses) (c : category) (k : string) :
  In k (keys (group_of a c)) -> k = display_name c.
Proof.
  unfold group_of. destruct (issues_of a c); simpl; [tauto |].
  intros [H | []]. now symmetry.
Qed.

Lemma group_categories (a : Analyses) (cs : list category)
  (d : list (string * list string)) :
  NoDup (map display_name cs) ->
  (forall c, In c cs -> ~ In (display_name c) (keys d)) ->
  fold_left group_step
            (flat_map (fun c => improvements_of c (analysis_of a c)) cs) d
  = (d ++ flat_map (group_of a) cs)%list.
Proof.
  revert d. induction cs as [|c cs IH]; intros d N H.
  - simpl. now rewrite app_nil_r.
  - cbn [flat_map]. rewrite fold_left_app, group_category
      by (apply H; now left).
    inversion N as [|x y Hx Hy]; subst.
    rewrite IH, <- app_assoc; [reflexivity | exact Hy |].
    intros c' Hc' K. unfold keys in K. rewrite map_app in K.
    apply in_app_or in K as [K | K].
    + apply (H c' (or_intror Hc')). exact K.
    + apply keys_group_of in K. apply Hx. rewrite <- K.
      now apply in_map.
Qed.

(** X12. The suggestions tab of the dashboard, fed with the suggestions of
    the generator, shows one group for each category that has a finding with
    a trigger keyword, in the order of the categories, under the name of the
    category, and in it the rewritten findings of the category in their
    order, stripped of blanks at both ends. *)
Theorem suggestions_are_grouped_by_category (a : Analyses) :
  group_improvements (generate_improvements a)
  = flat_map (group_of a) categories.
Proof.
  unfold group_improvements, generate_improvements.
  change (fun d item => add_item (category_of item) (text_of item) d)
    with group_step.
  rewrite (group_categories a categories []); [reflexivity | |].
  - simpl. repeat constructor; simpl; intuition discriminate.
  - intros c _ [].
Qed.

(* ================================================================= *)
(** ** When the Speed extractor raises *)


(* ================================================================= *)
(** ** The scorer and the order of the findings *)

Lemma count_issues_perm (l l' : list string) (kws : list string) :
  Permutation l l' -> count_issues l kws = count_issues l' kws.
Proof.
  induction 1 as [| x l l' _ IH | x y l | l l' l'' _ IH1 _ IH2].
  - reflexivity.
  - now rewrite !count_issues_cons, IH.
  - rewrite !count_issues_cons. lia.
  - now rewrite IH1.
Qed.

(** X14. A sub-score depends on the findings of its category only through
    their number of penalised ones: it is the same for the findings in
    another order, and more findings never make it larger. *)
Theorem sub_score_order_and_growth (c : category) (l l' more : list string)
  (a : Analyses) :
  Permutation l l' ->
  score_of (calculate_scores (with_list c l a)) c
  = score_of (calculate_scores (with_list c l' a)) c
  /\ score_of (calculate_scores (with_list c (l ++ more) a)) c
     <= score_of (calculate_scores (with_list c l a)) c.
Proof.
  intros H. rewrite !score_of_with_list. unfold score_for.
  rewrite count_issues_app, !(count_issues_perm _ _ (issue_keywords c) H).
  pose proof (count_issues_bounds more (issue_keywords c)).
  split; [reflexivity |]. destruct c; cbn [deduction]; lia.
Qed.

Lemma sub_score_order_and_growth_witness :
  Permutation ["Missing title tag"; "No robots meta tag found"]
              ["No robots meta tag found"; "Missing title tag"]
  /\ score_of (calculate_scores
                 (with_list Meta
                    ["Missing title tag"; "No robots meta tag found"]
                    missing_alt_analyses)) Meta
     = score_of (calculate_scores
                   (with_list Meta
                      ["No robots meta tag found"; "Missing title tag"]
                      missing_alt_analyses)) Meta.
Proof.
  split; [apply perm_swap |].
  exact (proj1 (sub_score_order_and_growth Meta
                  ["Missing title tag"; "No robots meta tag found"]
                  ["No robots meta tag found"; "Missing title tag"]
                  [] missing_alt_analyses (perm_swap _ _ _))).
Defined.

(* ================================================================= *)
(** ** The whole analysis *)

Lemma score_of_analysis (a : Analyses) (c : category) :
  score_of (calculate_scores a) c = score_for c (analysis_of a c).
Proof.
  simpl. unfold sub_score, raw_score, score_for. rewrite clamp_int_spec.
  now rewrite (Z.mul_comm (deduction c)).
Qed.

Lemma check_mobile_friendly_returns (w : World) (url : string) :
  exists b, check_mobile_friendly w url = Ok b.
Proof.
  unfold check_mobile_friendly, returning, try_except, bind, lift, ret.
  destruct (mobile_get w url); now eexists.
Qed.

Lemma analyze_cases (w : World) (f : Fetch) (url : string) :
  analyze w f url
  = match get_page f url with
    | Raise e => Raise e
    | Ok response =>
        let soup := parse_html f (body response) in
        match extract_text f url with
        | Raise e => Raise e
        | Ok text =>
            match analyze_meta_tags soup, analyze_content soup text with
            | Ok meta, Ok content =>
                match analyze_technical w url response soup with
                | Raise e => Raise e
                | Ok technical =>
                    match analyze_speed response with
                    | Raise e => Raise e
                    | Ok speed =>
                        match analyze_security w url,
                              analyze_links w url soup,
                              check_mobile_friendly w url with
                        | Ok security, Ok links, Ok mobile =>
                            let a :=
                              {| meta_analysis := meta;
                                 content_analysis := content;
                                 technical_analysis := technical;
                                 speed_analysis := speed;
                                 security_analysis := security;
                                 link_analysis := links |} in
                            Ok {| overall_score := overall (calculate_scores a);
                                  metrics :=
                                    map (fun c =>
                                           (display_name c,
                                            score_of (calculate_scores a) c))
                                        categories;
                                  load_time :=
                                    SFsub PyNum.prec PyNum.emax (end_time f)
                                          (start_time f);
                                  mobile_friendly := mobile;
                                  ssl_certified := PyStr.startswith url "https";
                                  analyses := a;
                                  improvements := generate_improvements a |}
                        | Ok _, Raise e, _ => Raise e
                        | Raise e, _, _ => Raise e
                        | Ok _, Ok _, Raise e => Raise e
                        end
                    end
                end
            | Raise e, _ => Raise e
            | Ok _, Raise e => Raise e
            end
        end
    end.
Proof.
  unfold analyze, returning, bind, lift, ret.
  destruct (get_page f url) as [response | e]; [| reflexivity]. cbv zeta.
  destruct (extract_text f url) as [text | e]; [| reflexivity].
  destruct (analyze_meta_tags _) as [m | e]; [| reflexivity].
  destruct (analyze_content _ _) as [c | e]; [| reflexivity].
  destruct (analyze_technical _ _ _ _) as [t | e]; [| reflexivity].
  destruct (analyze_speed _) as [sp | e]; [| reflexivity].
  destruct (analyze_security _ _) as [se | e]; [| reflexivity].
  destruct (analyze_links _ _ _) as [l | e]; [| reflexivity].
  destruct (check_mobile_friendly _ _) as [b | e]; reflexivity.
Qed.

(** The report of a returning [analyze], with what each extractor gave *)
Ltac open_report w f url rep :=
  rewrite analyze_cases;
  destruct (get_page f url) as [response | e]; [| discriminate]; cbv zeta;
  destruct (extract_text f url) as [text | e]; [| discriminate];
  set (soup := parse_html f (body response));
  rewrite analyze_meta_tags_findings;
  destruct (analyze_content_findings soup text) as (content & -> & Cc);
  rewrite analyze_technical_cases;
  destruct (path_of w url) as [path | e]; [| discriminate];
  destruct (analyze_speed response) as [speed | e] eqn:Es; [| discriminate];
  destruct (analyze_security_findings w url) as (extra & Fx & ->);
  destruct (analyze_links w url soup) as [links | e] eqn:El; [| discriminate];
  destruct (check_mobile_friendly_returns w url) as [mobile ->];
  let H := fresh "H" in intros H; apply Ok_inj in H; subst rep.

(** X15. When [analyze] returns, the page was fetched and its text
    extracted, and the report holds, for the fetched response and the
    parsed page: the six metrics under the names of the categories, in
    order; the meta, content, speed and security metrics given by the number
    of defects of the page (the security metric from the flag
    [ssl_certified] of the report itself); a technical metric bounded by the
    missing headers; a links metric of 100; and the suggestions generated
    from the findings of the report. *)
Theorem report_metrics (w : World) (f : Fetch) (url : string) (rep : Report) :
  analyze w f url = Ok rep ->
  exists response text,
    get_page f url = Ok response
    /\ extract_text f url = Ok text
    /\ metrics rep = map (fun c => (display_name c, metric rep c)) categories
    /\ metric rep Meta
       = 100 - 15 * meta_penalties (parse_html f (body response))
    /\ metric rep Content
       = 100 - 10 * b2z (negb (h1_count (parse_html f (body response)) =? 1))
             - 10 * b2z (short_text text) - 10 * keyword_hits text
    /\ metric rep Technical
       <= Z.max 0 (100 - 20 * technical_penalties
                               response (parse_html f (body response)))
    /\ metric rep Speed
       = 100 - 25 * b2z (slow_response response)
             - 25 * b2z (large_page response)
    /\ metric rep Security
       = 100 - 30 * b2z (negb (ssl_certified rep))
             - 30 * b2z (lookup_failed w url)
    /\ metric rep Links = 100
    /\ improvements rep = generate_improvements (analyses rep).
Proof.
  open_report w f url rep.
  exists response, text. fold soup. unfold metric.
  cbn [metrics analyses improvements ssl_certified].
  rewrite !score_of_analysis. unfold score_for.
  cbn [analysis_of meta_analysis content_analysis technical_analysis
         speed_analysis security_analysis link_analysis].
  repeat (split; [reflexivity |]).
  split; [| split; [| split; [| split; [| split; [| split]]]]].
  - rewrite meta_findings_issues. pose proof (meta_penalties_bounds soup).
    cbn [deduction]. lia.
  - rewrite Cc. pose proof (keyword_hits_bounds text). cbn [deduction].
    destruct (negb (h1_count soup =? 1)), (short_text text); cbv [b2z]; lia.
  - unfold technical_penalties.
    rewrite !count_issues_app, depth_findings_issues, viewport_findings_issues.
    pose proof (header_findings_issues response). cbn [deduction]. lia.
  - rewrite (analyze_speed_findings _ _ Es).
    now destruct (slow_response response), (large_page response).
  - rewrite count_issues_cons, count_issues_app,
      (registry_findings_unpenalised _ Fx).
    unfold https_finding.
    now destruct (PyStr.startswith url "https"), (lookup_failed w url).
  - apply analyze_links_shape in El as (i & x & ->).
    now rewrite link_findings_unpenalised.
  - reflexivity.
Qed.

Lemma report_metrics_witness :
  exists rep,
    analyze quiet_world blog_fetch blog_url = Ok rep
    /\ metric rep Links = 100.
Proof.
  destruct (analyze quiet_world blog_fetch blog_url) as [rep | e] eqn:E;
    [| vm_compute in E; discriminate].
  exists rep. split; [reflexivity |].
  destruct (report_metrics quiet_world blog_fetch blog_url rep E)
    as (_ & _ & _ & _ & _ & _ & _ & _ & _ & _ & H & _).
  exact H.
Defined.

Lemma b2z_bounds (b : bool) : 0 <= b2z b <= 1.
Proof. destruct b; cbv [b2z]; lia. Qed.

Lemma sub_score_analysis (a : Analyses) (c : category) :
  sub_score a c = score_for c (analysis_of a c).
Proof. exact (score_of_analysis a c). Qed.

(** X20. When [analyze] returns, the overall score of the report is at
    least 33 and at most 97: the meta metric is between 10 and 85, the
    content metric at least 30, the speed metric at least 50, the security
    metric at least 40 and the links metric 100. *)
Theorem report_overall_bounds (w : World) (f : Fetch) (url : string)
  (rep : Report) :
  analyze w f url = Ok rep ->
  (33 <= PyNum.value (overall_score rep) <= 97)%Q.
Proof.
  open_report w f url rep. cbn [overall_score].
  match goal with
  | |- context [calculate_scores ?x] => set (a := x)
  end.
  destruct (exact_state_elim _ _ (weighted_sum_exact a)) as (_ & _ & _ & V & _).
  assert (M : 10 <= score_for Meta (meta_findings soup) <= 85).
  { unfold score_for. rewrite meta_findings_issues.
    pose proof (meta_penalties_bounds soup). cbn [deduction]. lia. }
  assert (C : 30 <= score_for Content content <= 100).
  { unfold score_for. rewrite Cc. pose proof (keyword_hits_bounds text).
    pose proof (b2z_bounds (negb (h1_count soup =? 1))).
    pose proof (b2z_bounds (short_text text)). cbn [deduction]. lia. }
  assert (T : forall l, 0 <= score_for Technical l <= 100)
    by (intros l; unfold score_for; lia).
  assert (P : 50 <= score_for Speed speed <= 100).
  { unfold score_for. rewrite (analyze_speed_findings _ _ Es).
    pose proof (b2z_bounds (slow_response response)).
    pose proof (b2z_bounds (large_page response)). cbn [deduction]. lia. }
  assert (S : forall l, len l <= 1 ->
                40 <= score_for Security (https_finding url :: extra ++ l)
                   <= 100).
  { intros l Hl. unfold score_for.
    rewrite count_issues_cons, count_issues_app,
      (registry_findings_unpenalised _ Fx).
    pose proof (b2z_bounds
                  (existsb (fun k => PyStr.contains
                                       (PyStr.lower (https_finding url)) k)
                           (issue_keywords Security))).
    pose proof (count_issues_bounds l (issue_keywords Security)).
    cbn [deduction]. lia. }
  assert (L : score_for Links links = 100).
  { apply analyze_links_shape in El as (i & x & ->). unfold score_for.
    now rewrite link_findings_unpenalised. }
  assert (B : 3300 <= overall_hundredths (sub_score a) <= 9700).
  { unfold overall_hundredths. rewrite !sub_score_analysis. unfold a.
    cbn [analysis_of meta_analysis content_analysis technical_analysis
           speed_analysis security_analysis link_analysis percent].
    rewrite L.
    specialize (T (header_findings response ++ depth_findings path
                   ++ viewport_findings soup)%list).
    specialize (S (if lookup_failed w url then [could_not_fetch] else [])).
    assert (len (if lookup_failed w url then [could_not_fetch] else []) <= 1)
      as K by (destruct (lookup_failed w url); unfold len; simpl; lia).
    specialize (S K). lia. }
  change (overall (calculate_scores a))
    with (clamp (PyNum.PFloat (weighted_sum (sub_score a)))).
  revert V. generalize (PyNum.value
                          (clamp (PyNum.PFloat (weighted_sum (sub_score a))))).
  intros q V. rewrite V. unfold Qle. cbn [Qnum Qden]. lia.
Qed.

Lemma report_overall_bounds_witness :
  exists rep,
    analyze quiet_world blog_fetch blog_url = Ok rep
    /\ (33 <= PyNum.value (overall_score rep) <= 97)%Q.
Proof.
  destruct (analyze quiet_world blog_fetch blog_url) as [rep | e] eqn:E;
    [| vm_compute in E; discriminate].
  exists rep. split; [reflexivity |].
  exact (report_overall_bounds quiet_world blog_fetch blog_url rep E).
Defined.

(** X16. [analyze] returns exactly when the page is fetched, its text is
    extracted, [urlparse] accepts the URL, the Speed extractor and the
    Links extractor return: the Meta, Content and Security extractors and
    the mobile probe never make it raise. *)
Theorem analyze_returns_exactly_when (w : World) (f : Fetch) (url : string) :
  (exists rep, analyze w f url = Ok rep)
  <-> exists response text,
        get_page f url = Ok response
        /\ extract_text f url = Ok text
        /\ (exists s p, Urllib.urlparse (bracketed_ok w) url "" = Ok (s, p))
        /\ (exists speed, analyze_speed response = Ok speed)
        /\ (exists links,
               analyze_links w url (parse_html f (body response)) = Ok links).
Proof.
  rewrite analyze_cases.
  destruct (get_page f url) as [response | e].
  - cbv zeta. destruct (extract_text f url) as [text | e].
    + rewrite analyze_meta_tags_findings.
      destruct (analyze_content_findings (parse_html f (body response)) text)
        as (content & -> & _).
      rewrite analyze_technical_cases. unfold path_of.
      destruct (analyze_security_findings w url) as (extra & _ & ->).
      destruct (check_mobile_friendly_returns w url) as [mobile ->].
      destruct (Urllib.urlparse (bracketed_ok w) url "") as [[s p] | e].
      * destruct (analyze_speed response) as [speed | e] eqn:Es.
        -- destruct (analyze_links w url (parse_html f (body response)))
             as [links | e] eqn:El.
           ++ split; [intros _ | intros _; now eexists].
              exists response, text.
              split; [reflexivity |]. split; [reflexivity |].
              split; [now exists s, p |].
              split; [now exists speed | now exists links].
           ++ split; [intros [rep H]; discriminate |].
              intros (r' & t' & [= <-] & _ & _ & _ & [l H]). congruence.
        -- split; [intros [rep H]; discriminate |].
           intros (r' & t' & [= <-] & _ & _ & [sp H] & _). congruence.
      * split; [intros [rep H]; discriminate |].
        intros (r' & t' & _ & _ & (s & p & H) & _). discriminate.
    + split; [intros [rep H]; discriminate |].
      intros (r' & t' & _ & H & _). discriminate.
  - split; [intros [rep H]; discriminate |].
    intros (r' & t' & H & _). discriminate.
Qed.

(* ================================================================= *)
(** ** [clean_text] *)

Lemma reverse_cons (c : ascii) (r : string) :
  PyInt.reverse (String c r) = PyInt.reverse r ++ String c "".
Proof.
  unfold PyInt.reverse.
  rewrite <- (append_empty (string_of_list_ascii
                              (rev (list_ascii_of_string (String c r))))).
  apply (string_of_rev_cons c (list_ascii_of_string r) "").
Qed.

Lemma list_ascii_app (a b : string) :
  list_ascii_of_string (a ++ b)
  = (list_ascii_of_string a ++ list_ascii_of_string b)%list.
Proof. induction a as [|c a IH]; simpl; [reflexivity | now rewrite IH]. Qed.

Lemma reverse_snoc (a : string) (c : ascii) :
  PyInt.reverse (a ++ String c "") = String c (PyInt.reverse a).
Proof.
  unfold PyInt.reverse. rewrite list_ascii_app. simpl.
  now rewrite rev_unit.
Qed.

Lemma reverse_empty (a : string) : PyInt.reverse a = "" -> a = "".
Proof.
  destruct a as [|c a]; [reflexivity |]. rewrite reverse_cons.
  destruct (PyInt.reverse a); discriminate.
Qed.

Lemma lstrip_snoc (a : string) (c : ascii) :
  PyInt.lstrip (a ++ String c "")
  = match PyInt.lstrip a with
    | EmptyString => PyInt.lstrip (String c "")
    | y => y ++ String c ""
    end.
Proof.
  induction a as [|d a IH]; [reflexivity |].
  change (PyInt.lstrip (String d a ++ String c ""))
    with (if PyStr.is_space d then PyInt.lstrip (a ++ String c "")
          else String d (a ++ String c "")).
  change (PyInt.lstrip (String d a))
    with (if PyStr.is_space d then PyInt.lstrip a else String d a).
  destruct (PyStr.is_space d); [exact IH | reflexivity].
Qed.

Lemma rstrip_reverse (s : string) :
  PyInt.reverse (PyInt.lstrip (PyInt.reverse s)) = rstrip s.
Proof.
  induction s as [|c s IH]; [reflexivity |].
  rewrite reverse_cons, lstrip_snoc. cbn [rstrip]. rewrite <- IH.
  destruct (PyInt.lstrip (PyInt.reverse s)) as [|d y] eqn:E.
  - cbn [PyInt.lstrip]. now destruct (PyStr.is_space c).
  - rewrite reverse_snoc.
    destruct (PyInt.reverse (String d y)) eqn:R; [| reflexivity].
    apply reverse_empty in R. discriminate.
Qed.

Lemma strip_rstrip (s : string) : PyInt.strip s = rstrip (PyInt.lstrip s).
Proof. apply rstrip_reverse. Qed.

Lemma collapse_rstrip (r : string) :
  collapse_from false (rstrip r) = spaced true false r
  /\ match rstrip r with
     | EmptyString => spaced true true r = "" /\ spaced true false r = ""
     | x => String " " (collapse_from true x) = spaced true true r
     end.
Proof.
  induction r as [|c r [A B]]; [repeat split |].
  cbn [rstrip spaced]. destruct (rstrip r) as [|d x] eqn:E.
  - destruct B as [B1 B2]. destruct (PyStr.is_space c) eqn:S.
    + now rewrite B1.
    + cbn [collapse_from]. now rewrite S, B2.
  - remember (String d x) as y eqn:Y. clear Y E.
    cbn [collapse_from]. destruct (PyStr.is_space c) eqn:S.
    + now rewrite B.
    + now rewrite A.
Qed.

Lemma spaced_lstrip (started : bool) (t : string) :
  spaced started false (PyInt.lstrip t) = spaced false false t.
Proof.
  induction t as [|c t IH]; [reflexivity |].
  cbn [PyInt.lstrip spaced]. destruct (PyStr.is_space c) eqn:S; [exact IH |].
  cbn [spaced]. now rewrite S.
Qed.

Lemma collapse_strip (t : string) :
  collapse_from false (PyInt.strip t) = spaced false false t.
Proof.
  rewrite strip_rstrip, (proj1 (collapse_rstrip _)). apply spaced_lstrip.
Qed.

Lemma split_from_word (c : ascii) (cur : list ascii) (s : string) :
  PyStr.split_from (c :: cur) s <> [].
Proof.
  revert c cur. induction s as [|d s IH]; intros c cur; simpl.
  - discriminate.
  - destruct (PyStr.is_space d); [discriminate | apply IH].
Qed.

Lemma join_cons (w : string) (l : list string) :
  PyStr.join " " (w :: l)
  = w ++ match l with
         | [] => ""
         | _ => String " " (PyStr.join " " l)
         end.
Proof. destruct l; simpl; [now rewrite append_empty | reflexivity]. Qed.

(** After a word and blanks: a space and the words that follow, if any *)
Lemma spaced_pending (r : string) :
  spaced true true r
  = match PyStr.split_from [] r with
    | [] => ""
    | _ => String " " (spaced false false r)
    end.
Proof.
  induction r as [|c r IH]; [reflexivity |].
  cbn [spaced PyStr.split_from]. destruct (PyStr.is_space c) eqn:S.
  - cbn [PyStr.flush app]. exact IH.
  - destruct (PyStr.split_from [c] r) eqn:E; [| reflexivity].
    now apply split_from_word in E.
Qed.

Lemma join_split_from (cur : list ascii) (s : string) :
  PyStr.join " " (PyStr.split_from cur s)
  = match cur with
    | [] => spaced false false s
    | _ => string_of_list_ascii (rev cur) ++ spaced true false s
    end.
Proof.
  revert cur. induction s as [|c s IH]; intros cur.
  - destruct cur; [reflexivity |]. cbn [PyStr.split_from PyStr.flush spaced].
    now rewrite append_empty.
  - cbn [PyStr.split_from spaced]. destruct (PyStr.is_space c) eqn:S.
    + destruct cur as [|d cur].
      * exact (IH []).
      * cbn [PyStr.flush app]. rewrite join_cons, (IH []), spaced_pending.
        now destruct (PyStr.split_from [] s).
    + rewrite IH. destruct cur as [|d cur]; [reflexivity |].
      apply string_of_rev_cons.
Qed.

Lemma clean_text_join (text : option string) :
  clean_text text
  = match text with
    | Some t => PyStr.join " " (PyStr.split t)
    | None => ""
    end.
Proof.
  unfold clean_text, truthy_opt, PyStr.split.
  destruct text as [t |]; [| reflexivity].
  rewrite (join_split_from [] t).
  destruct t; [reflexivity |]. apply collapse_strip.
Qed.

Lemma split_from_run (w : list ascii) (cur : list ascii) (rest : string) :
  Forall (fun c => PyStr.is_space c = false) w ->
  PyStr.split_from cur (string_of_list_ascii w ++ rest)
  = PyStr.split_from (rev w ++ cur) rest.
Proof.
  revert cur. induction w as [|c w IH]; intros cur H; [reflexivity |].
  inversion H as [|x y Hc Hw]; subst.
  change (string_of_list_ascii (c :: w) ++ rest)
    with (String c (string_of_list_ascii w ++ rest)).
  cbn [PyStr.split_from]. rewrite Hc, (IH _ Hw). cbn [rev].
  now rewrite <- app_assoc.
Qed.

Lemma split_from_token (w : string) (rest : string) :
  is_token w ->
  PyStr.split_from [] (w ++ String " " rest) = w :: PyStr.split_from [] rest
  /\ PyStr.split_from [] w = [w].
Proof.
  intros [N F].
  assert (E : forall l, PyStr.flush (rev (list_ascii_of_string w) ++ l)%list
                        = [string_of_list_ascii
                             (rev (rev (list_ascii_of_string w) ++ l))]).
  { intros l. destruct w as [|c w]; [congruence |]. simpl.
    destruct (rev (list_ascii_of_string w) ++ [c])%list eqn:R;
      [now apply app_eq_nil in R as [_ R] | reflexivity]. }
  split.
  - rewrite <- (string_of_list_ascii_of_string w) at 1.
    rewrite (split_from_run _ [] _ F). cbn [PyStr.split_from].
    change (PyStr.is_space " ") with true. cbv iota.
    rewrite E, app_nil_r, rev_involutive, string_of_list_ascii_of_string.
    reflexivity.
  - rewrite <- (append_empty w) at 1.
    rewrite <- (string_of_list_ascii_of_string w) at 1.
    rewrite (split_from_run _ [] _ F). cbn [PyStr.split_from].
    now rewrite E, app_nil_r, rev_involutive, string_of_list_ascii_of_string.
Qed.

Lemma split_join (l : list string) :
  Forall is_token l -> PyStr.split (PyStr.join " " l) = l.
Proof.
  unfold PyStr.split. induction 1 as [|w l Hw Hl IH]; [reflexivity |].
  destruct l as [|y l].
  - exact (proj2 (split_from_token w "" Hw)).
  - change (PyStr.join " " (w :: y :: l))
      with (w ++ String " " (PyStr.join " " (y :: l))).
    now rewrite (proj1 (split_from_token w _ Hw)), IH.
Qed.

(** X17. [clean_text] gives the words of the text joined by single spaces,
    that is [' '.join(text.split())], and the empty string for [None]; the
    cleaned text has the words of the text, and cleaning it again changes
    nothing. *)
Theorem clean_text_joins_the_words (text : option string) :
  clean_text text
  = match text with
    | Some t => PyStr.join " " (PyStr.split t)
    | None => ""
    end
  /\ PyStr.split (clean_text text)
     = match text with
       | Some t => PyStr.split t
       | None => []
       end
  /\ clean_text (Some (clean_text text)) = clean_text text.
Proof.
  assert (S : PyStr.split (clean_text text)
              = match text with
                | Some t => PyStr.split t
                | None => []
                end).
  { rewrite clean_text_join. destruct text as [t |]; [| reflexivity].
    apply split_join, split_tokens. }
  split; [apply clean_text_join |]. split; [exact S |].
  rewrite (clean_text_join (Some _)), S, clean_text_join.
  now destruct text.
Qed.

(* ================================================================= *)
(** ** The suggestions about links *)

Lemma replace_from_absent (old new s : string) :
  PyStr.contains s old = false -> PyStr.replace_from old new O s = s.
Proof.
  induction s as [|c s IH]; [reflexivity |].
  rewrite contains_cons. intros H. apply orb_false_iff in H as [H1 H2].
  cbn [PyStr.replace_from]. now rewrite H1, (IH H2).
Qed.

Lemma replace_absent (s old new : string) :
  old <> "" -> PyStr.contains s old = false -> PyStr.replace s old new = s.
Proof.
  intros N H. destruct old; [congruence |]. now apply replace_from_absent.
Qed.

(** A finding that holds none of the five words is its own suggestion. *)
Lemma rewrite_issue_fixed (f : string) :
  forallb (fun r => negb (PyStr.contains f (fst r))) substitutions = true ->
  rewrite_issue f = f.
Proof.
  unfold rewrite_issue, substitutions. cbn [forallb fold_left fst snd].
  rewrite !andb_true_iff, !negb_true_iff.
  intros (H1 & H2 & H3 & H4 & H5 & _).
  rewrite (replace_absent f "Missing") by (try discriminate; assumption).
  rewrite (replace_absent f "Too short") by (try discriminate; assumption).
  rewrite (replace_absent f "Too long") by (try discriminate; assumption).
  rewrite (replace_absent f "No ") by (try discriminate; assumption).
  now rewrite (replace_absent f "Not ") by (try discriminate; assumption).
Qed.

Lemma numeric_lacks (x : ascii) (s : string) :
  Urllib.all_chars numeric s = true -> numeric x = false ->
  Urllib.has x s = false.
Proof.
  intros Hs Hx. induction s as [|c s IH]; simpl in *; [reflexivity |].
  apply andb_true_iff in Hs as [Hc Hs]. rewrite (IH Hs).
  destruct (Ascii.eqb_spec x c) as [-> | _]; [congruence | reflexivity].
Qed.

(** A literal and a printed integer do not hold a word with a character
    that is not numeric and that the literal lacks. *)
Lemma number_tail_lacks (x : ascii) (lit k : string) (n : Z) :
  Urllib.has x k = true -> numeric x = false -> Urllib.has x lit = false ->
  PyStr.contains (lit ++ PyStr.of_Z n) k = false.
Proof.
  intros Hk Hx Hl. apply (lacks_contains x); [exact Hk |].
  now rewrite has_app, Hl, (numeric_lacks _ _ (of_Z_numeric n) Hx).
Qed.

Lemma nofollow_suggestion (n : Z) :
  improvements_of Links ["Links with nofollow: " ++ PyStr.of_Z n]
  = ["[Links] Links with nofollow: " ++ PyStr.of_Z n].
Proof.
  unfold improvements_of. cbn [flat_map app].
  assert (I : is_issue ("Links with nofollow: " ++ PyStr.of_Z n) = true)
    by (apply (keyword_penalises _ "no"); [simpl; tauto | reflexivity]).
  rewrite I. unfold suggestion_for. rewrite rewrite_issue_fixed; [reflexivity |].
  unfold substitutions. cbn [forallb fst].
  rewrite (number_tail_lacks "M" _ "Missing"), (number_tail_lacks "T" _ "Too short"),
    (number_tail_lacks "T" _ "Too long"), (number_tail_lacks "N" _ "No "),
    (number_tail_lacks "N" _ "Not ") by reflexivity.
  reflexivity.
Qed.

Lemma count_findings_no_suggestion (total n_internal n_external : Z) :
  improvements_of Links (link_findings total n_internal n_external) = [].
Proof.
  unfold improvements_of, link_findings, is_issue. cbn [flat_map].
  now rewrite !integer_tail_unpenalised.
Qed.

Lemma improvements_of_app (c : category) (l r : list string) :
  improvements_of c (l ++ r)
  = (improvements_of c l ++ improvements_of c r)%list.
Proof. unfold improvements_of. apply flat_map_app. Qed.

(** X18. When the Links extractor returns, its only finding that gives a
    suggestion is the one about nofollow links, which holds "no": a page
    with nofollow links gets the suggestion "[Links] Links with nofollow: n",
    the finding itself, although its links sub-score is 100; a page without
    them gets no suggestion about links. *)
Theorem links_suggestions (w : World) (url : string) (soup : Soup)
  (findings : list string) :
  analyze_links w url soup = Ok findings ->
  improvements_of Links findings
  = if 0 <? len (nofollow soup)
    then ["[Links] Links with nofollow: " ++ PyStr.of_Z (len (nofollow soup))]
    else [].
Proof.
  intros H. apply analyze_links_shape in H as (i & e & ->).
  rewrite improvements_of_app, count_findings_no_suggestion.
  unfold nofollow_findings.
  destruct (0 <? len (nofollow soup)); [apply nofollow_suggestion | reflexivity].
Qed.

Lemma links_suggestions_witness :
  analyze_links quiet_world blog_url nofollow_soup
  = Ok ["Total links found: 1"; "Internal links: 0"; "External links: 1";
        "Links with nofollow: 1"]
  /\ improvements_of Links
       ["Total links found: 1"; "Internal links: 0"; "External links: 1";
        "Links with nofollow: 1"]
     = ["[Links] Links with nofollow: 1"].
Proof.
  assert (E : analyze_links quiet_world blog_url nofollow_soup
              = Ok ["Total links found: 1"; "Internal links: 0";
                    "External links: 1"; "Links with nofollow: 1"])
    by (vm_compute; reflexivity).
  split; [exact E |].
  exact (links_suggestions quiet_world blog_url nofollow_soup _ E).
Defined.

(* ================================================================= *)
(** ** The Content tab of the dashboard *)

Lemma startswith_sep (q : ascii) (x b k : string) :
  Urllib.has q k = false ->
  PyStr.startswith (x ++ String q b) k = PyStr.startswith x k.
Proof.
  revert x. induction k as [|a k IH]; intros x H; [now destruct x |].
  cbn [Urllib.has] in H. apply orb_false_iff in H as [H1 H2].
  destruct x as [|c x]; cbn [String.append PyStr.startswith].
  - rewrite Ascii.eqb_sym in H1. now rewrite H1.
  - now rewrite (IH x H2).
Qed.

(** A word that lacks the character [q] occurs in [a ++ q ++ b] only inside
    [a] or inside [b]. *)
Lemma contains_sep (q : ascii) (a b k : string) :
  Urllib.has q k = false ->
  PyStr.contains (a ++ String q b) k
  = PyStr.contains a k || PyStr.contains b k.
Proof.
  intros H. induction a as [|c a IH].
  - pose proof (startswith_sep q "" b k H) as E.
    change ("" ++ String q b) with (String q b) in *.
    rewrite contains_cons, E.
    cbn [PyStr.contains]. now rewrite orb_false_r.
  - change (String c a ++ String q b) with (String c (a ++ String q b)).
    rewrite !contains_cons, IH, orb_assoc.
    change (String c (a ++ String q b)) with (String c a ++ String q b).
    now rewrite (startswith_sep q (String c a) b k H).
Qed.

Lemma tail_char_lacks_k (c : ascii) :
  tail_char c = true -> Ascii.eqb "k" (PyStr.lower_char c) = false.
Proof.
  destruct c as [[] [] [] [] [] [] [] []]; try discriminate; reflexivity.
Qed.

Lemma summary_char_lacks_k (c : ascii) :
  summary_char c = true -> Ascii.eqb "k" (PyStr.lower_char c) = false.
Proof.
  destruct c as [[] [] [] [] [] [] [] []]; try discriminate; reflexivity.
Qed.

Lemma shown_density_chars (count word_count : Z) :
  Urllib.all_chars float_char (shown_density count word_count) = true.
Proof.
  unfold shown_density. destruct (density count word_count);
    [apply fixed_float_chars | reflexivity].
Qed.

Lemma keyword_finding_mention (n : Z) (e : string * Z) :
  mentions (keyword_finding n e) "keywords" = mentions (fst e) "keywords".
Proof.
  unfold keyword_finding, keyword_text, mentions.
  set (tail := shown_density (snd e) n ++ "% (" ++ PyStr.of_Z (snd e)
               ++ " occurrences)").
  change ("- " ++ "'" ++ fst e ++ "': " ++ tail)
    with ("- '" ++ fst e ++ String "'" (": " ++ tail)).
  rewrite lower_app, (no_start_spec (PyStr.lower "- '") _ "keywords" eq_refl).
  rewrite lower_app.
  change (PyStr.lower (String "'" (": " ++ tail)))
    with (String "'" (PyStr.lower (": " ++ tail))).
  rewrite contains_sep by reflexivity.
  rewrite (lacks_contains "k" (PyStr.lower (": " ++ tail)) "keywords" eq_refl).
  - apply orb_false_r.
  - apply (class_lacks tail_char); [apply tail_char_lacks_k |].
    unfold tail. rewrite !all_chars_app.
    rewrite (all_chars_weaken float_char tail_char _
               (fun c H => eq_trans (f_equal (fun b => b || _) H) eq_refl)
               (shown_density_chars _ _)).
    rewrite (all_chars_weaken numeric tail_char (PyStr.of_Z _))
      by (try apply of_Z_numeric; intros c Hc;
          unfold tail_char, float_char; now rewrite Hc).
    reflexivity.
Qed.

Lemma partition_sep (c : ascii) (a b : string) :
  Urllib.has c a = false ->
  Urllib.partition c (a ++ String c b) = (a, Some b).
Proof.
  induction a as [|d a IH]; cbn [String.append Urllib.partition Urllib.has].
  - intros _. now rewrite Ascii.eqb_refl.
  - intros H. apply orb_false_iff in H as [H1 H2]. now rewrite H1, (IH H2).
Qed.

Lemma keyword_finding_category (n : Z) (e : string * Z) :
  Urllib.has ":" (fst e) = false ->
  metric_category (keyword_finding n e) = "- '" ++ fst e ++ "'".
Proof.
  intros H. unfold metric_category, keyword_finding, keyword_text.
  set (tail := shown_density (snd e) n ++ "% (" ++ PyStr.of_Z (snd e)
               ++ " occurrences)").
  assert (E : "- " ++ "'" ++ fst e ++ "': " ++ tail
              = ("- '" ++ fst e ++ "'") ++ String ":" (" " ++ tail)).
  { change ("- " ++ "'" ++ fst e ++ "': " ++ tail)
      with ("- '" ++ fst e ++ "'" ++ String ":" (" " ++ tail)).
    change ("- '" ++ fst e ++ "'") with ("- '" ++ (fst e ++ "'")).
    now rewrite !append_assoc. }
  assert (L : Urllib.has ":" ("- '" ++ fst e ++ "'") = false).
  { change ("- '" ++ fst e ++ "'") with ("- '" ++ (fst e ++ "'")).
    now rewrite !has_app, H. }
  rewrite E, has_app, (partition_sep _ _ _ L). cbn [Urllib.has fst].
  now rewrite Ascii.eqb_refl, orb_true_r.
Qed.

Lemma content_tab_from (items : list string)
  (tab : list (string * list string) * list string) :
  snd (fold_left file_item items tab)
  = (snd tab ++ filter (fun f => mentions f "keywords") items)%list.
Proof.
  revert tab. induction items as [|f l IH]; intros tab; cbn [fold_left filter].
  - now rewrite app_nil_r.
  - rewrite IH. unfold file_item.
    destruct (mentions f "keywords"); cbn [snd]; [| reflexivity].
    now rewrite <- app_assoc.
Qed.

Lemma not_mentioned (f key : string) :
  existsb (fun k => PyStr.contains (PyStr.lower f) k) [key] = false ->
  mentions f key = false.
Proof. cbn [existsb]. now rewrite orb_false_r. Qed.

Lemma heading_findings_keywords (soup : Soup) :
  filter (fun f => mentions f "keywords") (heading_findings soup) = [].
Proof.
  assert (S : mentions (heading_summary soup) "keywords" = false).
  { apply (lacks_contains "k"); [reflexivity |].
    apply (class_lacks summary_char);
      [apply summary_char_lacks_k | apply heading_summary_chars]. }
  unfold heading_findings, multiple_h1_text.
  destruct (h1_count soup =? 0); [| destruct (1 <? h1_count soup)];
    cbn [app filter]; rewrite S; try reflexivity.
  now rewrite not_mentioned by now apply integer_text_unpenalised.
Qed.

Lemma image_findings_keywords (soup : Soup) :
  filter (fun f => mentions f "keywords") (image_findings soup) = [].
Proof.
  unfold image_findings, total_images_text, without_alt_text, optimize_text.
  cbv zeta.
  destruct (0 <? len (filter without_alt (find_all "img" soup)));
    destruct (0 <? len (filter raster (find_all "img" soup)));
    cbn [app filter];
    rewrite ?not_mentioned
      by (apply integer_tail_unpenalised || apply integer_text_unpenalised;
          reflexivity);
    reflexivity.
Qed.

Lemma word_count_finding_keywords (n : Z) :
  mentions (word_count_finding n) "keywords" = false.
Proof.
  unfold word_count_finding. apply not_mentioned.
  destruct (n <? 300); now apply integer_text_unpenalised.
Qed.

Lemma filter_map_mention (n : Z) (l : list (string * Z)) :
  filter (fun f => mentions f "keywords") (map (keyword_finding n) l)
  = map (keyword_finding n)
        (filter (fun e => mentions (fst e) "keywords") l).
Proof.
  induction l as [|e l IH]; [reflexivity |].
  cbn [map filter]. rewrite keyword_finding_mention, IH.
  now destruct (mentions (fst e) "keywords").
Qed.

(** X19. Of the findings of the Content extractor, the keyword column of
    the Content tab shows the header line and only the keyword findings of
    words that themselves hold "keywords"; every other keyword finding is
    filed with the content metrics, and when its word has no colon, in a
    group named after the word. *)
Theorem content_tab_keyword_column (soup : Soup) (text : option string) :
  exists findings,
    analyze_content soup text = Ok findings
    /\ snd (content_tab findings) = keyword_column text
    /\ forall n e tab,
         mentions (fst e) "keywords" = false ->
         Urllib.has ":" (fst e) = false ->
         file_item tab (keyword_finding n e)
         = (add_item ("- '" ++ fst e ++ "'") (keyword_finding n e) (fst tab),
            snd tab).
Proof.
  assert (F : forall n e tab,
             mentions (fst e) "keywords" = false ->
             Urllib.has ":" (fst e) = false ->
             file_item tab (keyword_finding n e)
             = (add_item ("- '" ++ fst e ++ "'") (keyword_finding n e)
                         (fst tab), snd tab)).
  { intros n e tab M C. unfold file_item.
    now rewrite keyword_finding_mention, M, (keyword_finding_category _ _ C). }
  unfold content_tab, keyword_column.
  destruct text as [t |]; [destruct (string_dec t "") as [-> | N] |].
  - eexists. split; [apply analyze_content_without_text; now right |].
    split; [| exact F].
    now rewrite content_tab_from, filter_app, heading_findings_keywords,
      image_findings_keywords.
  - eexists. split; [now apply analyze_content_with_text |].
    split; [| exact F].
    rewrite content_tab_from, !filter_app, heading_findings_keywords,
      image_findings_keywords, (truthy_nonempty _ N).
    cbn [app filter snd]. rewrite word_count_finding_keywords.
    change (mentions "Top 5 keywords and their density:" "keywords") with true.
    cbv iota. now rewrite filter_map_mention.
  - eexists. split; [apply analyze_content_without_text; now left |].
    split; [| exact F].
    now rewrite content_tab_from, filter_app, heading_findings_keywords,
      image_findings_keywords.
Qed.
